(** * Service discovery registry and client: a shallow embedding

    The registry (packages/service-discover) keeps a map from service id to
    service record behind HTTP handlers; the client library
    (libs/go-commons/servicediscovery) talks to it with a retrying transport.

    Conventions of the embedding:
    - Go [int] and [time.Time] are integers ([Z]); a [time.Time] is the clock
      reading it was made from.
    - A Go slice or map that can be [nil] is an [option]: [None] is [nil],
      [Some []] is the empty, non-nil collection a JSON [[]] decodes to.
    - [map[string]*domain.Service] is a [gmap string Service].  Every object
      in the map is created by one Register call and stored under one key;
      a handler's assignments through the pointer [GetByID] returns are a
      write to the record stored under that key ([handler.assign]), made
      before [repo.Update] is called.
    - The environment is passed in as explicit arguments: the decoded
      request body, the string [uuid.New] returns, the advance of the
      clock seen by each [time.Now] (the clock does not run backwards),
      and the outcome of each call to the HTTP transport. *)

From Stdlib Require Import ZArith String List Lia.
From stdpp Require Import gmap strings list fin_maps.

Local Open Scope Z_scope.
Local Open Scope string_scope.

(** ** package domain *)

Module domain.

Inductive ServiceStatus : Type :=
| StatusHealthy
| StatusUnhealthy.

Record Route : Type := mkRoute {
  Path : string;
  Methods : option (list string)
}.

Record Service : Type := mkService {
  ID : string;
  Name : string;
  Host : string;
  Port : Z;
  Protocol : string;
  BasePath : string;
  Routes : option (list Route);
  HealthCheck : string;
  Tags : option (list string);
  Metadata : option (gmap string string);
  Status : ServiceStatus;
  LastHeartbeat : Z;
  RegisteredAt : Z
}.

(** Field assignments [service.F = v]. *)
Definition set_Host (v : string) (s : Service) : Service :=
  mkService (ID s) (Name s) v (Port s) (Protocol s) (BasePath s) (Routes s)
    (HealthCheck s) (Tags s) (Metadata s) (Status s) (LastHeartbeat s)
    (RegisteredAt s).
Definition set_Port (v : Z) (s : Service) : Service :=
  mkService (ID s) (Name s) (Host s) v (Protocol s) (BasePath s) (Routes s)
    (HealthCheck s) (Tags s) (Metadata s) (Status s) (LastHeartbeat s)
    (RegisteredAt s).
Definition set_Protocol (v : string) (s : Service) : Service :=
  mkService (ID s) (Name s) (Host s) (Port s) v (BasePath s) (Routes s)
    (HealthCheck s) (Tags s) (Metadata s) (Status s) (LastHeartbeat s)
    (RegisteredAt s).
Definition set_BasePath (v : string) (s : Service) : Service :=
  mkService (ID s) (Name s) (Host s) (Port s) (Protocol s) v (Routes s)
    (HealthCheck s) (Tags s) (Metadata s) (Status s) (LastHeartbeat s)
    (RegisteredAt s).
Definition set_Routes (v : option (list Route)) (s : Service) : Service :=
  mkService (ID s) (Name s) (Host s) (Port s) (Protocol s) (BasePath s) v
    (HealthCheck s) (Tags s) (Metadata s) (Status s) (LastHeartbeat s)
    (RegisteredAt s).
Definition set_HealthCheck (v : string) (s : Service) : Service :=
  mkService (ID s) (Name s) (Host s) (Port s) (Protocol s) (BasePath s)
    (Routes s) v (Tags s) (Metadata s) (Status s) (LastHeartbeat s)
    (RegisteredAt s).
Definition set_Tags (v : option (list string)) (s : Service) : Service :=
  mkService (ID s) (Name s) (Host s) (Port s) (Protocol s) (BasePath s)
    (Routes s) (HealthCheck s) v (Metadata s) (Status s) (LastHeartbeat s)
    (RegisteredAt s).
Definition set_Metadata (v : option (gmap string string)) (s : Service)
  : Service :=
  mkService (ID s) (Name s) (Host s) (Port s) (Protocol s) (BasePath s)
    (Routes s) (HealthCheck s) (Tags s) v (Status s) (LastHeartbeat s)
    (RegisteredAt s).
Definition set_Status (v : ServiceStatus) (s : Service) : Service :=
  mkService (ID s) (Name s) (Host s) (Port s) (Protocol s) (BasePath s)
    (Routes s) (HealthCheck s) (Tags s) (Metadata s) v (LastHeartbeat s)
    (RegisteredAt s).
Definition set_LastHeartbeat (v : Z) (s : Service) : Service :=
  mkService (ID s) (Name s) (Host s) (Port s) (Protocol s) (BasePath s)
    (Routes s) (HealthCheck s) (Tags s) (Metadata s) (Status s) v
    (RegisteredAt s).

Module RegisterServiceRequest.
Record t : Type := mk {
  Name : string;        (* binding:"required" *)
  Host : string;        (* binding:"required" *)
  Port : Z;             (* binding:"required,min=1,max=65535" *)
  Protocol : string;
  BasePath : string;
  Routes : option (list Route);
  HealthCheck : string;
  Tags : option (list string);
  Metadata : option (gmap string string)
}.
End RegisterServiceRequest.

Module UpdateServiceRequest.
Record t : Type := mk {
  Host : string;
  Port : Z;             (* binding:"omitempty,min=1,max=65535" *)
  Protocol : string;
  BasePath : string;
  Routes : option (list Route);
  HealthCheck : string;
  Tags : option (list string);
  Metadata : option (gmap string string)
}.
End UpdateServiceRequest.

End domain.

(** ** package repository *)

Module repository.
Import domain.

Inductive error : Type :=
| ErrServiceNotFound
| ErrServiceAlreadyExists.

(** [err.Error()] *)
Definition Error (err : error) : string :=
  match err with
  | ErrServiceNotFound => "service not found"
  | ErrServiceAlreadyExists => "service already exists"
  end.

(** [MemoryRepository.services]; the mutex has no sequential content. *)
Definition NewMemoryRepository : gmap string Service := ∅.

(** Each operation returns the Go [error] ([None] is [nil]) and the map
    as the call leaves it. *)
Definition Create (service : Service) (services : gmap string Service)
  : option error * gmap string Service :=
  match services !! ID service with
  | Some _ => (Some ErrServiceAlreadyExists, services)
  | None => (None, <[ID service := service]> services)
  end.

(** [GetByID] does not write: its result is the error or the record. *)
Definition GetByID (id : string) (services : gmap string Service)
  : error + Service :=
  match services !! id with
  | None => inl ErrServiceNotFound
  | Some service => inr service
  end.

(** Go iterates a map in an unspecified order; [map_to_list] fixes one. *)
Definition GetAll (services : gmap string Service) : list Service :=
  (map_to_list services).*2.

Definition Update (service : Service) (services : gmap string Service)
  : option error * gmap string Service :=
  match services !! ID service with
  | None => (Some ErrServiceNotFound, services)
  | Some _ => (None, <[ID service := service]> services)
  end.

Definition Delete (id : string) (services : gmap string Service)
  : option error * gmap string Service :=
  match services !! id with
  | None => (Some ErrServiceNotFound, services)
  | Some _ => (None, delete id services)
  end.

Definition Exists (id : string) (services : gmap string Service) : bool :=
  match services !! id with
  | Some _ => true
  | None => false
  end.

End repository.

(** ** The functions of Go's [strings] package the handlers call *)

Module gostrings.

(** [strings.HasPrefix(s, prefix)] *)
Fixpoint HasPrefix (s prefix : string) {struct prefix} : bool :=
  match prefix with
  | EmptyString => true
  | String b prefix' =>
      match s with
      | EmptyString => false
      | String a s' => if Ascii.eqb a b then HasPrefix s' prefix' else false
      end
  end.

(** [strings.Contains(s, substr)]: [substr] starts at some offset of [s]. *)
Fixpoint Contains (s substr : string) : bool :=
  HasPrefix s substr ||
  match s with
  | EmptyString => false
  | String _ s' => Contains s' substr
  end.

(** ASCII lower-casing, which is what [strings.ToLower] does on ASCII
    input.  The handlers take the lower-casing function as a parameter;
    this one instantiates it in the examples. *)
Definition lower_ascii (c : Ascii.ascii) : Ascii.ascii :=
  let n := Ascii.nat_of_ascii c in
  if (65 <=? n)%nat && (n <=? 90)%nat then Ascii.ascii_of_nat (n + 32) else c.

Fixpoint ToLowerASCII (s : string) : string :=
  match s with
  | EmptyString => EmptyString
  | String c s' => String (lower_ascii c) (ToLowerASCII s')
  end.

End gostrings.

(** ** package handler *)

Module handler.
Import domain.

(** *** Requests and responses *)

(** What [c.ShouldBindJSON] finds in the request body: bytes that do not
    decode into the request struct, or the decoded struct. *)
Inductive RequestBody (A : Type) : Type :=
| Malformed
| Decoded (req : A).
Arguments Malformed {A}.
Arguments Decoded {A} req.

(** The text of an error sent to the caller.  The text of a binding
    error is chosen by the binding library. *)
Inductive ErrorText : Type :=
| BindingError
| Text (s : string).

(** The JSON documents the handlers send. *)
Inductive Payload : Type :=
| PService (service : Service)
| PError (error : ErrorText)
| PServices (services : option (list Service)) (count : Z)
| PMessage (message : string)
| PHeartbeat (message : string) (last_heartbeat : Z).

(** [c.JSON(code, payload)] *)
Record Response : Type := JSON { code : Z; payload : Payload }.

Definition StatusOK : Z := 200.
Definition StatusCreated : Z := 201.
Definition StatusBadRequest : Z := 400.
Definition StatusNotFound : Z := 404.
Definition StatusInternalServerError : Z := 500.

(** *** Binding: the validation tags of the request structs *)

(** [required] on a string and on an int: the value is not the zero value. *)
Definition required_string (s : string) : bool := negb (s =? "").
Definition required_int (n : Z) : bool := negb (n =? 0)%Z.
(** [min=m], [max=m] on an int *)
Definition min_int (m n : Z) : bool := (m <=? n)%Z.
Definition max_int (m n : Z) : bool := (n <=? m)%Z.

Definition validate_Register (req : RegisterServiceRequest.t) : bool :=
  required_string (RegisterServiceRequest.Name req) &&
  required_string (RegisterServiceRequest.Host req) &&
  (required_int (RegisterServiceRequest.Port req) &&
   min_int 1 (RegisterServiceRequest.Port req) &&
   max_int 65535 (RegisterServiceRequest.Port req)).

(** [omitempty] skips the remaining tags of a zero value. *)
Definition validate_Update (req : UpdateServiceRequest.t) : bool :=
  (UpdateServiceRequest.Port req =? 0)%Z ||
  (min_int 1 (UpdateServiceRequest.Port req) &&
   max_int 65535 (UpdateServiceRequest.Port req)).

(** [c.ShouldBindJSON(&req)]: decode, then validate; [inl] is the error. *)
Definition ShouldBindJSON {A : Type} (validate : A -> bool)
    (body : RequestBody A) : ErrorText + A :=
  match body with
  | Malformed => inl BindingError
  | Decoded req => if validate req then inr req else inl BindingError
  end.

(** *** The state the handlers run in *)

(** [repo] is the handler's repository; [clock] is the last reading of
    the clock. *)
Record World : Type := mkWorld {
  repo : gmap string Service;
  clock : Z
}.

(** [time.Now()]: the clock has advanced by [d] since it was last read. *)
Definition Now (d : N) (w : World) : Z * World :=
  let t := (clock w + Z.of_N d)%Z in
  (t, mkWorld (repo w) t).

Definition set_repo (r : gmap string Service) (w : World) : World :=
  mkWorld r (clock w).

(** [GetByID id] hands out the pointer stored under [id], and the
    handlers assign to the fields of that object before they call
    [repo.Update]: the record stored under [id] has changed by then. *)
Definition assign (id : string) (service : Service) (w : World) : World :=
  set_repo (<[id := service]> (repo w)) w.

(** *** Handlers *)

(** [uuid] is the string [uuid.New().String()] returns; [d1] and [d2]
    are the clock advances seen by the two [time.Now()] calls. *)
Definition Register (body : RequestBody RegisterServiceRequest.t)
    (uuid : string) (d1 d2 : N) (w : World) : Response * World :=
  match ShouldBindJSON validate_Register body with
  | inl err => (JSON StatusBadRequest (PError err), w)
  | inr req =>
      let protocol :=
        if RegisterServiceRequest.Protocol req =? ""
        then "http" else RegisterServiceRequest.Protocol req in
      let healthCheck :=
        if RegisterServiceRequest.HealthCheck req =? ""
        then "/health" else RegisterServiceRequest.HealthCheck req in
      let '(t1, w1) := Now d1 w in
      let '(t2, w2) := Now d2 w1 in
      let service := {|
        ID := uuid;
        Name := RegisterServiceRequest.Name req;
        Host := RegisterServiceRequest.Host req;
        Port := RegisterServiceRequest.Port req;
        Protocol := protocol;
        BasePath := RegisterServiceRequest.BasePath req;
        Routes := RegisterServiceRequest.Routes req;
        HealthCheck := healthCheck;
        Tags := RegisterServiceRequest.Tags req;
        Metadata := RegisterServiceRequest.Metadata req;
        Status := StatusHealthy;
        LastHeartbeat := t1;
        RegisteredAt := t2 |} in
      match repository.Create service (repo w2) with
      | (Some err, r) =>
          (JSON StatusInternalServerError
             (PError (Text (repository.Error err))), set_repo r w2)
      | (None, r) => (JSON StatusCreated (PService service), set_repo r w2)
      end
  end.

Definition List (w : World) : Response * World :=
  let services := repository.GetAll (repo w) in
  (JSON StatusOK (PServices (Some services) (Z.of_nat (length services))), w).

Definition Get (id : string) (w : World) : Response * World :=
  match repository.GetByID id (repo w) with
  | inl _ => (JSON StatusNotFound (PError (Text "service not found")), w)
  | inr service => (JSON StatusOK (PService service), w)
  end.

(** The field-by-field merge of [Update], in the order of the source. *)
Definition merge (req : UpdateServiceRequest.t) (service : Service)
  : Service :=
  let service :=
    if negb (UpdateServiceRequest.Host req =? "")
    then set_Host (UpdateServiceRequest.Host req) service else service in
  let service :=
    if negb (UpdateServiceRequest.Port req =? 0)%Z
    then set_Port (UpdateServiceRequest.Port req) service else service in
  let service :=
    if negb (UpdateServiceRequest.Protocol req =? "")
    then set_Protocol (UpdateServiceRequest.Protocol req) service
    else service in
  let service :=
    if negb (UpdateServiceRequest.BasePath req =? "")
    then set_BasePath (UpdateServiceRequest.BasePath req) service
    else service in
  let service :=
    match UpdateServiceRequest.Routes req with
    | Some _ => set_Routes (UpdateServiceRequest.Routes req) service
    | None => service
    end in
  let service :=
    if negb (UpdateServiceRequest.HealthCheck req =? "")
    then set_HealthCheck (UpdateServiceRequest.HealthCheck req) service
    else service in
  let service :=
    match UpdateServiceRequest.Tags req with
    | Some _ => set_Tags (UpdateServiceRequest.Tags req) service
    | None => service
    end in
  let service :=
    match UpdateServiceRequest.Metadata req with
    | Some _ => set_Metadata (UpdateServiceRequest.Metadata req) service
    | None => service
    end in
  service.

Definition Update (id : string) (body : RequestBody UpdateServiceRequest.t)
    (w : World) : Response * World :=
  match repository.GetByID id (repo w) with
  | inl _ => (JSON StatusNotFound (PError (Text "service not found")), w)
  | inr service =>
      match ShouldBindJSON validate_Update body with
      | inl err => (JSON StatusBadRequest (PError err), w)
      | inr req =>
          let service := merge req service in
          let w := assign id service w in
          match repository.Update service (repo w) with
          | (Some err, r) =>
              (JSON StatusInternalServerError
                 (PError (Text (repository.Error err))), set_repo r w)
          | (None, r) => (JSON StatusOK (PService service), set_repo r w)
          end
      end
  end.

Definition Unregister (id : string) (w : World) : Response * World :=
  match repository.GetByID id (repo w) with
  | inl _ => (JSON StatusNotFound (PError (Text "service not found")), w)
  | inr _ =>
      match repository.Delete id (repo w) with
      | (Some err, r) =>
          (JSON StatusInternalServerError
             (PError (Text (repository.Error err))), set_repo r w)
      | (None, r) =>
          (JSON StatusOK (PMessage "service unregistered successfully"),
           set_repo r w)
      end
  end.

Definition Heartbeat (id : string) (d : N) (w : World) : Response * World :=
  match repository.GetByID id (repo w) with
  | inl _ => (JSON StatusNotFound (PError (Text "service not found")), w)
  | inr service =>
      let '(now, w1) := Now d w in
      let service := set_LastHeartbeat now service in
      let service := set_Status StatusHealthy service in
      let w2 := assign id service w1 in
      match repository.Update service (repo w2) with
      | (Some err, r) =>
          (JSON StatusInternalServerError
             (PError (Text (repository.Error err))), set_repo r w2)
      | (None, r) =>
          (JSON StatusOK
             (PHeartbeat "heartbeat received" (LastHeartbeat service)),
           set_repo r w2)
      end
  end.

(** [Unregister] with other requests running between its two calls to
    the repository.  Each call takes the lock for itself, so the others
    can run once [GetByID] has returned and before [Delete] starts;
    [between] is what they do to the state in that time. *)
Definition Unregister_interleaved (between : World -> World) (id : string)
    (w : World) : Response * World :=
  match repository.GetByID id (repo w) with
  | inl _ => (JSON StatusNotFound (PError (Text "service not found")), w)
  | inr _ =>
      let w := between w in
      match repository.Delete id (repo w) with
      | (Some err, r) =>
          (JSON StatusInternalServerError
             (PError (Text (repository.Error err))), set_repo r w)
      | (None, r) =>
          (JSON StatusOK (PMessage "service unregistered successfully"),
           set_repo r w)
      end
  end.

(** *** Search *)

Section Search.

(** [strings.ToLower] (Unicode-aware in Go) *)
Variable ToLower : string -> string.

(** [for _, r := range svc.Routes { if ... { found = true; break } }] *)
Fixpoint route_found (route : string) (routes : list Route) : bool :=
  match routes with
  | [] => false
  | r :: routes' =>
      if gostrings.HasPrefix (Path r) route || (Path r =? route)
      then true
      else route_found route routes'
  end.

(** [for _, t := range svc.Tags { if t == tag { found = true; break } }] *)
Fixpoint tag_found (tag : string) (tags : list string) : bool :=
  match tags with
  | [] => false
  | t :: tags' => if t =? tag then true else tag_found tag tags'
  end.

(** Ranging over a nil slice runs no iteration. *)
Definition range {A : Type} (s : option (list A)) : list A :=
  match s with
  | Some l => l
  | None => []
  end.

(** [append(results, svc)]; [results] starts as a nil slice. *)
Definition append {A : Type} (s : option (list A)) (x : A)
  : option (list A) :=
  Some (range s ++ [x])%list.

(** One iteration of the scan; each early exit is a [continue]. *)
Definition Search_body (route name tag : string)
    (results : option (list Service)) (svc : Service)
  : option (list Service) :=
  if negb (route =? "") && negb (route_found route (range (Routes svc)))
  then results
  else if negb (name =? "") &&
          negb (gostrings.Contains (ToLower (Name svc)) (ToLower name))
  then results
  else if negb (tag =? "") && negb (tag_found tag (range (Tags svc)))
  then results
  else append results svc.

(** [route], [name] and [tag] are the values of [c.Query], the empty
    string for a parameter that is absent. *)
Definition Search (route name tag : string) (w : World)
  : Response * World :=
  let services := repository.GetAll (repo w) in
  let results := fold_left (Search_body route name tag) services None in
  (JSON StatusOK
     (PServices results (Z.of_nat (length (range results)))), w).

(** *** The registry as a transition system *)

Inductive Request : Type :=
| ReqRegister (body : RequestBody RegisterServiceRequest.t)
    (uuid : string) (d1 d2 : N)
| ReqList
| ReqSearch (route name tag : string)
| ReqGet (id : string)
| ReqUpdate (id : string) (body : RequestBody UpdateServiceRequest.t)
| ReqUnregister (id : string)
| ReqHeartbeat (id : string) (d : N).

(** The routes of [InitRouter]. *)
Definition serve (rq : Request) (w : World) : Response * World :=
  match rq with
  | ReqRegister body uuid d1 d2 => Register body uuid d1 d2 w
  | ReqList => List w
  | ReqSearch route name tag => Search route name tag w
  | ReqGet id => Get id w
  | ReqUpdate id body => Update id body w
  | ReqUnregister id => Unregister id w
  | ReqHeartbeat id d => Heartbeat id d w
  end.

(** A sequence of requests served one after the other. *)
Fixpoint serve_all (rqs : list Request) (w : World)
  : list Response * World :=
  match rqs with
  | [] => ([], w)
  | rq :: rqs' =>
      let '(resp, w') := serve rq w in
      let '(resps, w'') := serve_all rqs' w' in
      (resp :: resps, w'')
  end.

(** The states of a registry started on [NewMemoryRepository] with the
    clock at [t0], after any sequence of requests. *)
Inductive reachable : World -> Prop :=
| reachable_init (t0 : Z) :
    reachable (mkWorld repository.NewMemoryRepository t0)
| reachable_serve (w : World) (rq : Request) :
    reachable w -> reachable (serve rq w).2.

End Search.

(** *** Properties of states *)

(** Every key holds the record of that id. *)
Definition keyed (r : gmap string Service) : Prop :=
  map_Forall (fun id service => ID service = id) r.

(** No stored timestamp is later than the last clock reading. *)
Definition stamped (w : World) : Prop :=
  map_Forall (fun _ service =>
    (LastHeartbeat service <= clock w)%Z /\
    (RegisteredAt service <= clock w)%Z) (repo w).

Definition all_healthy (r : gmap string Service) : Prop :=
  map_Forall (fun _ service => Status service = StatusHealthy) r.

Definition invariant (w : World) : Prop :=
  keyed (repo w) /\ stamped w /\ all_healthy (repo w).

End handler.

(** ** package servicediscovery: the client *)

Module servicediscovery.

(** The sentinel errors of errors.go. *)
Inductive Sentinel : Type :=
| ErrServiceNotFound
| ErrInvalidRequest
| ErrConnectionFailed
| ErrTimeout.

(** The error values the client returns. *)
Inductive error : Type :=
| Is_ (s : Sentinel)
    (* the sentinel itself *)
| Wrapped (s : Sentinel) (cause : string)
    (* fmt.Errorf("%w: %v", s, cause) *)
| Errorf (text : string)
    (* fmt.Errorf("%s", text) *)
| UnexpectedStatus (code : Z)
    (* fmt.Errorf("unexpected status code: %d", code) *)
| Foreign (text : string).
    (* an error of net/http or encoding/json *)

Definition Sentinel_eqb (a b : Sentinel) : bool :=
  match a, b with
  | ErrServiceNotFound, ErrServiceNotFound
  | ErrInvalidRequest, ErrInvalidRequest
  | ErrConnectionFailed, ErrConnectionFailed
  | ErrTimeout, ErrTimeout => true
  | _, _ => false
  end.

(** [errors.Is(err, target)] for a sentinel [target] *)
Definition Is (err : error) (target : Sentinel) : bool :=
  match err with
  | Is_ s | Wrapped s _ => Sentinel_eqb s target
  | _ => false
  end.

Record clientOptions : Type := mkOptions {
  timeout : Z;
  retries : Z;
  retryDelay : Z
}.

Definition Second : Z := 1000000000.

Definition defaultOptions : clientOptions :=
  {| timeout := 10 * Second; retries := 3; retryDelay := 1 * Second |}.

Definition WithTimeout (d : Z) (o : clientOptions) : clientOptions :=
  mkOptions d (retries o) (retryDelay o).
Definition WithRetries (n : Z) (o : clientOptions) : clientOptions :=
  mkOptions (timeout o) n (retryDelay o).
Definition WithRetryDelay (d : Z) (o : clientOptions) : clientOptions :=
  mkOptions (timeout o) (retries o) d.

(** The client's fields that the request methods read or write. *)
Record Client : Type := mkClient {
  baseURL : string;
  options : clientOptions;
  serviceID : string
}.

(** [*http.Response] *)
Record Response : Type := mkResponse {
  StatusCode : Z;
  Body : string
}.

(** What a call has done to the outside: the number of [httpClient.Do]
    calls made and the [time.Sleep] durations, latest first. *)
Record Net : Type := mkNet {
  attempts : nat;
  sleeps : list Z
}.

(** What a request method does: it returns a value, returns an error,
    or panics dereferencing a nil [*http.Response]. *)
Inductive Result (A : Type) : Type :=
| Ok (a : A)
| Err (err : error)
| Panic.
Arguments Ok {A} a.
Arguments Err {A} err.
Arguments Panic {A}.

Definition StatusOK : Z := 200.
Definition StatusCreated : Z := 201.
Definition StatusNotFound : Z := 404.

Section Client.

(** The client's own record types are declared outside the files at
    hand; the methods only move them through the JSON codec. *)
Variables Service RegisterRequest UpdateRequest : Type.
Variable Service_ID : Service -> string.
(** [json.Marshal(req)] *)
Variable Marshal_RegisterRequest : RegisterRequest -> string.
Variable Marshal_UpdateRequest : UpdateRequest -> string.
(** [json.NewDecoder(resp.Body).Decode(&service)]; [inl] is the error *)
Variable Decode_Service : string -> string + Service.
(** [Decode(&listResp)], then [listResp.Services] *)
Variable Decode_ListResponse : string -> string + option (list Service).
(** [json.Unmarshal(body, &errResp)], then [errResp.Error]; [None] when
    [Unmarshal] fails *)
Variable Unmarshal_errResp : string -> option string.
(** [url.Values.Encode] of the parameters set *)
Variable Encode : list (string * string) -> string.
(** [http.NewRequestWithContext(ctx, method, url, body)]: the error,
    [None] when the request is built *)
Variable NewRequest : string -> string -> option string -> option string.
(** [c.httpClient.Do(req)]: the outcome of the [k]-th call made to the
    transport, [inl] for an error *)
Variable Do : nat -> string + Response.

(** The body of the loop of [doRequest], for [i] running through [idx]:
    the values [i] takes while [i <= c.options.retries]. *)
Fixpoint doRequest_loop (c : Client) (method path : string)
    (body : option string) (idx : list Z) (lastErr : option error)
    (n : Net) : (option Response * option error) * Net :=
  match idx with
  | [] => ((None, lastErr), n)
  | i :: idx' =>
      match NewRequest method (baseURL c ++ path) body with
      | Some err => ((None, Some (Foreign err)), n)
      | None =>
          let n' := mkNet (S (attempts n)) (sleeps n) in
          match Do (attempts n) with
          | inl err =>
              if (i <? retries (options c))%Z
              then doRequest_loop c method path body idx'
                     (Some (Foreign err))
                     (mkNet (attempts n')
                            (retryDelay (options c) :: sleeps n'))
              else ((None, Some (Wrapped ErrConnectionFailed err)), n')
          | inr resp => ((Some resp, None), n')
          end
      end
  end.

Definition doRequest (c : Client) (method path : string)
    (body : option string) (n : Net)
  : (option Response * option error) * Net :=
  doRequest_loop c method path body
    (seqZ 0 (retries (options c) + 1)) None n.

Definition parseError (resp : Response) : error :=
  match Unmarshal_errResp (Body resp) with
  | Some text =>
      if negb (text =? "") then Errorf text
      else UnexpectedStatus (StatusCode resp)
  | None => UnexpectedStatus (StatusCode resp)
  end.

(** The common shape of the request methods: [doRequest], the error
    check, then [k] on the response; a nil response with a nil error
    is dereferenced. *)
Definition call {A : Type} (c : Client) (method path : string)
    (body : option string) (k : Response -> Result A) (n : Net)
  : Result A * Net :=
  let '((resp, err), n') := doRequest c method path body n in
  match err with
  | Some e => (Err e, n')
  | None =>
      match resp with
      | None => (Panic, n')
      | Some resp => (k resp, n')
      end
  end.

Definition decode_Service (resp : Response) : Result Service :=
  match Decode_Service (Body resp) with
  | inl err => Err (Foreign err)
  | inr service => Ok service
  end.

Definition decode_Services (resp : Response)
  : Result (option (list Service)) :=
  match Decode_ListResponse (Body resp) with
  | inl err => Err (Foreign err)
  | inr services => Ok services
  end.

(** [Register] also caches the id: the client comes back with it. *)
Definition Register (c : Client) (req : RegisterRequest) (n : Net)
  : (Result Service * Client) * Net :=
  let '(r, n') :=
    call c "POST" "/api/v1/services/register"
      (Some (Marshal_RegisterRequest req))
      (fun resp =>
         if negb (StatusCode resp =? StatusCreated)%Z
         then Err (parseError resp)
         else decode_Service resp) n in
  match r with
  | Ok service =>
      ((r, mkClient (baseURL c) (options c) (Service_ID service)), n')
  | _ => ((r, c), n')
  end.

Definition Get (c : Client) (id : string) (n : Net)
  : Result Service * Net :=
  call c "GET" ("/api/v1/services/" ++ id) None
    (fun resp =>
       if (StatusCode resp =? StatusNotFound)%Z
       then Err (Is_ ErrServiceNotFound)
       else if negb (StatusCode resp =? StatusOK)%Z
       then Err (parseError resp)
       else decode_Service resp) n.

Definition List (c : Client) (n : Net)
  : Result (option (list Service)) * Net :=
  call c "GET" "/api/v1/services/list" None
    (fun resp =>
       if negb (StatusCode resp =? StatusOK)%Z
       then Err (parseError resp)
       else decode_Services resp) n.

Definition Search (c : Client) (route name tag : string) (n : Net)
  : Result (option (list Service)) * Net :=
  let params :=
    ((if negb (route =? "") then [("route", route)] else []) ++
     (if negb (name =? "") then [("name", name)] else []) ++
     (if negb (tag =? "") then [("tag", tag)] else []))%list in
  let path := "/api/v1/services/search" in
  let path :=
    match params with
    | [] => path
    | _ => path ++ "?" ++ Encode params
    end in
  call c "GET" path None
    (fun resp =>
       if negb (StatusCode resp =? StatusOK)%Z
       then Err (parseError resp)
       else decode_Services resp) n.

Definition Update (c : Client) (id : string) (req : UpdateRequest)
    (n : Net) : Result Service * Net :=
  call c "PUT" ("/api/v1/services/" ++ id ++ "/update")
    (Some (Marshal_UpdateRequest req))
    (fun resp =>
       if (StatusCode resp =? StatusNotFound)%Z
       then Err (Is_ ErrServiceNotFound)
       else if negb (StatusCode resp =? StatusOK)%Z
       then Err (parseError resp)
       else decode_Service resp) n.

Definition Unregister (c : Client) (id : string) (n : Net)
  : Result unit * Net :=
  call c "DELETE" ("/api/v1/services/" ++ id ++ "/unregister") None
    (fun resp =>
       if (StatusCode resp =? StatusNotFound)%Z
       then Err (Is_ ErrServiceNotFound)
       else if negb (StatusCode resp =? StatusOK)%Z
       then Err (parseError resp)
       else Ok tt) n.

Definition Heartbeat (c : Client) (id : string) (n : Net)
  : Result unit * Net :=
  call c "PUT" ("/api/v1/services/" ++ id ++ "/heartbeat") None
    (fun resp =>
       if (StatusCode resp =? StatusNotFound)%Z
       then Err (Is_ ErrServiceNotFound)
       else if negb (StatusCode resp =? StatusOK)%Z
       then Err (parseError resp)
       else Ok tt) n.

(** The request methods, as one family. *)
Inductive Call : Type :=
| CallRegister (req : RegisterRequest)
| CallGet (id : string)
| CallList
| CallSearch (route name tag : string)
| CallUpdate (id : string) (req : UpdateRequest)
| CallUnregister (id : string)
| CallHeartbeat (id : string).

(** What a request method returns beside the error. *)
Inductive Value : Type :=
| VService (service : Service)
| VServices (services : option (list Service))
| VNone.

Definition value {A : Type} (f : A -> Value) (r : Result A) : Result Value :=
  match r with
  | Ok a => Ok (f a)
  | Err err => Err err
  | Panic => Panic
  end.

Definition perform (cl : Call) (c : Client) (n : Net) : Result Value * Net :=
  match cl with
  | CallRegister req =>
      let '((r, _), n') := Register c req n in (value VService r, n')
  | CallGet id => let '(r, n') := Get c id n in (value VService r, n')
  | CallList => let '(r, n') := List c n in (value VServices r, n')
  | CallSearch route name tag =>
      let '(r, n') := Search c route name tag n in (value VServices r, n')
  | CallUpdate id req =>
      let '(r, n') := Update c id req n in (value VService r, n')
  | CallUnregister id =>
      let '(r, n') := Unregister c id n in (value (fun _ => VNone) r, n')
  | CallHeartbeat id =>
      let '(r, n') := Heartbeat c id n in (value (fun _ => VNone) r, n')
  end.

(** The calls that name a service by its id in the path. *)
Definition by_id (cl : Call) : bool :=
  match cl with
  | CallGet _ | CallUpdate _ _ | CallUnregister _ | CallHeartbeat _ => true
  | CallRegister _ | CallList | CallSearch _ _ _ => false
  end.

End Client.

Arguments VService {Service} service.
Arguments VServices {Service} services.
Arguments VNone {Service}.
Arguments CallRegister {RegisterRequest UpdateRequest} req.
Arguments CallGet {RegisterRequest UpdateRequest} id.
Arguments CallList {RegisterRequest UpdateRequest}.
Arguments CallSearch {RegisterRequest UpdateRequest} route name tag.
Arguments CallUpdate {RegisterRequest UpdateRequest} id req.
Arguments CallUnregister {RegisterRequest UpdateRequest} id.
Arguments CallHeartbeat {RegisterRequest UpdateRequest} id.
Arguments value {Service A} f r.
Arguments by_id {RegisterRequest UpdateRequest} cl.
Arguments decode_Service {Service} Decode_Service resp.
Arguments decode_Services {Service} Decode_ListResponse resp.
Arguments Register {Service RegisterRequest}.
Arguments Get {Service}.
Arguments List {Service}.
Arguments Search {Service}.
Arguments Update {Service UpdateRequest}.
Arguments perform {Service RegisterRequest UpdateRequest}.

End servicediscovery.

(** ** The words of the specification *)

Module spec.
Import domain.

Section Search.

Variable ToLower : string -> string.

(** "some route of the record has a path equal to the query value or
    having the query value as a prefix" *)
Definition route_matches (route : string) (svc : Service) : Prop :=
  exists r, r ∈ handler.range (Routes svc) /\
    (Path r = route \/ exists rest, Path r = route ++ rest).

(** "the lower-cased record name contains the lower-cased query as a
    substring" *)
Definition name_matches (name : string) (svc : Service) : Prop :=
  exists before after, ToLower (Name svc) = before ++ ToLower name ++ after.

(** "the query string is an exact member of the record's tag sequence" *)
Definition tag_matches (tag : string) (svc : Service) : Prop :=
  tag ∈ handler.range (Tags svc).

(** The conjunction of the filters that are supplied. *)
Definition selected (route name tag : string) (svc : Service) : Prop :=
  (route <> "" -> route_matches route svc) /\
  (name <> "" -> name_matches name svc) /\
  (tag <> "" -> tag_matches tag svc).

End Search.

(** "the request's value when that value is non-zero ... and the
    previously stored value when the request's value is the zero value" *)
Definition merged {A : Type} (zero requested stored result : A) : Prop :=
  (requested <> zero -> result = requested) /\
  (requested = zero -> result = stored).

End spec.

(** ** Sample data *)

Module examples.
Import domain handler.

Definition register_users : RegisterServiceRequest.t :=
  RegisterServiceRequest.mk "Test-Service" "localhost" 3000 "" "/api"
    (Some [mkRoute "/users" (Some ["GET"; "POST"])]) ""
    (Some ["api"; "v1"]) None.

Definition register_no_host : RegisterServiceRequest.t :=
  RegisterServiceRequest.mk "test" "" 0 "" "" None "" None None.

(** A registry just started, and the same after one registration. *)
Definition w0 : World := mkWorld repository.NewMemoryRepository 1000.
Definition w1 : World := (Register (Decoded register_users) "svc-1" 5 7 w0).2.

Definition update_port : UpdateServiceRequest.t :=
  UpdateServiceRequest.mk "" 5000 "" "" None "" None None.

Definition update_port_out_of_range : UpdateServiceRequest.t :=
  UpdateServiceRequest.mk "" 70000 "" "" None "" None None.

(** A client with the default options, and a toy codec: a service is its
    id, a body is the id or the error message it carries. *)
Definition client : servicediscovery.Client :=
  servicediscovery.mkClient "http://registry:8080"
    servicediscovery.defaultOptions "".

Definition net0 : servicediscovery.Net := servicediscovery.mkNet 0 [].

Definition Decode_Service (body : string) : string + string := inr body.

Definition Decode_ListResponse (body : string)
  : string + option (list string) := inr (Some [body]).

Definition Unmarshal_errResp (body : string) : option string := Some body.

Definition Encode (params : list (string * string)) : string := "".

Definition NewRequest (method url : string) (body : option string)
  : option string := None.

(** A transport that fails twice and then answers 200. *)
Definition fails_twice (k : nat) : string + servicediscovery.Response :=
  match k with
  | 0%nat | 1%nat => inl "connection refused"
  | _ => inr (servicediscovery.mkResponse 200 "svc-1")
  end.

(** A server that answers 404 to everything. *)
Definition always_404 (k : nat) : string + servicediscovery.Response :=
  inr (servicediscovery.mkResponse 404 "service not found").

End examples.

(** ** package config *)

Module config.

Record Config : Type := mkConfig {
  Port : Z;
  LogLevel : string;
  GinMode : string
}.

(** [errors] holds the texts of the errors appended so far. *)
Record Builder : Type := mkBuilder {
  config : Config;
  errors : list string
}.

Definition NewBuilder : Builder :=
  mkBuilder (mkConfig 8080 "info" "release") [].

(** [b.errors = append(b.errors, errors.New(text))] *)
Definition fail (text : string) (b : Builder) : Builder :=
  mkBuilder (config b) (errors b ++ [text])%list.

Definition validLogLevels : gmap string bool :=
  <["debug" := true]> (<["info" := true]> (<["warn" := true]>
    (<["error" := true]> ∅))).

Definition validGinModes : gmap string bool :=
  <["debug" := true]> (<["release" := true]> (<["test" := true]> ∅)).

(** [m[k]] on a [map[string]bool]: [false] for a key that is absent. *)
Definition index (m : gmap string bool) (k : string) : bool :=
  default false (m !! k).

Section Env.

(** [os.Getenv]: the empty string for a variable that is not set *)
Variable Getenv : string -> string.
(** [strconv.Atoi]: [None] for an error *)
Variable Atoi : string -> option Z.

Definition WithEnv (b : Builder) : Builder :=
  let b :=
    let port := Getenv "PORT" in
    if negb (port =? "") then
      match Atoi port with
      | None => fail "PORT must be a valid integer" b
      | Some p =>
          mkBuilder
            (mkConfig p (LogLevel (config b)) (GinMode (config b)))
            (errors b)
      end
    else b in
  let b :=
    let logLevel := Getenv "LOG_LEVEL" in
    if negb (logLevel =? "") then
      mkBuilder (mkConfig (Port (config b)) logLevel (GinMode (config b)))
        (errors b)
    else b in
  let b :=
    let ginMode := Getenv "GIN_MODE" in
    if negb (ginMode =? "") then
      mkBuilder (mkConfig (Port (config b)) (LogLevel (config b)) ginMode)
        (errors b)
    else b in
  b.

End Env.

Definition Validate (b : Builder) : Builder :=
  let b :=
    if (Port (config b) <=? 0)%Z || (65535 <? Port (config b))%Z
    then fail "PORT must be between 1 and 65535" b else b in
  let b :=
    if negb (index validLogLevels (LogLevel (config b)))
    then fail "LOG_LEVEL must be one of: debug, info, warn, error" b
    else b in
  let b :=
    if negb (index validGinModes (GinMode (config b)))
    then fail "GIN_MODE must be one of: debug, release, test" b else b in
  b.

(** The configuration and the error, one of them nil; the error is
    [errors.Join] of the texts, kept as their sequence. *)
Definition Build (b : Builder) : option Config * option (list string) :=
  if (0 <? length (errors b))%nat
  then (None, Some (errors b))
  else (Some (config b), None).

End config.

(** ** More of Go's [strings] package, for the client *)

Module gostrings_more.

(** The bytes [","] and ["="]. *)
Definition comma : Ascii.ascii :=
  Ascii.Ascii false false true true false true false false.
Definition equals : Ascii.ascii :=
  Ascii.Ascii true false true true true true false false.

(** [strings.HasSuffix(s, suffix)] *)
Definition HasSuffix (s suffix : string) : bool :=
  (String.length suffix <=? String.length s)%nat &&
  (substring (String.length s - String.length suffix)
     (String.length suffix) s =? suffix).

(** [strings.TrimSuffix(s, suffix)] *)
Definition TrimSuffix (s suffix : string) : string :=
  if HasSuffix s suffix
  then substring 0 (String.length s - String.length suffix) s
  else s.

(** [strings.TrimPrefix(s, prefix)] *)
Definition TrimPrefix (s prefix : string) : string :=
  if gostrings.HasPrefix s prefix
  then substring (String.length prefix)
         (String.length s - String.length prefix) s
  else s.

(** [strings.Split(s, sep)] for a separator of one byte *)
Fixpoint Split (s : string) (sep : Ascii.ascii) : list string :=
  match s with
  | EmptyString => [EmptyString]
  | String c s' =>
      if Ascii.eqb c sep then EmptyString :: Split s' sep
      else match Split s' sep with
           | [] => [String c EmptyString]
           | x :: xs => String c x :: xs
           end
  end.

(** The text before and the text after the first [sep] of [s]. *)
Fixpoint cut (s : string) (sep : Ascii.ascii) : option (string * string) :=
  match s with
  | EmptyString => None
  | String c s' =>
      if Ascii.eqb c sep then Some (EmptyString, s')
      else match cut s' sep with
           | Some (before, after) => Some (String c before, after)
           | None => None
           end
  end.

(** [strings.SplitN(s, sep, 2)] for a separator of one byte *)
Definition SplitN2 (s : string) (sep : Ascii.ascii) : list string :=
  match cut s sep with
  | Some (before, after) => [before; after]
  | None => [s]
  end.

End gostrings_more.

(** ** package servicediscovery: construction, identity and heartbeat
    signalling of the client *)

Module client.
Import servicediscovery.

Definition ClientOption : Type := clientOptions -> clientOptions.

(** The options are applied to [defaultOptions] in the order given. *)
Definition NewClient (baseURL : string) (opts : list ClientOption)
  : Client :=
  let options := fold_left (fun o opt => opt o) opts defaultOptions in
  mkClient (gostrings_more.TrimSuffix baseURL "/") options "".

Definition GetServiceID (c : Client) : string := serviceID c.

(** The one status each request method accepts. *)
Definition accepted {RegisterRequest UpdateRequest : Type}
    (cl : Call RegisterRequest UpdateRequest) : Z :=
  match cl with
  | CallRegister _ => StatusCreated
  | _ => StatusOK
  end.

Section Requests.

Variables RegisterRequest UpdateRequest : Type.
Variable Marshal_RegisterRequest : RegisterRequest -> string.
Variable Marshal_UpdateRequest : UpdateRequest -> string.
Variable Encode : list (string * string) -> string.

(** The method, the path and the body each request method hands to
    [doRequest]. *)
Definition request_of (cl : Call RegisterRequest UpdateRequest)
  : string * string * option string :=
  match cl with
  | CallRegister req =>
      ("POST", "/api/v1/services/register",
       Some (Marshal_RegisterRequest req))
  | CallGet id => ("GET", "/api/v1/services/" ++ id, None)
  | CallList => ("GET", "/api/v1/services/list", None)
  | CallSearch route name tag =>
      let params :=
        ((if negb (route =? "") then [("route", route)] else []) ++
         (if negb (name =? "") then [("name", name)] else []) ++
         (if negb (tag =? "") then [("tag", tag)] else []))%list in
      let path := "/api/v1/services/search" in
      let path :=
        match params with
        | [] => path
        | _ => path ++ "?" ++ Encode params
        end in
      ("GET", path, None)
  | CallUpdate id req =>
      ("PUT", "/api/v1/services/" ++ id ++ "/update",
       Some (Marshal_UpdateRequest req))
  | CallUnregister id =>
      ("DELETE", "/api/v1/services/" ++ id ++ "/unregister", None)
  | CallHeartbeat id =>
      ("PUT", "/api/v1/services/" ++ id ++ "/heartbeat", None)
  end.

End Requests.

Arguments request_of {RegisterRequest UpdateRequest}.

Section Identity.

(** The client's [Route] is declared outside the files at hand. *)
Variable Route : Type.

Record registerOptions : Type := mkRegisterOptions {
  name : string;
  host : string;
  port : Z;
  protocol : string;
  basePath : string;
  routes : option (list Route);
  healthCheck : string;
  tags : option (list string);
  metadata : option (gmap string string)
}.

Definition RegisterOption : Type := registerOptions -> registerOptions.

Definition WithName (v : string) : RegisterOption := fun o =>
  mkRegisterOptions v (host o) (port o) (protocol o) (basePath o)
    (routes o) (healthCheck o) (tags o) (metadata o).
Definition WithHost (v : string) : RegisterOption := fun o =>
  mkRegisterOptions (name o) v (port o) (protocol o) (basePath o)
    (routes o) (healthCheck o) (tags o) (metadata o).
Definition WithPort (v : Z) : RegisterOption := fun o =>
  mkRegisterOptions (name o) (host o) v (protocol o) (basePath o)
    (routes o) (healthCheck o) (tags o) (metadata o).
Definition WithProtocol (v : string) : RegisterOption := fun o =>
  mkRegisterOptions (name o) (host o) (port o) v (basePath o)
    (routes o) (healthCheck o) (tags o) (metadata o).
Definition WithBasePath (v : string) : RegisterOption := fun o =>
  mkRegisterOptions (name o) (host o) (port o) (protocol o) v
    (routes o) (healthCheck o) (tags o) (metadata o).
(** A variadic call with no argument passes a nil slice. *)
Definition WithRoutes (v : option (list Route)) : RegisterOption := fun o =>
  mkRegisterOptions (name o) (host o) (port o) (protocol o) (basePath o)
    v (healthCheck o) (tags o) (metadata o).
Definition WithHealthCheck (v : string) : RegisterOption := fun o =>
  mkRegisterOptions (name o) (host o) (port o) (protocol o) (basePath o)
    (routes o) v (tags o) (metadata o).
Definition WithTags (v : option (list string)) : RegisterOption := fun o =>
  mkRegisterOptions (name o) (host o) (port o) (protocol o) (basePath o)
    (routes o) (healthCheck o) v (metadata o).
Definition WithMetadata (v : option (gmap string string))
  : RegisterOption := fun o =>
  mkRegisterOptions (name o) (host o) (port o) (protocol o) (basePath o)
    (routes o) (healthCheck o) (tags o) v.

(** [&registerOptions{}] *)
Definition no_options : registerOptions :=
  mkRegisterOptions "" "" 0 "" "" None "" None None.

(** [os.Getenv]: the empty string for a variable that is not set *)
Variable Getenv : string -> string.
(** [os.Environ]: the variables as ["key=value"] strings *)
Variable Environ : list string.
(** [os.Executable] and [os.Hostname]: [None] for an error *)
Variable Executable : option string.
Variable Hostname : option string.
(** [filepath.Base] *)
Variable Base : string -> string.
(** [strconv.Atoi]: [None] for an error *)
Variable Atoi : string -> option Z.
(** [strings.ToLower] *)
Variable ToLower : string -> string.

Definition getServiceName (override : string) : string :=
  if negb (override =? "") then override
  else if negb (Getenv "SERVICE_NAME" =? "") then Getenv "SERVICE_NAME"
  else match Executable with
       | Some exe => Base exe
       | None => "unknown"
       end.

Definition getHost (override : string) : string :=
  if negb (override =? "") then override
  else if negb (Getenv "POD_IP" =? "") then Getenv "POD_IP"
  else if negb (Getenv "HOSTNAME" =? "") then Getenv "HOSTNAME"
  else match Hostname with
       | Some host => host
       | None => "localhost"
       end.

Definition getPort (override : Z) : Z :=
  if negb (override =? 0)%Z then override
  else if negb (Getenv "PORT" =? "")
  then match Atoi (Getenv "PORT") with
       | Some p => p
       | None => 8080
       end
  else 8080.

Definition getProtocol (override : string) : string :=
  if negb (override =? "") then override
  else if negb (Getenv "SERVICE_PROTOCOL" =? "")
  then Getenv "SERVICE_PROTOCOL"
  else "http".

Definition getBasePath (override : string) : string :=
  if negb (override =? "") then override
  else Getenv "SERVICE_BASE_PATH".

Definition getHealthCheck (override : string) : string :=
  if negb (override =? "") then override
  else if negb (Getenv "SERVICE_HEALTH_CHECK" =? "")
  then Getenv "SERVICE_HEALTH_CHECK"
  else "/health".

(** [len] of a slice or map that may be nil *)
Definition len_slice {A : Type} (s : option (list A)) : nat :=
  match s with
  | Some l => length l
  | None => 0
  end.

Definition len_map (m : option (gmap string string)) : nat :=
  match m with
  | Some m => size m
  | None => 0
  end.

Definition getTags (override : option (list string))
  : option (list string) :=
  if (0 <? len_slice override)%nat then override
  else if negb (Getenv "SERVICE_TAGS" =? "")
  then Some (gostrings_more.Split (Getenv "SERVICE_TAGS") gostrings_more.comma)
  else None.

(** One iteration over [os.Environ()] in [getMetadata]. *)
Definition getMetadata_body (metadata : gmap string string) (env : string)
  : gmap string string :=
  if gostrings.HasPrefix env "SERVICE_META_" then
    match gostrings_more.SplitN2 env gostrings_more.equals with
    | [key; value] =>
        let key := gostrings_more.TrimPrefix key "SERVICE_META_" in
        <[ToLower key := value]> metadata
    | _ => metadata
    end
  else metadata.

Definition getMetadata (override : option (gmap string string))
  : option (gmap string string) :=
  if (0 <? len_map override)%nat then override
  else
    let metadata := fold_left getMetadata_body Environ ∅ in
    if (size metadata =? 0)%nat then None else Some metadata.

(** The fields of the request literal of [AutoRegister]. *)
Record RegisterRequest : Type := mkRegisterRequest {
  Name : string;
  Host : string;
  Port : Z;
  Protocol : string;
  BasePath : string;
  Routes : option (list Route);
  HealthCheck : string;
  Tags : option (list string);
  Metadata : option (gmap string string)
}.

(** The request [AutoRegister] hands to [Register]. *)
Definition AutoRegister_request (opts : list RegisterOption)
  : RegisterRequest :=
  let regOpts := fold_left (fun o opt => opt o) opts no_options in
  {| Name := getServiceName (name regOpts);
     Host := getHost (host regOpts);
     Port := getPort (port regOpts);
     Protocol := getProtocol (protocol regOpts);
     BasePath := getBasePath (basePath regOpts);
     Routes := routes regOpts;
     HealthCheck := getHealthCheck (healthCheck regOpts);
     Tags := getTags (tags regOpts);
     Metadata := getMetadata (metadata regOpts) |}.

End Identity.

(** *** Heartbeat signalling *)

(** The channels made so far, [true] for a closed one, and [c.stopCh]:
    the index of a channel, [None] for nil.  The loop started on a channel
    returns when that channel is closed. *)
Record Signals : Type := mkSignals {
  closed : list bool;
  stopCh : option nat
}.

(** [close(ch)]: closing a closed channel panics ([None]). *)
Definition close (ch : nat) (s : Signals) : option Signals :=
  match closed s !! ch with
  | Some false => Some (mkSignals (<[ch := true]> (closed s)) (stopCh s))
  | _ => None
  end.

(** The part of [StartHeartbeat] under the mutex: the previous channel is
    closed and a new one is made, on which the new loop waits. *)
Definition StartHeartbeat (s : Signals) : option Signals :=
  let closing :=
    match stopCh s with
    | Some ch => close ch s
    | None => Some s
    end in
  match closing with
  | Some s' =>
      Some (mkSignals (closed s' ++ [false])%list (Some (length (closed s'))))
  | None => None
  end.

Definition StopHeartbeat (s : Signals) : option Signals :=
  match stopCh s with
  | Some ch =>
      match close ch s with
      | Some s' => Some (mkSignals (closed s') None)
      | None => None
      end
  | None => Some s
  end.

(** A client just made: no channel, [stopCh] nil. *)
Definition no_signals : Signals := mkSignals [] None.

Inductive Signal : Type :=
| Start
| Stop.

(** A sequence of calls; [None] when one of them panics. *)
Fixpoint signal_all (calls : list Signal) (s : Signals) : option Signals :=
  match calls with
  | [] => Some s
  | call :: calls' =>
      match (match call with
             | Start => StartHeartbeat s
             | Stop => StopHeartbeat s
             end) with
      | Some s' => signal_all calls' s'
      | None => None
      end
  end.

(** The loops that have not been told to stop. *)
Definition running (s : Signals) : nat :=
  length (filter (fun c => c = false) (closed s)).

End client.

(** * Properties *)

(** ** The repository *)

Section RepositoryFacts.
Import domain repository.
Implicit Types (services : gmap string Service) (service : Service).

Lemma Create_present services service :
  is_Some (services !! ID service) ->
  Create service services = (Some ErrServiceAlreadyExists, services).
Proof. intros [old Hold]. unfold Create. by rewrite Hold. Qed.

Lemma Create_absent services service :
  services !! ID service = None ->
  Create service services = (None, <[ID service := service]> services).
Proof. intros Hnone. unfold Create. by rewrite Hnone. Qed.

Lemma Update_present services service :
  is_Some (services !! ID service) ->
  Update service services = (None, <[ID service := service]> services).
Proof. intros [old Hold]. unfold Update. by rewrite Hold. Qed.

Lemma Update_absent services service :
  services !! ID service = None ->
  Update service services = (Some ErrServiceNotFound, services).
Proof. intros Hnone. unfold Update. by rewrite Hnone. Qed.

Lemma Delete_present services id :
  is_Some (services !! id) ->
  Delete id services = (None, delete id services).
Proof. intros [old Hold]. unfold Delete. by rewrite Hold. Qed.

Lemma Delete_absent services id :
  services !! id = None ->
  Delete id services = (Some ErrServiceNotFound, services).
Proof. intros Hnone. unfold Delete. by rewrite Hnone. Qed.

Lemma GetByID_Some services id service :
  services !! id = Some service -> GetByID id services = inr service.
Proof. intros Hsome. unfold GetByID. by rewrite Hsome. Qed.

Lemma GetByID_None services id :
  services !! id = None -> GetByID id services = inl ErrServiceNotFound.
Proof. intros Hnone. unfold GetByID. by rewrite Hnone. Qed.

Lemma elem_of_GetAll services service :
  service ∈ GetAll services <-> exists id, services !! id = Some service.
Proof.
  unfold GetAll. rewrite list_elem_of_fmap. split.
  - intros [[id s] [-> Hin]]. exists id. by apply elem_of_map_to_list.
  - intros [id Hid]. exists (id, service). split; [done|].
    by apply elem_of_map_to_list.
Qed.

Lemma length_GetAll services : length (GetAll services) = size services.
Proof. unfold GetAll. by rewrite length_fmap, length_map_to_list. Qed.

End RepositoryFacts.

(** C7. In every store state: [Create] fails, with AlreadyExists, exactly
    when the record's id is present; [Update] and [Delete] fail, with
    NotFound, exactly when the id is absent; a failing call leaves the
    mapping as it was; a successful [Create] or [Update] makes the given
    record the one stored under its id, a successful [Delete] leaves no
    record under the id, and the mapping is unchanged at every other id. *)
Theorem repository_outcomes (services : gmap string domain.Service)
    (service : domain.Service) (id : string) :
  let created := repository.Create service services in
  let updated := repository.Update service services in
  let deleted := repository.Delete id services in
  ((created.1 = Some repository.ErrServiceAlreadyExists <->
      is_Some (services !! domain.ID service)) /\
   (created.1 = None <-> services !! domain.ID service = None) /\
   (created.1 <> None -> created.2 = services) /\
   (created.1 = None ->
      created.2 !! domain.ID service = Some service /\
      forall k, k <> domain.ID service -> created.2 !! k = services !! k)) /\
  ((updated.1 = Some repository.ErrServiceNotFound <->
      services !! domain.ID service = None) /\
   (updated.1 = None <-> is_Some (services !! domain.ID service)) /\
   (updated.1 <> None -> updated.2 = services) /\
   (updated.1 = None ->
      updated.2 !! domain.ID service = Some service /\
      forall k, k <> domain.ID service -> updated.2 !! k = services !! k)) /\
  ((deleted.1 = Some repository.ErrServiceNotFound <->
      services !! id = None) /\
   (deleted.1 = None <-> is_Some (services !! id)) /\
   (deleted.1 <> None -> deleted.2 = services) /\
   (deleted.1 = None ->
      deleted.2 !! id = None /\
      forall k, k <> id -> deleted.2 !! k = services !! k)).
Proof.
  cbv zeta. unfold repository.Create, repository.Update, repository.Delete.
  split; [|split].
  - destruct (services !! domain.ID service) as [old|] eqn:Hs; simpl;
      repeat split; try done; eauto; try (by intros [? ?]);
      try (by rewrite lookup_insert_eq);
      try (by intros k Hk; rewrite lookup_insert_ne).
  - destruct (services !! domain.ID service) as [old|] eqn:Hs; simpl;
      repeat split; try done; eauto; try (by intros [? ?]);
      try (by rewrite lookup_insert_eq);
      try (by intros k Hk; rewrite lookup_insert_ne).
  - destruct (services !! id) as [old|] eqn:Hi; simpl;
      repeat split; try done; eauto; try (by intros [? ?]);
      try (by rewrite lookup_delete_eq);
      try (by intros k Hk; rewrite lookup_delete_ne).
Qed.

(** ** Strings *)

Section StringFacts.
Import gostrings.

Lemma HasPrefix_spec (s prefix : string) :
  HasPrefix s prefix = true <-> exists rest, s = prefix ++ rest.
Proof.
  revert s. induction prefix as [|b prefix IH]; intros s; simpl.
  - split; [intros _; by exists s | done].
  - destruct s as [|a s].
    + split; [done | by intros [rest Hrest]].
    + destruct (Ascii.eqb_spec a b) as [->|Hne].
      * rewrite IH. split; intros [rest Hrest]; exists rest.
        -- by rewrite Hrest.
        -- by injection Hrest.
      * split; [done|]. intros [rest Hrest]. by injection Hrest.
Qed.

Lemma Contains_spec (s substr : string) :
  Contains s substr = true <->
  exists before after, s = before ++ substr ++ after.
Proof.
  induction s as [|a s IH].
  - simpl. rewrite orb_false_r, HasPrefix_spec. split.
    + intros [rest Hrest]. by exists EmptyString, rest.
    + intros [before [after Heq]]. exists after.
      destruct before; [done | discriminate Heq].
  - cbn [Contains]. rewrite orb_true_iff, IH, HasPrefix_spec. split.
    + intros [[rest Hrest] | [before [after Heq]]].
      * by exists EmptyString, rest.
      * exists (String a before), after. simpl. by rewrite Heq.
    + intros [before [after Heq]]. destruct before as [|a' before].
      * left. by exists after.
      * right. exists before, after. by injection Heq.
Qed.

Lemma string_eqb_false (a b : string) : (a =? b) = false <-> a <> b.
Proof. apply String.eqb_neq. Qed.

End StringFacts.

(** ** Search *)

Section SearchFacts.
Import domain handler.
Variable ToLower : string -> string.

Lemma route_found_spec (route : string) (routes : list Route) :
  route_found route routes = true <->
  exists r, r ∈ routes /\
    (Path r = route \/ exists rest, Path r = route ++ rest).
Proof.
  induction routes as [|r routes IH]; simpl.
  - split; [done|]. intros [r [Hin _]]. by apply elem_of_nil in Hin.
  - destruct (gostrings.HasPrefix (Path r) route || (Path r =? route))
      eqn:Hhere.
    + split; [intros _ | done]. exists r. split; [apply list_elem_of_here|].
      apply orb_true_iff in Hhere as [Hpre | Heq].
      * right. by apply HasPrefix_spec.
      * left. by apply String.eqb_eq.
    + apply orb_false_iff in Hhere as [Hpre Heq]. rewrite IH.
      split; intros [r' [Hin Hm]].
      * exists r'. split; [by apply list_elem_of_further | done].
      * apply elem_of_cons in Hin as [-> | Hin]; [|by exists r'].
        exfalso. destruct Hm as [Hm | Hm].
        -- apply String.eqb_eq in Hm. congruence.
        -- apply HasPrefix_spec in Hm. congruence.
Qed.

Lemma tag_found_spec (tag : string) (tags : list string) :
  tag_found tag tags = true <-> tag ∈ tags.
Proof.
  induction tags as [|t tags IH]; simpl.
  - split; [done | intros Hin; by apply elem_of_nil in Hin].
  - destruct (String.eqb_spec t tag) as [->|Hne].
    + split; [intros _; apply list_elem_of_here | done].
    + rewrite IH, elem_of_cons. split; [by right|].
      intros [Heq | Hin]; [congruence | done].
Qed.

(** One iteration either keeps [results] or appends [svc], and it appends
    exactly when [svc] is selected. *)
Lemma Search_body_spec (route name tag : string)
    (results : option (list Service)) (svc : Service) :
  (spec.selected ToLower route name tag svc /\
   Search_body ToLower route name tag results svc = append results svc) \/
  (~ spec.selected ToLower route name tag svc /\
   Search_body ToLower route name tag results svc = results).
Proof.
  unfold Search_body, spec.selected.
  destruct (negb (route =? "") &&
            negb (route_found route (range (Routes svc)))) eqn:Hroute.
  { right. split; [|done]. intros (Hr & _ & _).
    apply andb_true_iff in Hroute as [Hne Hnf].
    apply negb_true_iff in Hne, Hnf. apply String.eqb_neq in Hne.
    apply Hr, route_found_spec in Hne. congruence. }
  destruct (negb (name =? "") &&
            negb (gostrings.Contains (ToLower (Name svc)) (ToLower name)))
    eqn:Hname.
  { right. split; [|done]. intros (_ & Hn & _).
    apply andb_true_iff in Hname as [Hne Hnf].
    apply negb_true_iff in Hne, Hnf. apply String.eqb_neq in Hne.
    apply Hn, Contains_spec in Hne. congruence. }
  destruct (negb (tag =? "") && negb (tag_found tag (range (Tags svc))))
    eqn:Htag.
  { right. split; [|done]. intros (_ & _ & Ht).
    apply andb_true_iff in Htag as [Hne Hnf].
    apply negb_true_iff in Hne, Hnf. apply String.eqb_neq in Hne.
    apply Ht, tag_found_spec in Hne. congruence. }
  left. split; [|done].
  apply andb_false_iff in Hroute, Hname, Htag.
  repeat split; intros Hne.
  - apply route_found_spec. destruct Hroute as [H | H];
      apply negb_false_iff in H; [apply String.eqb_eq in H|]; done.
  - apply Contains_spec. destruct Hname as [H | H];
      apply negb_false_iff in H; [apply String.eqb_eq in H|]; done.
  - apply tag_found_spec. destruct Htag as [H | H];
      apply negb_false_iff in H; [apply String.eqb_eq in H|]; done.
Qed.

Lemma Search_scan_elem (route name tag : string) (services : list Service)
    (results : option (list Service)) (svc : Service) :
  svc ∈ range
          (fold_left (Search_body ToLower route name tag) services results)
  <-> svc ∈ range results \/
      (svc ∈ services /\ spec.selected ToLower route name tag svc).
Proof.
  revert results. induction services as [|s services IH]; intros results.
  - simpl. split; [by left|]. intros [H | [H _]]; [done|].
    by apply elem_of_nil in H.
  - cbn [fold_left]. rewrite IH.
    destruct (Search_body_spec route name tag results s)
      as [[Hsel ->]|[Hno ->]].
    + unfold append at 1. cbn [range].
      rewrite elem_of_app, list_elem_of_singleton.
      split.
      * intros [[H | ->] | [H Hs]]; [by left | | ].
        -- right. split; [apply list_elem_of_here | done].
        -- right. split; [by apply list_elem_of_further | done].
      * intros [H | [H Hs]]; [by left; left|].
        apply elem_of_cons in H as [-> | H]; [by left; right|].
        by right.
    + split.
      * intros [H | [H Hs]]; [by left|].
        right. split; [by apply list_elem_of_further | done].
      * intros [H | [H Hs]]; [by left|].
        apply elem_of_cons in H as [-> | H]; [done|]. by right.
Qed.

Lemma Search_scan_sublist (route name tag : string) (services : list Service)
    (results : option (list Service)) :
  exists kept, kept `sublist_of` services /\
    range (fold_left (Search_body ToLower route name tag) services results)
    = (range results ++ kept)%list.
Proof.
  revert results. induction services as [|s services IH]; intros results.
  - exists []. split; [done|]. simpl. by rewrite app_nil_r.
  - cbn [fold_left].
    destruct (Search_body_spec route name tag results s) as [[_ ->]|[_ ->]].
    + destruct (IH (append results s)) as (kept & Hsub & ->).
      exists (s :: kept). split; [by apply sublist_skip|].
      unfold append. cbn [range]. by rewrite <- app_assoc.
    + destruct (IH results) as (kept & Hsub & ->).
      exists kept. split; [by apply sublist_cons | done].
Qed.

End SearchFacts.

(** The queries of the specification's examples, on a store that holds
    the record named "Test-Service" with tags "api" and "v1" and the route
    "/users". *)
Example Search_by_name :
  (handler.Search gostrings.ToLowerASCII "" "test" "" examples.w1).1 =
    handler.JSON 200
      (handler.PServices (Some (repository.GetAll (handler.repo examples.w1)))
         1) /\
  (handler.Search gostrings.ToLowerASCII "" "other" "" examples.w1).1 =
    handler.JSON 200 (handler.PServices None 0).
Proof. split; reflexivity. Qed.

Example Search_by_tag :
  (handler.Search gostrings.ToLowerASCII "" "" "v1" examples.w1).1 =
    handler.JSON 200
      (handler.PServices (Some (repository.GetAll (handler.repo examples.w1)))
         1) /\
  (handler.Search gostrings.ToLowerASCII "" "" "v" examples.w1).1 =
    handler.JSON 200 (handler.PServices None 0).
Proof. split; reflexivity. Qed.

Example Search_by_route :
  (handler.Search gostrings.ToLowerASCII "/us" "" "" examples.w1).1 =
    handler.JSON 200
      (handler.PServices (Some (repository.GetAll (handler.repo examples.w1)))
         1) /\
  (handler.Search gostrings.ToLowerASCII "/users/7" "" "" examples.w1).1 =
    handler.JSON 200 (handler.PServices None 0).
Proof. split; reflexivity. Qed.

(** C6. Whatever the store holds and whatever the query, Search answers
    200 with the records of the store that satisfy every supplied filter
    and no others (a route filter: some route path equals the value or
    starts with it; a name filter: the lower-cased name contains the
    lower-cased value; a tag filter: the value is one of the tags), each
    as often as the store lists it; with no filter supplied these are all
    the records; the count sent is the number of records sent; the store
    is left as it was. *)
Theorem Search_selects (ToLower : string -> string) (route name tag : string)
    (w : handler.World) :
  exists results : option (list domain.Service),
    handler.Search ToLower route name tag w =
      (handler.JSON handler.StatusOK
         (handler.PServices results
            (Z.of_nat (length (handler.range results)))), w) /\
    (forall svc, svc ∈ handler.range results <->
       (exists id, handler.repo w !! id = Some svc) /\
       spec.selected ToLower route name tag svc) /\
    handler.range results `sublist_of` repository.GetAll (handler.repo w) /\
    (route = "" /\ name = "" /\ tag = "" ->
     forall svc, svc ∈ handler.range results <->
       exists id, handler.repo w !! id = Some svc).
Proof.
  eexists. split; [reflexivity|].
  assert (Helem : forall svc,
    svc ∈ handler.range
      (fold_left (handler.Search_body ToLower route name tag)
         (repository.GetAll (handler.repo w)) None) <->
    (exists id, handler.repo w !! id = Some svc) /\
    spec.selected ToLower route name tag svc).
  { intros svc. rewrite Search_scan_elem, elem_of_GetAll. simpl. split.
    - intros [H | H]; [by apply elem_of_nil in H | done].
    - intros H. by right. }
  split; [exact Helem|]. split.
  - destruct (Search_scan_sublist ToLower route name tag
                (repository.GetAll (handler.repo w)) None)
      as (kept & Hsub & ->).
    done.
  - intros (-> & -> & ->) svc. rewrite Helem. split; [by intros [H _]|].
    intros H. split; [done|]. by repeat split.
Qed.

(** ** Handlers *)

Section HandlerFacts.
Import domain handler.
Implicit Types (w : World) (stored service : Service).

Lemma ShouldBindJSON_Decoded {A : Type} (validate : A -> bool) (req : A) :
  validate req = true -> ShouldBindJSON validate (Decoded req) = inr req.
Proof. intros Hvalid. simpl. by rewrite Hvalid. Qed.

Lemma ShouldBindJSON_rejected {A : Type} (validate : A -> bool) (req : A) :
  validate req = false ->
  ShouldBindJSON validate (Decoded req) = inl BindingError.
Proof. intros Hvalid. simpl. by rewrite Hvalid. Qed.

Lemma validate_Register_spec (req : RegisterServiceRequest.t) :
  validate_Register req = true <->
  RegisterServiceRequest.Name req <> "" /\
  RegisterServiceRequest.Host req <> "" /\
  (1 <= RegisterServiceRequest.Port req <= 65535)%Z.
Proof.
  unfold validate_Register, required_string, required_int, min_int, max_int.
  rewrite !andb_true_iff, !negb_true_iff, !String.eqb_neq, Z.eqb_neq,
    !Z.leb_le.
  split; [intros ((? & ?) & (? & ?) & ?) | intros (? & ? & ? & ?)];
    repeat split; (done || lia).
Qed.

Lemma validate_Update_spec (req : UpdateServiceRequest.t) :
  validate_Update req = true <->
  UpdateServiceRequest.Port req = 0%Z \/
  (1 <= UpdateServiceRequest.Port req <= 65535)%Z.
Proof.
  unfold validate_Update, min_int, max_int.
  rewrite orb_true_iff, andb_true_iff, Z.eqb_eq, !Z.leb_le. tauto.
Qed.

(** The fields [merge] does not assign. *)
Lemma merge_untouched (req : UpdateServiceRequest.t) stored :
  ID (merge req stored) = ID stored /\
  Name (merge req stored) = Name stored /\
  Status (merge req stored) = Status stored /\
  LastHeartbeat (merge req stored) = LastHeartbeat stored /\
  RegisteredAt (merge req stored) = RegisteredAt stored.
Proof.
  unfold merge.
  destruct (UpdateServiceRequest.Host req =? ""),
    (UpdateServiceRequest.Port req =? 0)%Z,
    (UpdateServiceRequest.Protocol req =? ""),
    (UpdateServiceRequest.BasePath req =? ""),
    (UpdateServiceRequest.Routes req),
    (UpdateServiceRequest.HealthCheck req =? ""),
    (UpdateServiceRequest.Tags req),
    (UpdateServiceRequest.Metadata req); done.
Qed.

(** The fields [merge] assigns: the request's value unless it is the zero
    value. *)
Lemma merge_assigned (req : UpdateServiceRequest.t) stored :
  Host (merge req stored) =
    (if UpdateServiceRequest.Host req =? "" then Host stored
     else UpdateServiceRequest.Host req) /\
  Port (merge req stored) =
    (if (UpdateServiceRequest.Port req =? 0)%Z then Port stored
     else UpdateServiceRequest.Port req) /\
  Protocol (merge req stored) =
    (if UpdateServiceRequest.Protocol req =? "" then Protocol stored
     else UpdateServiceRequest.Protocol req) /\
  BasePath (merge req stored) =
    (if UpdateServiceRequest.BasePath req =? "" then BasePath stored
     else UpdateServiceRequest.BasePath req) /\
  Routes (merge req stored) =
    match UpdateServiceRequest.Routes req with
    | Some routes => Some routes
    | None => Routes stored
    end /\
  HealthCheck (merge req stored) =
    (if UpdateServiceRequest.HealthCheck req =? "" then HealthCheck stored
     else UpdateServiceRequest.HealthCheck req) /\
  Tags (merge req stored) =
    match UpdateServiceRequest.Tags req with
    | Some tags => Some tags
    | None => Tags stored
    end /\
  Metadata (merge req stored) =
    match UpdateServiceRequest.Metadata req with
    | Some metadata => Some metadata
    | None => Metadata stored
    end.
Proof.
  unfold merge.
  destruct (UpdateServiceRequest.Host req =? ""),
    (UpdateServiceRequest.Port req =? 0)%Z,
    (UpdateServiceRequest.Protocol req =? ""),
    (UpdateServiceRequest.BasePath req =? ""),
    (UpdateServiceRequest.Routes req),
    (UpdateServiceRequest.HealthCheck req =? ""),
    (UpdateServiceRequest.Tags req),
    (UpdateServiceRequest.Metadata req); done.
Qed.

Lemma keyed_lookup (r : gmap string Service) id stored :
  keyed r -> r !! id = Some stored -> ID stored = id.
Proof. intros Hkeyed Hid. exact (map_Forall_lookup_1 _ _ _ _ Hkeyed Hid). Qed.

(** Assigning through the stored pointer and then calling [repo.Update]
    with a record of the same id. *)
Lemma assign_then_Update w id service :
  ID service = id ->
  repository.Update service (repo (assign id service w)) =
    (None, <[id := service]> (repo w)).
Proof.
  intros Hid. unfold assign, set_repo. cbn [repo].
  rewrite Update_present; rewrite Hid.
  - by rewrite insert_insert_eq.
  - rewrite lookup_insert_eq. by eexists.
Qed.

Lemma Update_accepted w id stored (req : UpdateServiceRequest.t) :
  keyed (repo w) -> repo w !! id = Some stored ->
  validate_Update req = true ->
  Update id (Decoded req) w =
    (JSON StatusOK (PService (merge req stored)),
     mkWorld (<[id := merge req stored]> (repo w)) (clock w)).
Proof.
  intros Hkeyed Hid Hvalid. unfold Update.
  rewrite (GetByID_Some _ _ _ Hid), (ShouldBindJSON_Decoded _ _ Hvalid).
  cbv zeta. rewrite assign_then_Update.
  - done.
  - destruct (merge_untouched req stored) as [-> _].
    by apply (keyed_lookup (repo w)).
Qed.

Lemma Update_rejected w id stored (body : RequestBody UpdateServiceRequest.t) :
  repo w !! id = Some stored ->
  ShouldBindJSON validate_Update body = inl BindingError ->
  Update id body w = (JSON StatusBadRequest (PError BindingError), w).
Proof.
  intros Hid Hbind. unfold Update. by rewrite (GetByID_Some _ _ _ Hid), Hbind.
Qed.

Lemma Update_unknown w id (body : RequestBody UpdateServiceRequest.t) :
  repo w !! id = None ->
  Update id body w =
    (JSON StatusNotFound (PError (Text "service not found")), w).
Proof. intros Hid. unfold Update. by rewrite (GetByID_None _ _ Hid). Qed.

Lemma Heartbeat_known w id stored (d : N) :
  keyed (repo w) -> repo w !! id = Some stored ->
  let now := (clock w + Z.of_N d)%Z in
  let beaten := set_Status StatusHealthy (set_LastHeartbeat now stored) in
  Heartbeat id d w =
    (JSON StatusOK (PHeartbeat "heartbeat received" now),
     mkWorld (<[id := beaten]> (repo w)) now).
Proof.
  intros Hkeyed Hid now beaten. unfold Heartbeat.
  rewrite (GetByID_Some _ _ _ Hid). unfold Now. cbv zeta.
  rewrite assign_then_Update.
  - done.
  - simpl. by apply (keyed_lookup (repo w)).
Qed.

Lemma Heartbeat_unknown w id (d : N) :
  repo w !! id = None ->
  Heartbeat id d w =
    (JSON StatusNotFound (PError (Text "service not found")), w).
Proof. intros Hid. unfold Heartbeat. by rewrite (GetByID_None _ _ Hid). Qed.

End HandlerFacts.

Section RegisterFacts.
Import domain handler.

Lemma Register_collision (req : RegisterServiceRequest.t) (uuid : string)
    (d1 d2 : N) (w : World) :
  validate_Register req = true -> is_Some (repo w !! uuid) ->
  Register (Decoded req) uuid d1 d2 w =
    (JSON StatusInternalServerError (PError (Text "service already exists")),
     mkWorld (repo w) (clock w + Z.of_N d1 + Z.of_N d2)%Z).
Proof.
  intros Hvalid Huuid. unfold Register.
  rewrite (ShouldBindJSON_Decoded _ _ Hvalid). unfold Now. cbv zeta.
  cbn [repo clock]. by rewrite Create_present.
Qed.

Lemma Register_malformed (uuid : string) (d1 d2 : N) (w : World) :
  Register Malformed uuid d1 d2 w =
    (JSON StatusBadRequest (PError BindingError), w).
Proof. reflexivity. Qed.

End RegisterFacts.

(** C1, as the code has it.  A Register request with a non-empty name, a
    non-empty host and a port in [1, 65535] succeeds whenever the
    generated identifier is not yet a key of the store: it answers 201 with
    the created record, which is stored under that identifier; the record
    has the request's fields, protocol "http" and health check "/health"
    when the request leaves them empty, and status healthy; lastHeartbeat
    and registeredAt are two successive readings of the clock, so
    lastHeartbeat is not later than registeredAt.  When the generated
    identifier is already a key of the store, the request is answered 500
    and the store keeps its records. *)
Theorem Register_valid (req : domain.RegisterServiceRequest.t)
    (uuid : string) (d1 d2 : N) (w : handler.World) :
  domain.RegisterServiceRequest.Name req <> "" ->
  domain.RegisterServiceRequest.Host req <> "" ->
  (1 <= domain.RegisterServiceRequest.Port req <= 65535)%Z ->
  let t1 := (handler.clock w + Z.of_N d1)%Z in
  let t2 := (t1 + Z.of_N d2)%Z in
  (handler.repo w !! uuid = None ->
   exists service : domain.Service,
     handler.Register (handler.Decoded req) uuid d1 d2 w =
       (handler.JSON handler.StatusCreated (handler.PService service),
        handler.mkWorld (<[uuid := service]> (handler.repo w)) t2) /\
     domain.ID service = uuid /\
     domain.Name service = domain.RegisterServiceRequest.Name req /\
     domain.Host service = domain.RegisterServiceRequest.Host req /\
     domain.Port service = domain.RegisterServiceRequest.Port req /\
     (domain.RegisterServiceRequest.Protocol req = "" ->
        domain.Protocol service = "http") /\
     (domain.RegisterServiceRequest.Protocol req <> "" ->
        domain.Protocol service =
          domain.RegisterServiceRequest.Protocol req) /\
     domain.BasePath service = domain.RegisterServiceRequest.BasePath req /\
     domain.Routes service = domain.RegisterServiceRequest.Routes req /\
     (domain.RegisterServiceRequest.HealthCheck req = "" ->
        domain.HealthCheck service = "/health") /\
     (domain.RegisterServiceRequest.HealthCheck req <> "" ->
        domain.HealthCheck service =
          domain.RegisterServiceRequest.HealthCheck req) /\
     domain.Tags service = domain.RegisterServiceRequest.Tags req /\
     domain.Metadata service = domain.RegisterServiceRequest.Metadata req /\
     domain.Status service = domain.StatusHealthy /\
     domain.LastHeartbeat service = t1 /\
     domain.RegisteredAt service = t2 /\
     (domain.LastHeartbeat service <= domain.RegisteredAt service)%Z) /\
  (is_Some (handler.repo w !! uuid) ->
   handler.Register (handler.Decoded req) uuid d1 d2 w =
     (handler.JSON handler.StatusInternalServerError
        (handler.PError (handler.Text "service already exists")),
      handler.mkWorld (handler.repo w) t2)).
Proof.
  intros Hname Hhost Hport t1 t2.
  assert (Hvalid : handler.validate_Register req = true)
    by by apply validate_Register_spec.
  split; [|by apply Register_collision].
  intros Hfresh. eexists. split.
  - unfold handler.Register. rewrite (ShouldBindJSON_Decoded _ _ Hvalid).
    unfold handler.Now. cbv zeta. cbn [handler.repo handler.clock].
    rewrite Create_absent by done. reflexivity.
  - cbn [domain.ID domain.Name domain.Host domain.Port domain.Protocol
         domain.BasePath domain.Routes domain.HealthCheck domain.Tags
         domain.Metadata domain.Status domain.LastHeartbeat
         domain.RegisteredAt].
    repeat split; try done.
    + by intros ->.
    + intros Hne. apply String.eqb_neq in Hne. by rewrite Hne.
    + by intros ->.
    + intros Hne. apply String.eqb_neq in Hne. by rewrite Hne.
    + subst t1 t2. lia.
Qed.

Lemma Register_valid_witness :
  domain.RegisterServiceRequest.Name examples.register_users <> "" /\
  domain.RegisterServiceRequest.Host examples.register_users <> "" /\
  (1 <= domain.RegisterServiceRequest.Port examples.register_users
     <= 65535)%Z /\
  handler.repo examples.w0 !! "svc-1" = None /\
  exists service : domain.Service,
    handler.Register (handler.Decoded examples.register_users) "svc-1" 5 7
      examples.w0 =
      (handler.JSON handler.StatusCreated (handler.PService service),
       handler.mkWorld (<["svc-1" := service]> (handler.repo examples.w0))
         1012) /\
    domain.ID service = "svc-1" /\
    domain.Protocol service = "http" /\
    domain.HealthCheck service = "/health" /\
    domain.Status service = domain.StatusHealthy /\
    domain.LastHeartbeat service = 1005%Z /\
    domain.RegisteredAt service = 1012%Z.
Proof.
  assert (Hname :
    domain.RegisterServiceRequest.Name examples.register_users <> "")
    by (simpl; discriminate).
  assert (Hhost :
    domain.RegisterServiceRequest.Host examples.register_users <> "")
    by (simpl; discriminate).
  assert (Hport :
    (1 <= domain.RegisterServiceRequest.Port examples.register_users
       <= 65535)%Z) by (simpl; lia).
  assert (Hfresh : handler.repo examples.w0 !! "svc-1" = None)
    by reflexivity.
  repeat (split; [assumption|]).
  destruct (Register_valid examples.register_users "svc-1" 5 7 examples.w0
              Hname Hhost Hport) as [Hcreated _].
  destruct (Hcreated Hfresh)
    as (service & Hrun & Hid & _ & _ & _ & Hproto & _ & _ & _ & Hhc & _ & _
        & _ & Hstatus & Hlast & Hreg & _).
  exists service. repeat split; try done.
  - by apply Hproto.
  - by apply Hhc.
Defined.

(** C1, as stated, fails: the two timestamps of a created record come from
    two readings of the clock and differ when the clock moves between
    them. *)
Lemma Register_stamps_differ :
  handler.validate_Register examples.register_users = true /\
  handler.repo examples.w0 !! "svc-1" = None /\
  exists (service : domain.Service) (w' : handler.World),
    handler.Register (handler.Decoded examples.register_users) "svc-1" 5 7
      examples.w0 =
      (handler.JSON handler.StatusCreated (handler.PService service), w') /\
    domain.LastHeartbeat service = 1005%Z /\
    domain.RegisteredAt service = 1012%Z /\
    domain.LastHeartbeat service <> domain.RegisteredAt service.
Proof.
  split; [reflexivity|]. split; [reflexivity|].
  eexists. eexists. split; [reflexivity|].
  split; [reflexivity|]. split; [reflexivity|]. simpl. lia.
Qed.

(** C2. A Register request with an empty name, an empty host or a port
    outside [1, 65535] is answered 400 and nothing changes: no record is
    created. *)
Theorem Register_invalid (req : domain.RegisterServiceRequest.t)
    (uuid : string) (d1 d2 : N) (w : handler.World) :
  domain.RegisterServiceRequest.Name req = "" \/
  domain.RegisterServiceRequest.Host req = "" \/
  ~ (1 <= domain.RegisterServiceRequest.Port req <= 65535)%Z ->
  handler.Register (handler.Decoded req) uuid d1 d2 w =
    (handler.JSON handler.StatusBadRequest
       (handler.PError handler.BindingError), w).
Proof.
  intros Hbad.
  assert (Hvalid : handler.validate_Register req = false).
  { apply not_true_is_false. rewrite validate_Register_spec. tauto. }
  unfold handler.Register. by rewrite (ShouldBindJSON_rejected _ _ Hvalid).
Qed.

Lemma Register_invalid_witness :
  domain.RegisterServiceRequest.Host examples.register_no_host = "" /\
  handler.Register (handler.Decoded examples.register_no_host) "svc-2" 1 1
    examples.w1 =
    (handler.JSON handler.StatusBadRequest
       (handler.PError handler.BindingError), examples.w1).
Proof.
  split; [reflexivity|].
  apply (Register_invalid examples.register_no_host "svc-2" 1 1 examples.w1).
  right. left. reflexivity.
Defined.

(** C3, as the code has it.  For an id absent from the store, Update
    answers 404.  For a stored record and an Update request on its id that
    binds (its port is 0 or in [1, 65535]), Update answers 200 and the
    stored record becomes one that has, for each of host, port, protocol,
    basePath, routes, healthCheck, tags and metadata, the request's value
    when that is not the zero value and the stored value when it is; so a
    field that is zero afterwards was zero before.  A request that does
    not bind is answered 400 and changes nothing. *)
Theorem Update_merges_fields (id : string)
    (body : handler.RequestBody domain.UpdateServiceRequest.t)
    (w : handler.World) :
  handler.keyed (handler.repo w) ->
  (handler.repo w !! id = None ->
   handler.Update id body w =
     (handler.JSON handler.StatusNotFound
        (handler.PError (handler.Text "service not found")), w)) /\
  (forall stored req,
     handler.repo w !! id = Some stored ->
     body = handler.Decoded req ->
     domain.UpdateServiceRequest.Port req = 0%Z \/
     (1 <= domain.UpdateServiceRequest.Port req <= 65535)%Z ->
     exists service : domain.Service,
       handler.Update id body w =
         (handler.JSON handler.StatusOK (handler.PService service),
          handler.mkWorld (<[id := service]> (handler.repo w))
            (handler.clock w)) /\
       spec.merged "" (domain.UpdateServiceRequest.Host req)
         (domain.Host stored) (domain.Host service) /\
       spec.merged 0%Z (domain.UpdateServiceRequest.Port req)
         (domain.Port stored) (domain.Port service) /\
       spec.merged "" (domain.UpdateServiceRequest.Protocol req)
         (domain.Protocol stored) (domain.Protocol service) /\
       spec.merged "" (domain.UpdateServiceRequest.BasePath req)
         (domain.BasePath stored) (domain.BasePath service) /\
       spec.merged None (domain.UpdateServiceRequest.Routes req)
         (domain.Routes stored) (domain.Routes service) /\
       spec.merged "" (domain.UpdateServiceRequest.HealthCheck req)
         (domain.HealthCheck stored) (domain.HealthCheck service) /\
       spec.merged None (domain.UpdateServiceRequest.Tags req)
         (domain.Tags stored) (domain.Tags service) /\
       spec.merged None (domain.UpdateServiceRequest.Metadata req)
         (domain.Metadata stored) (domain.Metadata service) /\
       (domain.Host service = "" -> domain.Host stored = "") /\
       (domain.Port service = 0%Z -> domain.Port stored = 0%Z) /\
       (domain.Protocol service = "" -> domain.Protocol stored = "") /\
       (domain.BasePath service = "" -> domain.BasePath stored = "") /\
       (domain.Routes service = None -> domain.Routes stored = None) /\
       (domain.HealthCheck service = "" -> domain.HealthCheck stored = "") /\
       (domain.Tags service = None -> domain.Tags stored = None) /\
       (domain.Metadata service = None -> domain.Metadata stored = None)) /\
  (forall stored,
     handler.repo w !! id = Some stored ->
     handler.ShouldBindJSON handler.validate_Update body =
       inl handler.BindingError ->
     handler.Update id body w =
       (handler.JSON handler.StatusBadRequest
          (handler.PError handler.BindingError), w)).
Proof.
  intros Hkeyed. split; [apply Update_unknown|]. split.
  - intros stored req Hid -> Hport.
    apply validate_Update_spec in Hport.
    exists (handler.merge req stored).
    split; [by apply Update_accepted|].
    destruct (merge_assigned req stored)
      as (-> & -> & -> & -> & -> & -> & -> & ->).
    unfold spec.merged.
    destruct (String.eqb_spec (domain.UpdateServiceRequest.Host req) ""),
      (Z.eqb_spec (domain.UpdateServiceRequest.Port req) 0),
      (String.eqb_spec (domain.UpdateServiceRequest.Protocol req) ""),
      (String.eqb_spec (domain.UpdateServiceRequest.BasePath req) ""),
      (domain.UpdateServiceRequest.Routes req),
      (String.eqb_spec (domain.UpdateServiceRequest.HealthCheck req) ""),
      (domain.UpdateServiceRequest.Tags req),
      (domain.UpdateServiceRequest.Metadata req);
      repeat split; intros; congruence.
  - intros stored. apply Update_rejected.
Qed.

Lemma examples_w1_keyed : handler.keyed (handler.repo examples.w1).
Proof.
  apply map_Forall_insert_2; [reflexivity | apply map_Forall_empty].
Defined.

Lemma Update_merges_fields_witness :
  handler.keyed (handler.repo examples.w1) /\
  exists stored service : domain.Service,
    handler.repo examples.w1 !! "svc-1" = Some stored /\
    handler.Update "svc-1" (handler.Decoded examples.update_port)
      examples.w1 =
      (handler.JSON handler.StatusOK (handler.PService service),
       handler.mkWorld (<["svc-1" := service]> (handler.repo examples.w1))
         (handler.clock examples.w1)) /\
    domain.Port stored = 3000%Z /\
    domain.Port service = 5000%Z /\
    domain.Host service = domain.Host stored.
Proof.
  split; [exact examples_w1_keyed|].
  destruct (Update_merges_fields "svc-1"
              (handler.Decoded examples.update_port) examples.w1
              examples_w1_keyed) as (_ & Hmerge & _).
  eexists. 
  destruct (Hmerge _ examples.update_port eq_refl eq_refl)
    as (service & Hrun & (_ & Hhost) & (Hport & _) & _).
  - right. simpl. lia.
  - exists service. split; [reflexivity|]. split; [exact Hrun|].
    split; [reflexivity|]. split.
    + apply Hport. simpl. lia.
    + by apply Hhost.
Defined.

(** C3, as stated, fails: a request whose port is 70000, which is not the
    zero value, is answered 400 and the stored port stays what it was. *)
Lemma Update_port_out_of_range :
  exists stored : domain.Service,
    handler.repo examples.w1 !! "svc-1" = Some stored /\
    domain.UpdateServiceRequest.Port examples.update_port_out_of_range
      = 70000%Z /\
    handler.Update "svc-1"
      (handler.Decoded examples.update_port_out_of_range) examples.w1 =
      (handler.JSON handler.StatusBadRequest
         (handler.PError handler.BindingError), examples.w1) /\
    domain.Port stored = 3000%Z.
Proof.
  eexists. split; [reflexivity|]. split; [reflexivity|].
  split; reflexivity.
Qed.

(** C4. A successful Update (answered 200) on the id of a stored record
    leaves the id, name, status, lastHeartbeat and registeredAt of the
    stored record as they were, whatever the request holds. *)
Theorem Update_keeps_identity (id : string)
    (body : handler.RequestBody domain.UpdateServiceRequest.t)
    (w : handler.World) (stored : domain.Service) :
  handler.keyed (handler.repo w) ->
  handler.repo w !! id = Some stored ->
  handler.code (handler.Update id body w).1 = handler.StatusOK ->
  exists updated : domain.Service,
    handler.repo (handler.Update id body w).2 !! id = Some updated /\
    domain.ID updated = domain.ID stored /\
    domain.Name updated = domain.Name stored /\
    domain.Status updated = domain.Status stored /\
    domain.LastHeartbeat updated = domain.LastHeartbeat stored /\
    domain.RegisteredAt updated = domain.RegisteredAt stored.
Proof.
  intros Hkeyed Hid Hok.
  destruct (handler.ShouldBindJSON handler.validate_Update body)
    as [err | req] eqn:Hbind.
  - assert (err = handler.BindingError) as ->.
    { destruct body as [|req]; simpl in Hbind;
        [|destruct (handler.validate_Update req)]; congruence. }
    rewrite (Update_rejected _ _ _ _ Hid Hbind) in Hok. discriminate Hok.
  - destruct body as [|req']; [discriminate Hbind|]. simpl in Hbind.
    destruct (handler.validate_Update req') eqn:Hvalid; [|discriminate Hbind].
    rewrite (Update_accepted _ _ _ _ Hkeyed Hid Hvalid).
    exists (handler.merge req' stored). split.
    + cbn [snd handler.repo]. apply lookup_insert_eq.
    + apply merge_untouched.
Qed.

Lemma Update_keeps_identity_witness :
  handler.keyed (handler.repo examples.w1) /\
  exists stored : domain.Service,
    handler.repo examples.w1 !! "svc-1" = Some stored /\
    handler.code
      (handler.Update "svc-1" (handler.Decoded examples.update_port)
         examples.w1).1 = handler.StatusOK /\
    exists updated : domain.Service,
      handler.repo
        (handler.Update "svc-1" (handler.Decoded examples.update_port)
           examples.w1).2 !! "svc-1" = Some updated /\
      domain.ID updated = domain.ID stored /\
      domain.Name updated = domain.Name stored /\
      domain.Status updated = domain.Status stored /\
      domain.LastHeartbeat updated = domain.LastHeartbeat stored /\
      domain.RegisteredAt updated = domain.RegisteredAt stored.
Proof.
  split; [exact examples_w1_keyed|].
  eexists. split; [reflexivity|]. split; [reflexivity|].
  apply (Update_keeps_identity "svc-1" (handler.Decoded examples.update_port)
           examples.w1 _ examples_w1_keyed eq_refl eq_refl).
Defined.

(** C5. For an id present in the store, Heartbeat answers 200 with the
    new timestamp, which is the current reading of the clock and is not
    earlier than the record's previous lastHeartbeat; the stored record
    becomes the previous one with lastHeartbeat set to that timestamp and
    status set to healthy, whatever the status was, every other field and
    every other record unchanged.  For an id absent from the store,
    Heartbeat answers 404 and nothing changes. *)
Theorem Heartbeat_outcome (id : string) (d : N) (w : handler.World) :
  handler.keyed (handler.repo w) ->
  handler.stamped w ->
  (forall stored : domain.Service,
     handler.repo w !! id = Some stored ->
     let now := (handler.clock w + Z.of_N d)%Z in
     let beaten :=
       domain.mkService (domain.ID stored) (domain.Name stored)
         (domain.Host stored) (domain.Port stored) (domain.Protocol stored)
         (domain.BasePath stored) (domain.Routes stored)
         (domain.HealthCheck stored) (domain.Tags stored)
         (domain.Metadata stored) domain.StatusHealthy now
         (domain.RegisteredAt stored) in
     handler.Heartbeat id d w =
       (handler.JSON handler.StatusOK
          (handler.PHeartbeat "heartbeat received" now),
        handler.mkWorld (<[id := beaten]> (handler.repo w)) now) /\
     (domain.LastHeartbeat stored <= now)%Z /\
     (forall k, k <> id ->
        handler.repo (handler.Heartbeat id d w).2 !! k =
        handler.repo w !! k)) /\
  (handler.repo w !! id = None ->
   handler.Heartbeat id d w =
     (handler.JSON handler.StatusNotFound
        (handler.PError (handler.Text "service not found")), w)).
Proof.
  intros Hkeyed Hstamped. split; [|apply Heartbeat_unknown].
  intros stored Hid now beaten.
  pose proof (Heartbeat_known w id stored d Hkeyed Hid) as Hrun.
  cbv zeta in Hrun. split; [exact Hrun|]. split.
  - destruct (map_Forall_lookup_1 _ _ _ _ Hstamped Hid) as [Hle _].
    subst now. lia.
  - intros k Hk. rewrite Hrun. cbn [snd handler.repo].
    by apply lookup_insert_ne.
Qed.

Lemma examples_w1_stamped : handler.stamped examples.w1.
Proof.
  apply map_Forall_insert_2; [|apply map_Forall_empty].
  split; vm_compute; discriminate.
Defined.

Lemma Heartbeat_outcome_witness :
  handler.keyed (handler.repo examples.w1) /\
  handler.stamped examples.w1 /\
  exists stored : domain.Service,
    handler.repo examples.w1 !! "svc-1" = Some stored /\
    domain.LastHeartbeat stored = 1005%Z /\
    (handler.Heartbeat "svc-1" 30 examples.w1).1 =
      handler.JSON handler.StatusOK
        (handler.PHeartbeat "heartbeat received" 1042) /\
    (domain.LastHeartbeat stored <= 1042)%Z.
Proof.
  split; [exact examples_w1_keyed|]. split; [exact examples_w1_stamped|].
  destruct (Heartbeat_outcome "svc-1" 30 examples.w1 examples_w1_keyed
              examples_w1_stamped) as [Hknown _].
  eexists. split; [reflexivity|]. split; [reflexivity|].
  destruct (Hknown _ eq_refl) as (Hrun & Hle & _).
  split; [by rewrite Hrun | exact Hle].
Defined.

(** C10. Update looks the id up before it binds the body: for an id absent
    from the store every body, malformed and invalid ones included, is
    answered 404 and never 400, and nothing changes. *)
Theorem Update_checks_id_first (id : string) (w : handler.World) :
  handler.repo w !! id = None ->
  forall body : handler.RequestBody domain.UpdateServiceRequest.t,
    handler.Update id body w =
      (handler.JSON handler.StatusNotFound
         (handler.PError (handler.Text "service not found")), w) /\
    handler.code (handler.Update id body w).1 <> handler.StatusBadRequest.
Proof.
  intros Hid body. rewrite (Update_unknown _ _ _ Hid). split; [done|].
  simpl. unfold handler.StatusNotFound, handler.StatusBadRequest. lia.
Qed.

Lemma Update_checks_id_first_witness :
  handler.repo examples.w1 !! "svc-9" = None /\
  handler.Update "svc-9" handler.Malformed examples.w1 =
    (handler.JSON handler.StatusNotFound
       (handler.PError (handler.Text "service not found")), examples.w1) /\
  handler.Update "svc-9"
    (handler.Decoded examples.update_port_out_of_range) examples.w1 =
    (handler.JSON handler.StatusNotFound
       (handler.PError (handler.Text "service not found")), examples.w1).
Proof.
  split; [reflexivity|]. split.
  - apply (Update_checks_id_first "svc-9" examples.w1 eq_refl).
  - apply (Update_checks_id_first "svc-9" examples.w1 eq_refl).
Defined.

(** ** Reachable states *)

Section Reachable.
Import domain handler.
Variable ToLower : string -> string.

Lemma invariant_init (t0 : Z) :
  invariant (mkWorld repository.NewMemoryRepository t0).
Proof. split; [|split]; apply map_Forall_empty. Qed.

Lemma stamped_later (r : gmap string Service) (t t' : Z) :
  (t <= t')%Z -> stamped (mkWorld r t) -> stamped (mkWorld r t').
Proof.
  intros Hle Hstamped. eapply map_Forall_impl; [exact Hstamped|].
  simpl. intros _ service [? ?]. lia.
Qed.

Lemma invariant_insert (w : World) (id : string) (service : Service) (t : Z) :
  invariant w -> (clock w <= t)%Z ->
  ID service = id -> Status service = StatusHealthy ->
  (LastHeartbeat service <= t)%Z -> (RegisteredAt service <= t)%Z ->
  invariant (mkWorld (<[id := service]> (repo w)) t).
Proof.
  intros (Hkeyed & Hstamped & Hhealthy) Hle Hid Hstatus Hlast Hreg.
  split; [|split]; unfold stamped; cbn [repo clock].
  - by apply map_Forall_insert_2.
  - apply map_Forall_insert_2; [done|].
    apply (stamped_later (repo w) (clock w) t Hle). by destruct w.
  - by apply map_Forall_insert_2.
Qed.

Lemma Register_invariant (body : RequestBody RegisterServiceRequest.t)
    (uuid : string) (d1 d2 : N) (w : World) :
  invariant w -> invariant (Register body uuid d1 d2 w).2.
Proof.
  intros Hinv. unfold Register.
  destruct (ShouldBindJSON validate_Register body) as [err | req]; [done|].
  unfold Now. cbv zeta. cbn [repo clock]. unfold repository.Create.
  cbn [ID]. destruct (repo w !! uuid) as [old|] eqn:Huuid; cbn [snd].
  - unfold set_repo. cbn [repo clock].
    destruct Hinv as (Hkeyed & Hstamped & Hhealthy).
    split; [done|]. split; [|done].
    apply (stamped_later (repo w) (clock w)); [lia | by destruct w].
  - unfold set_repo. cbn [repo clock].
    apply (invariant_insert w); simpl; try done; lia.
Qed.

Lemma Update_invariant (id : string)
    (body : RequestBody UpdateServiceRequest.t) (w : World) :
  invariant w -> invariant (Update id body w).2.
Proof.
  intros Hinv. destruct (repo w !! id) as [stored|] eqn:Hid.
  - destruct body as [|req].
    + by rewrite (Update_rejected w id stored Malformed Hid eq_refl).
    + destruct (validate_Update req) eqn:Hvalid.
      * destruct Hinv as (Hkeyed & Hstamped & Hhealthy).
        rewrite (Update_accepted w id stored req Hkeyed Hid Hvalid).
        cbn [snd].
        destruct (merge_untouched req stored) as (Hi & _ & Hs & Hl & Hr).
        destruct (map_Forall_lookup_1 _ _ _ _ Hstamped Hid) as [Hlast Hreg].
        apply (invariant_insert w); try done; try lia.
        -- rewrite Hi. by apply (keyed_lookup (repo w)).
        -- rewrite Hs. exact (map_Forall_lookup_1 _ _ _ _ Hhealthy Hid).
      * rewrite (Update_rejected w id stored (Decoded req) Hid); [done|].
        by apply ShouldBindJSON_rejected.
  - by rewrite (Update_unknown w id body Hid).
Qed.

Lemma Heartbeat_invariant (id : string) (d : N) (w : World) :
  invariant w -> invariant (Heartbeat id d w).2.
Proof.
  intros Hinv. destruct (repo w !! id) as [stored|] eqn:Hid.
  - pose proof Hinv as (Hkeyed & Hstamped & Hhealthy).
    pose proof (Heartbeat_known w id stored d Hkeyed Hid) as Hrun.
    cbv zeta in Hrun. rewrite Hrun. cbn [snd].
    destruct (map_Forall_lookup_1 _ _ _ _ Hstamped Hid) as [Hlast Hreg].
    apply (invariant_insert w); simpl; try done; try lia.
    by apply (keyed_lookup (repo w)).
  - by rewrite (Heartbeat_unknown w id d Hid).
Qed.

Lemma Unregister_invariant (id : string) (w : World) :
  invariant w -> invariant (Unregister id w).2.
Proof.
  intros Hinv. unfold Unregister, repository.GetByID, repository.Delete.
  destruct (repo w !! id) as [stored|] eqn:Hid; [|done].
  destruct Hinv as (Hkeyed & Hstamped & Hhealthy).
  split; [|split]; unfold stamped; cbn [snd set_repo repo clock];
    by apply map_Forall_delete.
Qed.

Lemma serve_invariant (rq : Request) (w : World) :
  invariant w -> invariant (serve ToLower rq w).2.
Proof.
  intros Hinv. destruct rq; cbn [serve].
  - by apply Register_invariant.
  - done.
  - done.
  - unfold Get. by destruct (repository.GetByID id (repo w)).
  - by apply Update_invariant.
  - by apply Unregister_invariant.
  - by apply Heartbeat_invariant.
Qed.

Lemma reachable_invariant (w : World) : reachable ToLower w -> invariant w.
Proof.
  induction 1 as [t0 | w rq Hreach IH].
  - apply invariant_init.
  - by apply serve_invariant.
Qed.

End Reachable.

(** The life cycle of the handler tests: register, get, update the port,
    heartbeat, unregister, get. *)
Example lifecycle_codes :
  map handler.code
    (handler.serve_all gostrings.ToLowerASCII
       [handler.ReqRegister (handler.Decoded examples.register_users)
          "svc-1" 5 7;
        handler.ReqGet "svc-1";
        handler.ReqUpdate "svc-1" (handler.Decoded examples.update_port);
        handler.ReqHeartbeat "svc-1" 30;
        handler.ReqUnregister "svc-1";
        handler.ReqGet "svc-1"] examples.w0).1 =
  [201; 200; 200; 200; 200; 404]%Z.
Proof. reflexivity. Qed.

(** C9. In every state reached from an empty store by a sequence of
    Register, List, Search, Get, Update, Unregister and Heartbeat requests,
    every stored record has status healthy. *)
Theorem reachable_all_healthy (ToLower : string -> string)
    (w : handler.World) :
  handler.reachable ToLower w ->
  forall (id : string) (service : domain.Service),
    handler.repo w !! id = Some service ->
    domain.Status service = domain.StatusHealthy.
Proof.
  intros Hreach id service Hid.
  destruct (reachable_invariant ToLower w Hreach) as (_ & _ & Hhealthy).
  exact (map_Forall_lookup_1 _ _ _ _ Hhealthy Hid).
Qed.

Lemma examples_w1_reachable :
  handler.reachable gostrings.ToLowerASCII examples.w1.
Proof.
  exact (handler.reachable_serve gostrings.ToLowerASCII examples.w0
           (handler.ReqRegister (handler.Decoded examples.register_users)
              "svc-1" 5 7)
           (handler.reachable_init gostrings.ToLowerASCII 1000)).
Defined.

Lemma reachable_all_healthy_witness :
  handler.reachable gostrings.ToLowerASCII examples.w1 /\
  exists service : domain.Service,
    handler.repo examples.w1 !! "svc-1" = Some service /\
    domain.Status service = domain.StatusHealthy.
Proof.
  split; [exact examples_w1_reachable|].
  eexists. split; [reflexivity|].
  apply (reachable_all_healthy gostrings.ToLowerASCII examples.w1
           examples_w1_reachable "svc-1" _ eq_refl).
Defined.

(** ** The client *)

Section ClientFacts.
Import servicediscovery.

Variables Service RegisterRequest UpdateRequest : Type.
Variable Service_ID : Service -> string.
Variable Marshal_RegisterRequest : RegisterRequest -> string.
Variable Marshal_UpdateRequest : UpdateRequest -> string.
Variable Decode_Service : string -> string + Service.
Variable Decode_ListResponse : string -> string + option (list Service).
Variable Unmarshal_errResp : string -> option string.
Variable Encode : list (string * string) -> string.
Variable NewRequest : string -> string -> option string -> option string.

Local Abbreviation loop := (doRequest_loop NewRequest).
Local Abbreviation run := (perform Service_ID Marshal_RegisterRequest
  Marshal_UpdateRequest Decode_Service Decode_ListResponse Unmarshal_errResp
  Encode NewRequest).
Local Abbreviation request_of :=
  (client.request_of Marshal_RegisterRequest Marshal_UpdateRequest Encode).

(** What a call returns on a response that carries the status it accepts
    and a body that decodes. *)
Local Abbreviation succeeds cl resp r :=
  (match cl with
   | CallRegister _ =>
       StatusCode resp = StatusCreated ->
       forall service, Decode_Service (Body resp) = inr service ->
       r = Ok (VService service)
   | CallGet _ | CallUpdate _ _ =>
       StatusCode resp = StatusOK ->
       forall service, Decode_Service (Body resp) = inr service ->
       r = Ok (VService service)
   | CallList | CallSearch _ _ _ =>
       StatusCode resp = StatusOK ->
       forall services, Decode_ListResponse (Body resp) = inr services ->
       r = Ok (VServices services)
   | CallUnregister _ | CallHeartbeat _ =>
       StatusCode resp = StatusOK -> r = Ok VNone
   end).

Lemma replicate_snoc_cons {A : Type} (k : nat) (x : A) (l : list A) :
  (replicate k x ++ x :: l = x :: replicate k x ++ l)%list.
Proof. induction k as [|k IH]; simpl; [done | by rewrite IH]. Qed.

(** [k] failed attempts, each followed by a sleep, then a response. *)
Lemma loop_retries_then_response
    (Do : nat -> string + Response) (c : Client) (method path : string)
    (body : option string) (resp : Response) (k : nat) :
  NewRequest method (baseURL c ++ path) body = None ->
  forall (i len : Z) (lastErr : option error) (n : Net),
    (i + len = retries (options c) + 1)%Z ->
    (Z.of_nat k < len)%Z ->
    (forall j, (j < k)%nat ->
       exists err, Do (attempts n + j)%nat = inl err) ->
    Do (attempts n + k)%nat = inr resp ->
    loop Do c method path body (seqZ i len) lastErr n =
      ((Some resp, None),
       mkNet (attempts n + k + 1)
         (replicate k (retryDelay (options c)) ++ sleeps n)).
Proof.
  intros Hbuild.
  induction k as [|k IH]; intros i len lastErr n Hlen Hk Hfail Hresp.
  - rewrite seqZ_cons by lia. cbn [doRequest_loop].
    rewrite Hbuild. rewrite Nat.add_0_r in Hresp. rewrite Hresp.
    simpl. do 2 f_equal. lia.
  - rewrite seqZ_cons by lia. cbn [doRequest_loop].
    rewrite Hbuild.
    destruct (Hfail 0%nat ltac:(lia)) as [err Herr].
    rewrite Nat.add_0_r in Herr. rewrite Herr.
    assert (Hlt : (i <? retries (options c))%Z = true)
      by (apply Z.ltb_lt; lia).
    rewrite Hlt. rewrite (IH (Z.succ i) (Z.pred len)); cbn [attempts sleeps].
    + rewrite replicate_snoc_cons. simpl. do 2 f_equal. lia.
    + lia.
    + lia.
    + intros j Hj. destruct (Hfail (S j) ltac:(lia)) as [e He].
      exists e. rewrite <- He. f_equal. lia.
    + rewrite <- Hresp. f_equal. lia.
Qed.

(** Every attempt fails: the last error is wrapped. *)
Lemma loop_exhausted
    (Do : nat -> string + Response) (c : Client) (method path : string)
    (body : option string) (len : nat) :
  NewRequest method (baseURL c ++ path) body = None ->
  forall (i : Z) (lastErr : option error) (n : Net),
    (i + Z.of_nat (S len) = retries (options c) + 1)%Z ->
    (forall j, (j <= len)%nat ->
       exists err, Do (attempts n + j)%nat = inl err) ->
    exists err, Do (attempts n + len)%nat = inl err /\
      loop Do c method path body (seqZ i (Z.of_nat (S len))) lastErr n =
        ((None, Some (Wrapped ErrConnectionFailed err)),
         mkNet (attempts n + len + 1)
           (replicate len (retryDelay (options c)) ++ sleeps n)).
Proof.
  intros Hbuild.
  induction len as [|len IH]; intros i lastErr n Hlen Hfail.
  - destruct (Hfail 0%nat ltac:(lia)) as [err Herr]. exists err.
    split; [done|]. rewrite seqZ_cons by lia. cbn [doRequest_loop].
    rewrite Hbuild. rewrite Nat.add_0_r in Herr. rewrite Herr.
    assert (Hlt : (i <? retries (options c))%Z = false)
      by (apply Z.ltb_ge; lia).
    rewrite Hlt. simpl. do 2 f_equal. lia.
  - rewrite seqZ_cons by lia. cbn [doRequest_loop].
    rewrite Hbuild.
    destruct (Hfail 0%nat ltac:(lia)) as [err0 Herr0].
    rewrite Nat.add_0_r in Herr0. rewrite Herr0.
    assert (Hlt : (i <? retries (options c))%Z = true)
      by (apply Z.ltb_lt; lia).
    rewrite Hlt.
    replace (Z.pred (Z.of_nat (S (S len)))) with (Z.of_nat (S len)) by lia.
    cbn [attempts sleeps].
    destruct (IH (Z.succ i) (Some (Foreign err0))
                (mkNet (S (attempts n))
                   (retryDelay (options c) :: sleeps n)))
      as (err & Herr & Hrun).
    + lia.
    + intros j Hj. cbn [attempts].
      destruct (Hfail (S j) ltac:(lia)) as [e He].
      exists e. rewrite <- He. f_equal. lia.
    + exists err. cbn [attempts sleeps] in Herr, Hrun. split.
      * rewrite <- Herr. f_equal. lia.
      * rewrite Hrun. rewrite replicate_snoc_cons. simpl. do 2 f_equal. lia.
Qed.

Lemma doRequest_retries_then_response
    (Do : nat -> string + Response) (c : Client) (method path : string)
    (body : option string) (resp : Response) (k : nat) (n : Net) :
  NewRequest method (baseURL c ++ path) body = None ->
  (Z.of_nat k <= retries (options c))%Z ->
  (forall j, (j < k)%nat ->
     exists err, Do (attempts n + j)%nat = inl err) ->
  Do (attempts n + k)%nat = inr resp ->
  doRequest NewRequest Do c method path body n =
    ((Some resp, None),
     mkNet (attempts n + k + 1)
       (replicate k (retryDelay (options c)) ++ sleeps n)).
Proof.
  intros Hbuild Hk Hfail Hresp. unfold doRequest.
  apply loop_retries_then_response; (done || lia).
Qed.

Lemma doRequest_exhausted
    (Do : nat -> string + Response) (c : Client) (method path : string)
    (body : option string) (n : Net) :
  NewRequest method (baseURL c ++ path) body = None ->
  (0 <= retries (options c))%Z ->
  (forall j, (Z.of_nat j <= retries (options c))%Z ->
     exists err, Do (attempts n + j)%nat = inl err) ->
  exists err,
    Do (attempts n + Z.to_nat (retries (options c)))%nat = inl err /\
    doRequest NewRequest Do c method path body n =
      ((None, Some (Wrapped ErrConnectionFailed err)),
       mkNet (attempts n + Z.to_nat (retries (options c)) + 1)
         (replicate (Z.to_nat (retries (options c)))
            (retryDelay (options c)) ++ sleeps n)).
Proof.
  intros Hbuild Hpos Hfail. unfold doRequest.
  replace (retries (options c) + 1)%Z
    with (Z.of_nat (S (Z.to_nat (retries (options c))))) by lia.
  apply loop_exhausted; [done | lia |].
  intros j Hj. apply Hfail. lia.
Qed.

Lemma call_retries_then_response {A : Type}
    (Do : nat -> string + Response) (c : Client)
    (method path : string) (body : option string)
    (k : Response -> Result A) (resp : Response) (f : nat) (n : Net) :
  NewRequest method (baseURL c ++ path) body = None ->
  (Z.of_nat f <= retries (options c))%Z ->
  (forall j, (j < f)%nat ->
     exists err, Do (attempts n + j)%nat = inl err) ->
  Do (attempts n + f)%nat = inr resp ->
  call NewRequest Do c method path body k n =
    (k resp,
     mkNet (attempts n + f + 1)
       (replicate f (retryDelay (options c)) ++ sleeps n)).
Proof.
  intros Hbuild Hf Hfail Hresp. unfold call.
  by rewrite (doRequest_retries_then_response Do c method path body resp
                f n Hbuild Hf Hfail Hresp).
Qed.

Lemma call_exhausted {A : Type}
    (Do : nat -> string + Response) (c : Client) (method path : string)
    (body : option string) (k : Response -> Result A) (n : Net) :
  NewRequest method (baseURL c ++ path) body = None ->
  (0 <= retries (options c))%Z ->
  (forall j, (Z.of_nat j <= retries (options c))%Z ->
     exists err, Do (attempts n + j)%nat = inl err) ->
  exists err,
    Do (attempts n + Z.to_nat (retries (options c)))%nat = inl err /\
    call NewRequest Do c method path body k n =
      (Err (Wrapped ErrConnectionFailed err),
       mkNet (attempts n + Z.to_nat (retries (options c)) + 1)
         (replicate (Z.to_nat (retries (options c)))
            (retryDelay (options c)) ++ sleeps n)).
Proof.
  intros Hbuild Hpos Hfail.
  destruct (doRequest_exhausted Do c method path body n Hbuild Hpos Hfail)
    as (err & Herr & Hrun).
  exists err. split; [done|]. unfold call. by rewrite Hrun.
Qed.

Lemma call_value {A B : Type}
    (Do : nat -> string + Response) (f : A -> B) (c : Client)
    (method path : string) (body : option string)
    (k : Response -> Result A) (n : Net) :
  call NewRequest Do c method path body
    (fun resp => match k resp with
                 | Ok a => Ok (f a)
                 | Err err => Err err
                 | Panic => Panic
                 end) n =
  (let '(r, n') := call NewRequest Do c method path body k n in
   (match r with
    | Ok a => Ok (f a)
    | Err err => Err err
    | Panic => Panic
    end, n')).
Proof.
  unfold call.
  destruct (doRequest NewRequest Do c method path body n)
    as [[[resp|] [err|]] n']; done.
Qed.

(** With a negative retry count the loop body never runs: [doRequest]
    returns no response and no error, and the caller dereferences the nil
    response. *)
Lemma doRequest_negative_retries (Do : nat -> string + Response)
    (c : Client) (id : string) (n : Net) :
  (retries (options c) < 0)%Z ->
  doRequest NewRequest Do c "GET" ("/api/v1/services/" ++ id) None n =
    ((None, None), n) /\
  Get Decode_Service Unmarshal_errResp NewRequest Do c id n = (Panic, n).
Proof.
  intros Hneg. unfold Get, call, doRequest.
  rewrite seqZ_nil by lia. done.
Qed.

(** Every request method is [call] on its own request, whatever the
    transport, with one answer per response: to a response outside 2xx an
    error, not-found for a 404 on the calls addressed to an id and the
    parsed error otherwise; to a response with the accepted status and a
    body that decodes, the decoded value. *)
Lemma perform_is_call (cl : Call RegisterRequest UpdateRequest) (c : Client) :
  exists k : Response -> Result (Value Service),
    (forall (Do : nat -> string + Response) n,
       run Do cl c n =
         call NewRequest Do c (request_of cl).1.1 (request_of cl).1.2
           (request_of cl).2 k n) /\
    (forall resp, ~ (200 <= StatusCode resp < 300)%Z ->
       k resp =
         Err (if by_id cl && (StatusCode resp =? StatusNotFound)%Z
              then Is_ ErrServiceNotFound
              else parseError Unmarshal_errResp resp)) /\
    (forall resp, succeeds cl resp (k resp)).
Proof.
  destruct cl as [req | id | | route name tag | id req | id | id];
    cbn [perform by_id andb client.request_of fst snd].
  - exists (fun resp =>
      value VService
        (if negb (StatusCode resp =? StatusCreated)%Z
         then Err (parseError Unmarshal_errResp resp)
         else decode_Service Decode_Service resp)).
    split; [|split].
    + intros Do n. unfold Register, value. rewrite call_value.
      destruct (call _ _ _ _ _ _ _ n) as [[service | err |] n']; reflexivity.
    + intros resp Hcode.
      assert (Hne : (StatusCode resp =? StatusCreated)%Z = false)
        by (apply Z.eqb_neq; unfold StatusCreated; lia).
      by rewrite Hne.
    + intros resp. intros Hcode service Hdecode.
      unfold decode_Service. by rewrite Hcode, Hdecode.
  - exists (fun resp =>
      value VService
        (if (StatusCode resp =? StatusNotFound)%Z
         then Err (Is_ ErrServiceNotFound)
         else if negb (StatusCode resp =? StatusOK)%Z
         then Err (parseError Unmarshal_errResp resp)
         else decode_Service Decode_Service resp)).
    split; [|split].
    + intros Do n. unfold Get, value. by rewrite call_value.
    + intros resp Hcode.
      destruct (StatusCode resp =? StatusNotFound)%Z; [done|].
      assert (Hne : (StatusCode resp =? StatusOK)%Z = false)
        by (apply Z.eqb_neq; unfold StatusOK; lia).
      by rewrite Hne.
    + intros resp. intros Hcode service Hdecode.
      unfold decode_Service. by rewrite Hcode, Hdecode.
  - exists (fun resp =>
      value VServices
        (if negb (StatusCode resp =? StatusOK)%Z
         then Err (parseError Unmarshal_errResp resp)
         else decode_Services Decode_ListResponse resp)).
    split; [|split].
    + intros Do n. unfold List, value. by rewrite call_value.
    + intros resp Hcode.
      assert (Hne : (StatusCode resp =? StatusOK)%Z = false)
        by (apply Z.eqb_neq; unfold StatusOK; lia).
      by rewrite Hne.
    + intros resp. intros Hcode services Hdecode.
      unfold decode_Services. by rewrite Hcode, Hdecode.
  - exists (fun resp =>
      value VServices
        (if negb (StatusCode resp =? StatusOK)%Z
         then Err (parseError Unmarshal_errResp resp)
         else decode_Services Decode_ListResponse resp)).
    split; [|split].
    + intros Do n. unfold Search, value. cbv zeta. by rewrite call_value.
    + intros resp Hcode.
      assert (Hne : (StatusCode resp =? StatusOK)%Z = false)
        by (apply Z.eqb_neq; unfold StatusOK; lia).
      by rewrite Hne.
    + intros resp. intros Hcode services Hdecode.
      unfold decode_Services. by rewrite Hcode, Hdecode.
  - exists (fun resp =>
      value VService
        (if (StatusCode resp =? StatusNotFound)%Z
         then Err (Is_ ErrServiceNotFound)
         else if negb (StatusCode resp =? StatusOK)%Z
         then Err (parseError Unmarshal_errResp resp)
         else decode_Service Decode_Service resp)).
    split; [|split].
    + intros Do n. unfold Update, value. by rewrite call_value.
    + intros resp Hcode.
      destruct (StatusCode resp =? StatusNotFound)%Z; [done|].
      assert (Hne : (StatusCode resp =? StatusOK)%Z = false)
        by (apply Z.eqb_neq; unfold StatusOK; lia).
      by rewrite Hne.
    + intros resp. intros Hcode service Hdecode.
      unfold decode_Service. by rewrite Hcode, Hdecode.
  - exists (fun resp =>
      value (fun _ : unit => @VNone Service)
        (if (StatusCode resp =? StatusNotFound)%Z
         then Err (Is_ ErrServiceNotFound)
         else if negb (StatusCode resp =? StatusOK)%Z
         then Err (parseError Unmarshal_errResp resp)
         else Ok tt)).
    split; [|split].
    + intros Do n. unfold Unregister, value. by rewrite call_value.
    + intros resp Hcode.
      destruct (StatusCode resp =? StatusNotFound)%Z; [done|].
      assert (Hne : (StatusCode resp =? StatusOK)%Z = false)
        by (apply Z.eqb_neq; unfold StatusOK; lia).
      by rewrite Hne.
    + intros resp. intros Hcode. by rewrite Hcode.
  - exists (fun resp =>
      value (fun _ : unit => @VNone Service)
        (if (StatusCode resp =? StatusNotFound)%Z
         then Err (Is_ ErrServiceNotFound)
         else if negb (StatusCode resp =? StatusOK)%Z
         then Err (parseError Unmarshal_errResp resp)
         else Ok tt)).
    split; [|split].
    + intros Do n. unfold Heartbeat, value. by rewrite call_value.
    + intros resp Hcode.
      destruct (StatusCode resp =? StatusNotFound)%Z; [done|].
      assert (Hne : (StatusCode resp =? StatusOK)%Z = false)
        by (apply Z.eqb_neq; unfold StatusOK; lia).
      by rewrite Hne.
    + intros resp. intros Hcode. by rewrite Hcode.
Qed.

(** C8, as the code has it.  For every client call whose request can be
    built: when the first [k] attempts fail in the transport, [k] not
    above the retry count, and the next attempt gets a response, the call
    makes exactly [k + 1] attempts, sleeps the retry delay after each
    failed one, and returns what it returns when the transport gives that
    response at once, so a response is never followed by another attempt.
    A response outside 2xx makes the call return an error: not-found for
    a 404 on Get, Update, Unregister and Heartbeat, and otherwise (also
    for a 404 on Register, List and Search) the error parsed from the
    response.  A response with the status the call accepts (201 for
    Register, 200 for the others) and a body that decodes makes it return
    the decoded value and no error.  With a retry count of at least 0,
    when every one of the [retries + 1] attempts fails, the call returns
    the last transport error wrapped in ConnectionFailed.  In particular
    a call whose transport fails twice and then gives such a response,
    with a retry count of at least 2, returns the decoded value and no
    error after three attempts and two sleeps. *)
Theorem client_retry_policy (Do : nat -> string + Response)
    (cl : Call RegisterRequest UpdateRequest) (c : Client) (n : Net) :
  NewRequest (request_of cl).1.1 (baseURL c ++ (request_of cl).1.2)
    (request_of cl).2 = None ->
  (forall (k : nat) (resp : Response),
     (Z.of_nat k <= retries (options c))%Z ->
     (forall j, (j < k)%nat ->
        exists err, Do (attempts n + j)%nat = inl err) ->
     Do (attempts n + k)%nat = inr resp ->
     (run Do cl c n).2 =
       mkNet (attempts n + k + 1)
         (replicate k (retryDelay (options c)) ++ sleeps n) /\
     (run Do cl c n).1 = (run (fun _ => inr resp) cl c n).1 /\
     (run (fun _ => inr resp) cl c n).2 =
       mkNet (attempts n + 1) (sleeps n) /\
     (~ (200 <= StatusCode resp < 300)%Z ->
      (run Do cl c n).1 =
        Err (if by_id cl && (StatusCode resp =? StatusNotFound)%Z
             then Is_ ErrServiceNotFound
             else parseError Unmarshal_errResp resp)) /\
     succeeds cl resp (run Do cl c n).1) /\
  ((0 <= retries (options c))%Z ->
   (forall j, (Z.of_nat j <= retries (options c))%Z ->
      exists err, Do (attempts n + j)%nat = inl err) ->
   exists err,
     Do (attempts n + Z.to_nat (retries (options c)))%nat = inl err /\
     run Do cl c n =
       (Err (Wrapped ErrConnectionFailed err),
        mkNet (attempts n + Z.to_nat (retries (options c)) + 1)
          (replicate (Z.to_nat (retries (options c)))
             (retryDelay (options c)) ++ sleeps n)) /\
     Is (Wrapped ErrConnectionFailed err) ErrConnectionFailed = true) /\
  (forall resp : Response,
     (2 <= retries (options c))%Z ->
     (exists err, Do (attempts n)%nat = inl err) ->
     (exists err, Do (attempts n + 1)%nat = inl err) ->
     Do (attempts n + 2)%nat = inr resp ->
     (run Do cl c n).2 =
       mkNet (attempts n + 3)
         (retryDelay (options c) :: retryDelay (options c) :: sleeps n) /\
     succeeds cl resp (run Do cl c n).1).
Proof.
  intros Hbuild.
  destruct (perform_is_call cl c) as (k & Hrun & Hk & Hsucc).
  assert (Hretry : forall (f : nat) (resp : Response),
    (Z.of_nat f <= retries (options c))%Z ->
    (forall j, (j < f)%nat ->
       exists err, Do (attempts n + j)%nat = inl err) ->
    Do (attempts n + f)%nat = inr resp ->
    run Do cl c n =
      (k resp,
       mkNet (attempts n + f + 1)
         (replicate f (retryDelay (options c)) ++ sleeps n))).
  { intros f resp Hf Hfail Hresp. rewrite Hrun.
    by apply call_retries_then_response. }
  split; [|split].
  - intros f resp Hf Hfail Hresp.
    rewrite (Hretry f resp Hf Hfail Hresp), Hrun,
      (call_retries_then_response (fun _ => inr resp) c _ _ _ k resp 0 n
         Hbuild).
    + cbn [fst snd replicate app]. rewrite Nat.add_0_r.
      split; [done|]. split; [done|]. split; [done|].
      split; [intros Hcode; by apply Hk | apply Hsucc].
    + lia.
    + intros j Hj. lia.
    + done.
  - intros Hpos Hfail.
    destruct (call_exhausted Do c _ _ _ k n Hbuild Hpos Hfail)
      as (err & Herr & Hcall).
    exists err. by rewrite Hrun, Hcall.
  - intros resp Hretries Hfirst Hsecond Hresp.
    rewrite (Hretry 2%nat resp).
    + cbn [fst snd replicate app]. split; [|apply Hsucc].
      f_equal. lia.
    + lia.
    + intros j Hj. destruct j as [|[|j]]; [| |lia].
      * by rewrite Nat.add_0_r.
      * done.
    + done.
Qed.

End ClientFacts.

Lemma client_retry_policy_witness :
  examples.NewRequest "GET" "http://registry:8080/api/v1/services/svc-1"
    None = None /\
  (2 <= servicediscovery.retries
          (servicediscovery.options examples.client))%Z /\
  servicediscovery.perform (fun id : string => id) (fun _ : unit => "")
    (fun _ : unit => "") examples.Decode_Service
    examples.Decode_ListResponse examples.Unmarshal_errResp examples.Encode
    examples.NewRequest examples.fails_twice
    (servicediscovery.CallGet "svc-1") examples.client examples.net0 =
    (servicediscovery.Ok (servicediscovery.VService "svc-1"),
     servicediscovery.mkNet 3
       [servicediscovery.Second; servicediscovery.Second]).
Proof.
  split; [reflexivity|].
  split; [vm_compute; discriminate|].
  destruct (client_retry_policy string unit unit (fun id => id)
              (fun _ => "") (fun _ => "") examples.Decode_Service
              examples.Decode_ListResponse examples.Unmarshal_errResp
              examples.Encode examples.NewRequest examples.fails_twice
              (servicediscovery.CallGet "svc-1") examples.client
              examples.net0 eq_refl) as (_ & _ & Htwice).
  destruct (Htwice (servicediscovery.mkResponse 200 "svc-1"))
    as [Hnet Hvalue].
  - vm_compute. discriminate.
  - by eexists.
  - by eexists.
  - reflexivity.
  - apply injective_projections.
    + exact (Hvalue eq_refl "svc-1" eq_refl).
    + exact Hnet.
Defined.

(** C8, as stated, fails: List gets a 404 and returns the error made from
    the server's message, which is not the not-found error. *)
Lemma List_404_is_not_NotFound :
  examples.always_404 0%nat =
    inr (servicediscovery.mkResponse 404 "service not found") /\
  servicediscovery.List examples.Decode_ListResponse
    examples.Unmarshal_errResp examples.NewRequest examples.always_404
    examples.client examples.net0 =
    (servicediscovery.Err (servicediscovery.Errorf "service not found"),
     servicediscovery.mkNet 1 []) /\
  servicediscovery.Is (servicediscovery.Errorf "service not found")
    servicediscovery.ErrServiceNotFound = false.
Proof. split; [reflexivity|]. split; reflexivity. Qed.

(** * Further properties *)

(** ** The repository: round trips and accounting *)

(** X1. A successful Create can be read back and undone: the record is
    returned by GetByID, Exists reports it, and deleting it gives back the
    map the Create started from. *)
Theorem Create_read_back_and_undo (services : gmap string domain.Service)
    (service : domain.Service) :
  services !! domain.ID service = None ->
  let created := (repository.Create service services).2 in
  (repository.Create service services).1 = None /\
  repository.GetByID (domain.ID service) created = inr service /\
  repository.Exists (domain.ID service) created = true /\
  repository.Delete (domain.ID service) created = (None, services).
Proof.
  intros Hfresh. rewrite (Create_absent _ _ Hfresh). cbn [fst snd].
  unfold repository.GetByID, repository.Exists, repository.Delete.
  rewrite lookup_insert_eq. repeat split.
  by rewrite delete_insert_id.
Qed.

Lemma Create_read_back_and_undo_witness :
  handler.repo examples.w0 !! "svc-7" = None /\
  repository.Delete "svc-7"
    (repository.Create
       (domain.mkService "svc-7" "n" "h" 80 "http" "" None "/health" None
          None domain.StatusHealthy 0 0) (handler.repo examples.w0)).2 =
    (None, handler.repo examples.w0).
Proof.
  split; [reflexivity|].
  apply (Create_read_back_and_undo (handler.repo examples.w0)
           (domain.mkService "svc-7" "n" "h" 80 "http" "" None "/health"
              None None domain.StatusHealthy 0 0) eq_refl).
Defined.

(** X2. GetAll returns one record per key: its length is the number of
    keys; a successful Create makes it one longer, a successful Delete one
    shorter, and a successful Update keeps its length. *)
Theorem GetAll_accounts (services : gmap string domain.Service)
    (service : domain.Service) (id : string) :
  length (repository.GetAll services) = size services /\
  ((repository.Create service services).1 = None ->
   length (repository.GetAll (repository.Create service services).2) =
     S (length (repository.GetAll services))) /\
  ((repository.Update service services).1 = None ->
   length (repository.GetAll (repository.Update service services).2) =
     length (repository.GetAll services)) /\
  ((repository.Delete id services).1 = None ->
   S (length (repository.GetAll (repository.Delete id services).2)) =
     length (repository.GetAll services)).
Proof.
  rewrite !length_GetAll.
  unfold repository.Create, repository.Update, repository.Delete.
  split; [done|]. repeat split.
  - destruct (services !! domain.ID service) eqn:Hs; [done|].
    intros _. cbn [snd]. by rewrite map_size_insert_None.
  - destruct (services !! domain.ID service) eqn:Hs; [|done].
    intros _. cbn [snd]. by rewrite map_size_insert_Some.
  - destruct (services !! id) eqn:Hi; [|done].
    intros _. cbn [snd]. rewrite map_size_delete, Hi.
    assert (size services <> 0%nat).
    { intros Hz. apply map_size_empty_iff in Hz. by rewrite Hz in Hi. }
    lia.
Qed.

(** X3. Deleting a stored id and creating a record with that id again
    succeeds, and leaves the map an Update with that record would have
    left; a Create on an id that is stored fails with the already-exists
    error and leaves the map as it was, so the stored record stays
    readable. *)
Theorem Delete_then_Create (services : gmap string domain.Service)
    (service stored : domain.Service) :
  services !! domain.ID service = Some stored ->
  let deleted := (repository.Delete (domain.ID service) services).2 in
  repository.Create service deleted =
    (None, (repository.Update service services).2) /\
  repository.Create service services =
    (Some repository.ErrServiceAlreadyExists, services) /\
  repository.GetByID (domain.ID service)
    (repository.Create service services).2 = inr stored.
Proof.
  intros Hstored. cbv zeta.
  assert (Hsome : is_Some (services !! domain.ID service)) by by eexists.
  rewrite (Delete_present _ _ Hsome), (Update_present _ _ Hsome),
    (Create_present _ _ Hsome).
  cbn [snd]. split; [|split].
  - rewrite Create_absent by apply lookup_delete_eq.
    by rewrite insert_delete_eq.
  - reflexivity.
  - by apply GetByID_Some.
Qed.

Lemma Delete_then_Create_witness :
  exists stored : domain.Service,
    handler.repo examples.w1 !! "svc-1" = Some stored /\
    repository.Create
      (domain.mkService "svc-1" "n" "h" 80 "http" "" None "/health" None
         None domain.StatusHealthy 0 0) (handler.repo examples.w1) =
      (Some repository.ErrServiceAlreadyExists, handler.repo examples.w1) /\
    repository.GetByID "svc-1"
      (repository.Create
         (domain.mkService "svc-1" "n" "h" 80 "http" "" None "/health" None
            None domain.StatusHealthy 0 0) (handler.repo examples.w1)).2 =
      inr stored.
Proof.
  eexists. split; [reflexivity|].
  apply (Delete_then_Create (handler.repo examples.w1)
           (domain.mkService "svc-1" "n" "h" 80 "http" "" None "/health"
              None None domain.StatusHealthy 0 0) _ eq_refl).
Defined.

(** ** The handlers: how requests compose *)

Section HandlerSteps.
Import domain handler.

Lemma Unregister_known (w : World) (id : string) (stored : Service) :
  repo w !! id = Some stored ->
  Unregister id w =
    (JSON StatusOK (PMessage "service unregistered successfully"),
     mkWorld (delete id (repo w)) (clock w)).
Proof.
  intros Hid. unfold Unregister.
  rewrite (GetByID_Some _ _ _ Hid), Delete_present by by eexists. done.
Qed.

Lemma Unregister_unknown (w : World) (id : string) :
  repo w !! id = None ->
  Unregister id w =
    (JSON StatusNotFound (PError (Text "service not found")), w).
Proof. intros Hid. unfold Unregister. by rewrite (GetByID_None _ _ Hid). Qed.

Lemma Get_unknown (w : World) (id : string) :
  repo w !! id = None ->
  Get id w = (JSON StatusNotFound (PError (Text "service not found")), w).
Proof. intros Hid. unfold Get. by rewrite (GetByID_None _ _ Hid). Qed.

Lemma Get_known (w : World) (id : string) (stored : Service) :
  repo w !! id = Some stored ->
  Get id w = (JSON StatusOK (PService stored), w).
Proof. intros Hid. unfold Get. by rewrite (GetByID_Some _ _ _ Hid). Qed.

(** What Register leaves behind, whatever the body. *)
Lemma Register_cases (body : RequestBody RegisterServiceRequest.t)
    (uuid : string) (d1 d2 : N) (w : World) :
  (code (Register body uuid d1 d2 w).1 = StatusBadRequest /\
   (Register body uuid d1 d2 w).2 = w) \/
  (exists req, body = Decoded req /\ validate_Register req = true /\
     is_Some (repo w !! uuid) /\
     code (Register body uuid d1 d2 w).1 = StatusInternalServerError /\
     repo (Register body uuid d1 d2 w).2 = repo w) \/
  (exists service,
     repo w !! uuid = None /\
     (Register body uuid d1 d2 w).1 = JSON StatusCreated (PService service) /\
     repo (Register body uuid d1 d2 w).2 = <[uuid := service]> (repo w)).
Proof.
  destruct body as [|req]; [by left|].
  destruct (validate_Register req) eqn:Hvalid.
  - destruct (repo w !! uuid) as [old|] eqn:Huuid.
    + right. left. exists req.
      rewrite (Register_collision req uuid d1 d2 w Hvalid) by by eexists.
      repeat split; done.
    + right. right. unfold Register.
      rewrite (ShouldBindJSON_Decoded _ _ Hvalid). unfold Now. cbv zeta.
      cbn [repo clock]. rewrite Create_absent by done.
      eexists. repeat split; done.
  - left. unfold Register. by rewrite (ShouldBindJSON_rejected _ _ Hvalid).
Qed.

(** What Update leaves behind, whatever the body, in a keyed store. *)
Lemma Update_cases (id : string) (body : RequestBody UpdateServiceRequest.t)
    (w : World) :
  keyed (repo w) ->
  ((code (Update id body w).1 = StatusNotFound \/
    code (Update id body w).1 = StatusBadRequest) /\
   (Update id body w).2 = w) \/
  (exists stored req,
     repo w !! id = Some stored /\ body = Decoded req /\
     validate_Update req = true /\
     Update id body w =
       (JSON StatusOK (PService (merge req stored)),
        mkWorld (<[id := merge req stored]> (repo w)) (clock w))).
Proof.
  intros Hkeyed. destruct (repo w !! id) as [stored|] eqn:Hid.
  - destruct body as [|req].
    + left. rewrite (Update_rejected w id stored Malformed Hid eq_refl).
      split; [by right | done].
    + destruct (validate_Update req) eqn:Hvalid.
      * right. exists stored, req. repeat split; try done.
        by apply Update_accepted.
      * left. rewrite (Update_rejected w id stored (Decoded req) Hid)
          by by apply ShouldBindJSON_rejected.
        split; [by right | done].
  - left. rewrite (Update_unknown w id body Hid). split; [by left | done].
Qed.

End HandlerSteps.

(** X4. A record can be read back as it was registered: after a Register
    that answers 201, Get on the returned id answers 200 with the very
    record Register returned, and List counts one record more than
    before. *)
Theorem Register_then_Get (body : handler.RequestBody
                                    domain.RegisterServiceRequest.t)
    (uuid : string) (d1 d2 : N) (w : handler.World)
    (service : domain.Service) :
  (handler.Register body uuid d1 d2 w).1 =
    handler.JSON handler.StatusCreated (handler.PService service) ->
  let w' := (handler.Register body uuid d1 d2 w).2 in
  handler.Get (domain.ID service) w' =
    (handler.JSON handler.StatusOK (handler.PService service), w') /\
  exists before after : list domain.Service,
    (handler.List w).1 =
      handler.JSON handler.StatusOK
        (handler.PServices (Some before) (Z.of_nat (length before))) /\
    (handler.List w').1 =
      handler.JSON handler.StatusOK
        (handler.PServices (Some after) (Z.of_nat (length before) + 1)).
Proof.
  intros Hcreated w'.
  destruct (Register_cases body uuid d1 d2 w)
    as [[Hcode _] | [(req & _ & _ & _ & Hcode & _) |
                      (created & Hfresh & Hresp & Hrepo)]].
  - rewrite Hcreated in Hcode. discriminate Hcode.
  - rewrite Hcreated in Hcode. discriminate Hcode.
  - rewrite Hcreated in Hresp. injection Hresp as <-.
    assert (Hid : domain.ID service = uuid).
    { revert Hcreated. unfold handler.Register.
      destruct (handler.ShouldBindJSON handler.validate_Register body);
        [discriminate|].
      unfold handler.Now. cbv zeta.
      destruct (repository.Create _ _) as [[err|] r]; [discriminate|].
      cbn [fst]. intros Heq. injection Heq as <-. reflexivity. }
    split.
    + apply Get_known. subst w'. rewrite Hrepo, Hid. apply lookup_insert_eq.
    + eexists. eexists. split; [reflexivity|].
      unfold handler.List. cbn [fst]. subst w'. rewrite Hrepo.
      rewrite !length_GetAll, map_size_insert_None by done.
      do 2 f_equal. lia.
Qed.

Lemma Register_then_Get_witness :
  exists service : domain.Service,
    (handler.Register (handler.Decoded examples.register_users) "svc-1" 5 7
       examples.w0).1 =
      handler.JSON handler.StatusCreated (handler.PService service) /\
    handler.Get "svc-1" examples.w1 =
      (handler.JSON handler.StatusOK (handler.PService service),
       examples.w1).
Proof.
  eexists. split; [reflexivity|].
  apply (Register_then_Get (handler.Decoded examples.register_users)
           "svc-1" 5 7 examples.w0 _ eq_refl).
Defined.

(** X5. Unregister of a stored id answers 200, removes that record and no
    other, and from then on Get, Update, Heartbeat and Unregister on that
    id answer 404; Unregister of an id that is not stored answers 404 and
    changes nothing. *)
Theorem Unregister_outcome (id : string) (w : handler.World) :
  (forall stored : domain.Service,
     handler.repo w !! id = Some stored ->
     let w' := handler.mkWorld (delete id (handler.repo w))
                 (handler.clock w) in
     let not_found :=
       handler.JSON handler.StatusNotFound
         (handler.PError (handler.Text "service not found")) in
     handler.Unregister id w =
       (handler.JSON handler.StatusOK
          (handler.PMessage "service unregistered successfully"), w') /\
     (forall k, k <> id -> handler.repo w' !! k = handler.repo w !! k) /\
     handler.Get id w' = (not_found, w') /\
     (forall body, handler.Update id body w' = (not_found, w')) /\
     (forall d, handler.Heartbeat id d w' = (not_found, w')) /\
     handler.Unregister id w' = (not_found, w')) /\
  (handler.repo w !! id = None ->
   handler.Unregister id w =
     (handler.JSON handler.StatusNotFound
        (handler.PError (handler.Text "service not found")), w)).
Proof.
  split; [|apply Unregister_unknown].
  intros stored Hid w' not_found.
  assert (Hgone : handler.repo w' !! id = None) by apply lookup_delete_eq.
  split; [by apply (Unregister_known w id stored)|].
  split; [intros k Hk; by apply lookup_delete_ne|].
  split; [by apply Get_unknown|].
  split; [intros body; by apply Update_unknown|].
  split; [intros d; by apply Heartbeat_unknown|].
  by apply Unregister_unknown.
Qed.

(** X6. List answers 200 with a non-nil sequence holding exactly the
    stored records, one per id, and a count equal to the number of ids;
    it changes nothing. *)
Theorem List_outcome (w : handler.World) :
  exists services : list domain.Service,
    handler.List w =
      (handler.JSON handler.StatusOK
         (handler.PServices (Some services)
            (Z.of_nat (size (handler.repo w)))), w) /\
    length services = size (handler.repo w) /\
    (forall service, service ∈ services <->
       exists id, handler.repo w !! id = Some service) /\
    (handler.keyed (handler.repo w) -> NoDup (domain.ID <$> services)).
Proof.
  exists (repository.GetAll (handler.repo w)). unfold handler.List.
  rewrite length_GetAll. split; [done|]. split; [done|].
  split; [apply elem_of_GetAll|].
  intros Hkeyed. unfold repository.GetAll.
  assert (Hids : domain.ID <$> (map_to_list (handler.repo w)).*2 =
                 (map_to_list (handler.repo w)).*1).
  { rewrite <- list_fmap_compose. apply list_fmap_ext.
    intros i [id service] Hin. simpl.
    apply list_elem_of_lookup_2, elem_of_map_to_list in Hin.
    exact (map_Forall_lookup_1 _ _ _ _ Hkeyed Hin). }
  rewrite Hids. apply NoDup_fst_map_to_list.
Qed.

Section SearchUnfiltered.
Import domain handler.
Variable ToLower : string -> string.

Lemma Search_body_unfiltered (results : option (list Service))
    (svc : Service) :
  Search_body ToLower "" "" "" results svc = append results svc.
Proof. reflexivity. Qed.

Lemma Search_scan_unfiltered (services : list Service)
    (results : option (list Service)) :
  fold_left (Search_body ToLower "" "" "") services results =
    match services with
    | [] => results
    | _ :: _ => Some (range results ++ services)%list
    end.
Proof.
  revert results. induction services as [|s services IH]; intros results.
  - reflexivity.
  - cbn [fold_left]. rewrite Search_body_unfiltered, IH.
    destruct services as [|s' services]; [reflexivity|].
    unfold append. cbn [range]. by rewrite <- app_assoc.
Qed.

End SearchUnfiltered.

(** X7. A Search with no filter and a List send the same records, each as
    often as the other, with the same count; the order is that of each
    handler's own pass over the map and is not compared.  They differ on
    an empty store only, where List sends an empty sequence and Search
    sends a nil one. *)
Theorem Search_unfiltered_is_List (ToLower : string -> string)
    (w : handler.World) :
  exists (listed : list domain.Service)
         (found : option (list domain.Service)) (count : Z),
    (handler.List w).1 =
      handler.JSON handler.StatusOK (handler.PServices (Some listed) count) /\
    (handler.Search ToLower "" "" "" w).1 =
      handler.JSON handler.StatusOK (handler.PServices found count) /\
    handler.range found ≡ₚ listed /\
    (found = None <-> handler.repo w = ∅).
Proof.
  unfold handler.List, handler.Search. cbn [fst].
  rewrite Search_scan_unfiltered.
  destruct (repository.GetAll (handler.repo w)) as [|s l] eqn:Hall.
  - exists [], None, 0%Z. repeat split; try done.
    intros _. apply map_size_empty_iff.
    by rewrite <- length_GetAll, Hall.
  - exists (s :: l), (Some (s :: l)), (Z.of_nat (length (s :: l))).
    repeat split; try done.
    intros Hempty. rewrite Hempty in Hall. discriminate Hall.
Qed.

Section StepFacts.
Import domain handler.
Variable ToLower : string -> string.

(** The store after a request, by cases on what was done to it. *)
Lemma serve_repo (rq : Request) (w : World) :
  invariant w ->
  repo (serve ToLower rq w).2 = repo w \/
  (exists body uuid d1 d2 service,
     rq = ReqRegister body uuid d1 d2 /\
     repo (serve ToLower rq w).2 = <[uuid := service]> (repo w) /\
     repo w !! uuid = None /\
     ID service = uuid /\
     (LastHeartbeat service <= clock (serve ToLower rq w).2)%Z) \/
  (exists id body stored req,
     rq = ReqUpdate id body /\ repo w !! id = Some stored /\
     repo (serve ToLower rq w).2 = <[id := merge req stored]> (repo w)) \/
  (exists id stored,
     rq = ReqUnregister id /\ repo w !! id = Some stored /\
     repo (serve ToLower rq w).2 = delete id (repo w)) \/
  (exists id d stored,
     rq = ReqHeartbeat id d /\ repo w !! id = Some stored /\
     repo (serve ToLower rq w).2 =
       <[id := set_Status StatusHealthy
                 (set_LastHeartbeat (clock w + Z.of_N d)%Z stored)]>
         (repo w)).
Proof.
  intros (Hkeyed & Hstamped & Hhealthy).
  destruct rq as [body uuid d1 d2 | | route name tag | id | id body | id
                 | id d]; cbn [serve].
  - destruct body as [|req]; [by left|].
    destruct (validate_Register req) eqn:Hvalid.
    + destruct (repo w !! uuid) as [old|] eqn:Huuid.
      * left. by rewrite (Register_collision req uuid d1 d2 w Hvalid)
          by by eexists.
      * right. left. unfold Register.
        rewrite (ShouldBindJSON_Decoded _ _ Hvalid). unfold Now. cbv zeta.
        cbn [repo clock]. rewrite Create_absent by done.
        do 5 eexists. split; [reflexivity|]. split; [reflexivity|].
        split; [done|]. split; [reflexivity|]. simpl. lia.
    + left. unfold Register.
      by rewrite (ShouldBindJSON_rejected _ _ Hvalid).
  - by left.
  - by left.
  - left. unfold Get. by destruct (repository.GetByID id (repo w)).
  - destruct (Update_cases id body w Hkeyed)
      as [[_ ->] | (stored & req & Hid & -> & Hvalid & ->)]; [by left|].
    right. right. left. by exists id, (Decoded req), stored, req.
  - destruct (repo w !! id) as [stored|] eqn:Hid.
    + right. right. right. left. exists id, stored.
      by rewrite (Unregister_known w id stored Hid).
    + left. by rewrite (Unregister_unknown w id Hid).
  - destruct (repo w !! id) as [stored|] eqn:Hid.
    + right. right. right. right. exists id, d, stored.
      pose proof (Heartbeat_known w id stored d Hkeyed Hid) as Hrun.
      cbv zeta in Hrun. by rewrite Hrun.
    + left. by rewrite (Heartbeat_unknown w id d Hid).
Qed.

End StepFacts.

(** X8. Whatever the request, a record that is stored before and after it
    keeps its id, its name and its registeredAt, its lastHeartbeat does
    not go back, and it is healthy afterwards. *)
Theorem serve_keeps_identity (ToLower : string -> string)
    (rq : handler.Request) (w : handler.World) (id : string)
    (before after : domain.Service) :
  handler.invariant w ->
  handler.repo w !! id = Some before ->
  handler.repo (handler.serve ToLower rq w).2 !! id = Some after ->
  domain.ID after = domain.ID before /\
  domain.Name after = domain.Name before /\
  domain.RegisteredAt after = domain.RegisteredAt before /\
  (domain.LastHeartbeat before <= domain.LastHeartbeat after)%Z /\
  domain.Status after = domain.StatusHealthy.
Proof.
  intros Hinv Hbefore Hafter.
  pose proof Hinv as (Hkeyed & Hstamped & Hhealthy).
  assert (Hsame : after = before ->
    domain.ID after = domain.ID before /\
    domain.Name after = domain.Name before /\
    domain.RegisteredAt after = domain.RegisteredAt before /\
    (domain.LastHeartbeat before <= domain.LastHeartbeat after)%Z /\
    domain.Status after = domain.StatusHealthy).
  { intros ->. repeat split; try lia.
    exact (map_Forall_lookup_1 _ _ _ _ Hhealthy Hbefore). }
  destruct (serve_repo ToLower rq w Hinv)
    as [Hrepo | [(body & uuid & d1 & d2 & service & _ & Hrepo & Hfresh & _ & _)
       | [(id' & body & stored & req & _ & Hid' & Hrepo)
       | [(id' & stored & _ & Hid' & Hrepo)
       | (id' & d & stored & _ & Hid' & Hrepo)]]]];
    rewrite Hrepo in Hafter.
  - apply Hsame. congruence.
  - apply Hsame. rewrite lookup_insert_ne in Hafter; congruence.
  - destruct (decide (id' = id)) as [-> | Hne].
    + rewrite lookup_insert_eq in Hafter. injection Hafter as <-.
      assert (stored = before) as -> by congruence.
      destruct (merge_untouched req before) as (-> & -> & -> & -> & ->).
      repeat split; try lia.
      exact (map_Forall_lookup_1 _ _ _ _ Hhealthy Hbefore).
    + apply Hsame. rewrite lookup_insert_ne in Hafter; congruence.
  - apply Hsame. destruct (decide (id' = id)) as [-> | Hne].
    + by rewrite lookup_delete_eq in Hafter.
    + rewrite lookup_delete_ne in Hafter; congruence.
  - destruct (decide (id' = id)) as [-> | Hne].
    + rewrite lookup_insert_eq in Hafter. injection Hafter as <-.
      assert (stored = before) as -> by congruence.
      destruct (map_Forall_lookup_1 _ _ _ _ Hstamped Hbefore) as [Hle _].
      simpl. repeat split; lia.
    + apply Hsame. rewrite lookup_insert_ne in Hafter; congruence.
Qed.

Lemma examples_w1_invariant : handler.invariant examples.w1.
Proof.
  exact (reachable_invariant gostrings.ToLowerASCII examples.w1
           examples_w1_reachable).
Defined.

Lemma serve_keeps_identity_witness :
  handler.invariant examples.w1 /\
  exists before after : domain.Service,
    handler.repo examples.w1 !! "svc-1" = Some before /\
    handler.repo
      (handler.serve gostrings.ToLowerASCII (handler.ReqHeartbeat "svc-1" 30)
         examples.w1).2 !! "svc-1" = Some after /\
    domain.RegisteredAt after = domain.RegisteredAt before /\
    (domain.LastHeartbeat before <= domain.LastHeartbeat after)%Z.
Proof.
  split; [exact examples_w1_invariant|].
  eexists. eexists. split; [reflexivity|]. split; [reflexivity|].
  destruct (serve_keeps_identity gostrings.ToLowerASCII
              (handler.ReqHeartbeat "svc-1" 30) examples.w1 "svc-1" _ _
              examples_w1_invariant eq_refl eq_refl)
    as (_ & _ & Hreg & Hlast & _).
  split; [exact Hreg | exact Hlast].
Defined.

(** X9. Only Register adds an id to the store, and the id it adds is the
    generated one; only Unregister removes an id, and the id it removes is
    the one it names. *)
Theorem serve_changes_ids (ToLower : string -> string)
    (rq : handler.Request) (w : handler.World) (id : string) :
  handler.invariant w ->
  (handler.repo w !! id = None ->
   is_Some (handler.repo (handler.serve ToLower rq w).2 !! id) ->
   exists body d1 d2, rq = handler.ReqRegister body id d1 d2) /\
  (is_Some (handler.repo w !! id) ->
   handler.repo (handler.serve ToLower rq w).2 !! id = None ->
   rq = handler.ReqUnregister id).
Proof.
  intros Hinv.
  destruct (serve_repo ToLower rq w Hinv)
    as [Hrepo | [(body & uuid & d1 & d2 & service & -> & Hrepo & Hfresh & _ & _)
       | [(id' & body & stored & req & _ & Hid' & Hrepo)
       | [(id' & stored & -> & Hid' & Hrepo)
       | (id' & d & stored & _ & Hid' & Hrepo)]]]];
    rewrite Hrepo; split.
  - intros Hnone [x Hx]. congruence.
  - intros [x Hx] Hnone. congruence.
  - intros Hnone [x Hx]. destruct (decide (uuid = id)) as [-> | Hne].
    + by exists body, d1, d2.
    + rewrite lookup_insert_ne in Hx; congruence.
  - intros [x Hx] Hnone. destruct (decide (uuid = id)) as [-> | Hne].
    + by rewrite lookup_insert_eq in Hnone.
    + rewrite lookup_insert_ne in Hnone; congruence.
  - intros Hnone [x Hx]. destruct (decide (id' = id)) as [-> | Hne].
    + congruence.
    + rewrite lookup_insert_ne in Hx; congruence.
  - intros [x Hx] Hnone. destruct (decide (id' = id)) as [-> | Hne].
    + by rewrite lookup_insert_eq in Hnone.
    + rewrite lookup_insert_ne in Hnone; congruence.
  - intros Hnone [x Hx]. destruct (decide (id' = id)) as [-> | Hne].
    + by rewrite lookup_delete_eq in Hx.
    + rewrite lookup_delete_ne in Hx; congruence.
  - intros [x Hx] Hnone. destruct (decide (id' = id)) as [-> | Hne].
    + done.
    + rewrite lookup_delete_ne in Hnone; congruence.
  - intros Hnone [x Hx]. destruct (decide (id' = id)) as [-> | Hne].
    + congruence.
    + rewrite lookup_insert_ne in Hx; congruence.
  - intros [x Hx] Hnone. destruct (decide (id' = id)) as [-> | Hne].
    + by rewrite lookup_insert_eq in Hnone.
    + rewrite lookup_insert_ne in Hnone; congruence.
Qed.

Lemma examples_w0_invariant : handler.invariant examples.w0.
Proof.
  exact (reachable_invariant gostrings.ToLowerASCII examples.w0
           (handler.reachable_init gostrings.ToLowerASCII 1000)).
Defined.

Lemma serve_changes_ids_witness :
  handler.invariant examples.w0 /\
  handler.repo examples.w0 !! "svc-1" = None /\
  is_Some
    (handler.repo
       (handler.serve gostrings.ToLowerASCII
          (handler.ReqRegister (handler.Decoded examples.register_users)
             "svc-1" 5 7) examples.w0).2 !! "svc-1") /\
  exists body d1 d2,
    handler.ReqRegister (handler.Decoded examples.register_users)
      "svc-1" 5 7 = handler.ReqRegister body "svc-1" d1 d2.
Proof.
  split; [exact examples_w0_invariant|].
  assert (Hadded : is_Some
    (handler.repo
       (handler.serve gostrings.ToLowerASCII
          (handler.ReqRegister (handler.Decoded examples.register_users)
             "svc-1" 5 7) examples.w0).2 !! "svc-1")) by by eexists.
  split; [reflexivity|]. split; [exact Hadded|].
  apply (serve_changes_ids gostrings.ToLowerASCII
           (handler.ReqRegister (handler.Decoded examples.register_users)
              "svc-1" 5 7) examples.w0 "svc-1" examples_w0_invariant);
    [reflexivity | exact Hadded].
Defined.

(** X10. When requests are served one at a time, each to completion, a
    request is answered 500 in one case only: a Register whose body binds
    and whose generated id is already a key of the store; the store is
    then left as it was.  The other 500 answers need the store to change
    between a handler's read and its write, which such a run excludes.
    For Unregister: with other requests running between its GetByID and
    its Delete, it answers 500 exactly when the id was stored at GetByID
    and is gone at Delete, the error is the repository's not-found and
    the state is left as the others left it; with nothing in between it
    is the Unregister of the one-at-a-time run. *)
Theorem serve_500_only_on_collision (ToLower : string -> string)
    (rq : handler.Request) (w : handler.World) :
  handler.invariant w ->
  (handler.code (handler.serve ToLower rq w).1 =
     handler.StatusInternalServerError ->
   exists req uuid d1 d2,
     rq = handler.ReqRegister (handler.Decoded req) uuid d1 d2 /\
     handler.validate_Register req = true /\
     is_Some (handler.repo w !! uuid) /\
     handler.repo (handler.serve ToLower rq w).2 = handler.repo w) /\
  (forall id,
     handler.Unregister_interleaved (fun w' => w') id w =
       handler.Unregister id w) /\
  (forall (between : handler.World -> handler.World) id,
     (handler.code (handler.Unregister_interleaved between id w).1 =
        handler.StatusInternalServerError <->
      is_Some (handler.repo w !! id) /\
      handler.repo (between w) !! id = None) /\
     (is_Some (handler.repo w !! id) ->
      handler.repo (between w) !! id = None ->
      handler.Unregister_interleaved between id w =
        (handler.JSON handler.StatusInternalServerError
           (handler.PError
              (handler.Text
                 (repository.Error repository.ErrServiceNotFound))),
         between w))).
Proof.
  intros (Hkeyed & Hstamped & Hhealthy). split; [|split].
  - destruct rq as [body uuid d1 d2 | | route name tag | id | id body | id
                   | id d]; cbn [handler.serve].
    + destruct (Register_cases body uuid d1 d2 w)
        as [[Hcode _] | [(req & -> & Hvalid & Huuid & _ & Hrepo) |
                          (created & _ & Hresp & _)]].
      * rewrite Hcode. discriminate.
      * intros _. by exists req, uuid, d1, d2.
      * rewrite Hresp. discriminate.
    + discriminate.
    + discriminate.
    + unfold handler.Get.
      destruct (repository.GetByID id (handler.repo w)); discriminate.
    + destruct (Update_cases id body w Hkeyed)
        as [[[Hcode | Hcode] _] | (stored & req & _ & _ & _ & Hrun)].
      * rewrite Hcode. discriminate.
      * rewrite Hcode. discriminate.
      * rewrite Hrun. discriminate.
    + destruct (handler.repo w !! id) as [stored|] eqn:Hid.
      * rewrite (Unregister_known w id stored Hid). discriminate.
      * rewrite (Unregister_unknown w id Hid). discriminate.
    + destruct (handler.repo w !! id) as [stored|] eqn:Hid.
      * pose proof (Heartbeat_known w id stored d Hkeyed Hid) as Hrun.
        cbv zeta in Hrun. rewrite Hrun. discriminate.
      * rewrite (Heartbeat_unknown w id d Hid). discriminate.
  - reflexivity.
  - intros between id.
    unfold handler.Unregister_interleaved, repository.GetByID,
      repository.Delete. cbv zeta.
    destruct (handler.repo w !! id) as [stored|] eqn:Hid.
    + destruct (handler.repo (between w) !! id) as [left|] eqn:Hleft.
      * split.
        -- split; [discriminate|]. intros [_ Hgone]. discriminate Hgone.
        -- intros _ Hgone. discriminate Hgone.
      * split.
        -- split; [intros _; split; [by eexists | done] | done].
        -- intros _ _. unfold handler.set_repo. by destruct (between w).
    + split.
      * split; [discriminate|]. intros [[x Hx] _]. discriminate Hx.
      * intros [x Hx]. discriminate Hx.
Qed.

Lemma serve_500_only_on_collision_witness :
  handler.invariant examples.w1 /\
  (exists req uuid d1 d2,
     handler.ReqRegister (handler.Decoded examples.register_users)
       "svc-1" 1 1 = handler.ReqRegister (handler.Decoded req) uuid d1 d2 /\
     handler.validate_Register req = true /\
     is_Some (handler.repo examples.w1 !! uuid) /\
     handler.repo
       (handler.serve gostrings.ToLowerASCII
          (handler.ReqRegister (handler.Decoded examples.register_users)
             "svc-1" 1 1) examples.w1).2 = handler.repo examples.w1) /\
  handler.code
    (handler.Unregister_interleaved
       (fun w => (handler.Unregister "svc-1" w).2) "svc-1" examples.w1).1 =
    handler.StatusInternalServerError.
Proof.
  split; [exact examples_w1_invariant|].
  destruct (serve_500_only_on_collision gostrings.ToLowerASCII
              (handler.ReqRegister (handler.Decoded examples.register_users)
                 "svc-1" 1 1) examples.w1 examples_w1_invariant)
    as (Hsequential & _ & Hinterleaved).
  split.
  - apply Hsequential. reflexivity.
  - apply (Hinterleaved (fun w => (handler.Unregister "svc-1" w).2) "svc-1").
    split; [by eexists | reflexivity].
Defined.

Section MergeFacts.
Import domain handler.

Lemma merge_idempotent (req : UpdateServiceRequest.t) (stored : Service) :
  merge req (merge req stored) = merge req stored.
Proof.
  unfold merge.
  destruct (UpdateServiceRequest.Host req =? ""),
    (UpdateServiceRequest.Port req =? 0)%Z,
    (UpdateServiceRequest.Protocol req =? ""),
    (UpdateServiceRequest.BasePath req =? ""),
    (UpdateServiceRequest.Routes req),
    (UpdateServiceRequest.HealthCheck req =? ""),
    (UpdateServiceRequest.Tags req),
    (UpdateServiceRequest.Metadata req); reflexivity.
Qed.

Lemma merge_nothing (stored : Service) :
  merge (UpdateServiceRequest.mk "" 0 "" "" None "" None None) stored = stored.
Proof. by destruct stored. Qed.

End MergeFacts.

(** X11. Update is idempotent: sending an accepted request a second time
    gets the same answer and leaves the state the first one left.  A
    request with every field at its zero value (the body [{}]) is answered
    200 with the stored record and changes nothing. *)
Theorem Update_idempotent (id : string) (req : domain.UpdateServiceRequest.t)
    (w : handler.World) (stored : domain.Service) :
  handler.keyed (handler.repo w) ->
  handler.repo w !! id = Some stored ->
  handler.validate_Update req = true ->
  let once := handler.Update id (handler.Decoded req) w in
  handler.Update id (handler.Decoded req) once.2 = once /\
  handler.Update id
    (handler.Decoded
       (domain.UpdateServiceRequest.mk "" 0 "" "" None "" None None)) w =
    (handler.JSON handler.StatusOK (handler.PService stored), w).
Proof.
  intros Hkeyed Hid Hvalid once. subst once.
  rewrite (Update_accepted w id stored req Hkeyed Hid Hvalid). cbn [snd].
  split.
  - rewrite (Update_accepted _ id (handler.merge req stored) req).
    + cbn [handler.repo handler.clock].
      by rewrite merge_idempotent, insert_insert_eq.
    + cbn [handler.repo]. apply map_Forall_insert_2; [|done].
      destruct (merge_untouched req stored) as [-> _].
      by apply (keyed_lookup (handler.repo w)).
    + cbn [handler.repo]. apply lookup_insert_eq.
    + done.
  - rewrite (Update_accepted w id stored _ Hkeyed Hid) by reflexivity.
    rewrite merge_nothing, (insert_id _ _ _ Hid). by destruct w.
Qed.

Lemma Update_idempotent_witness :
  handler.keyed (handler.repo examples.w1) /\
  handler.validate_Update examples.update_port = true /\
  handler.Update "svc-1" (handler.Decoded examples.update_port)
    (handler.Update "svc-1" (handler.Decoded examples.update_port)
       examples.w1).2 =
  handler.Update "svc-1" (handler.Decoded examples.update_port) examples.w1.
Proof.
  split; [exact examples_w1_keyed|]. split; [reflexivity|].
  apply (Update_idempotent "svc-1" examples.update_port examples.w1 _
           examples_w1_keyed eq_refl eq_refl).
Defined.

(** ** Configuration *)

Section ConfigFacts.
Import config.

Lemma validLogLevels_spec (level : string) :
  index validLogLevels level = true <->
  level = "debug" \/ level = "info" \/ level = "warn" \/ level = "error".
Proof.
  unfold index, validLogLevels.
  rewrite !lookup_insert, lookup_empty.
  repeat case_decide; subst; simpl; split; intros Hin; try done;
    try tauto; destruct Hin as [Hin | [Hin | [Hin | Hin]]]; congruence.
Qed.

Lemma validGinModes_spec (mode : string) :
  index validGinModes mode = true <->
  mode = "debug" \/ mode = "release" \/ mode = "test".
Proof.
  unfold index, validGinModes.
  rewrite !lookup_insert, lookup_empty.
  repeat case_decide; subst; simpl; split; intros Hin; try done;
    try tauto; destruct Hin as [Hin | [Hin | Hin]]; congruence.
Qed.


Variable Getenv : string -> string.
Variable Atoi : string -> option Z.

(** What [WithEnv] leaves in the configuration. *)
Local Abbreviation env_port :=
  (if Getenv "PORT" =? "" then 8080%Z
   else match Atoi (Getenv "PORT") with
        | Some p => p
        | None => 8080%Z
        end).
Local Abbreviation env_level :=
  (if Getenv "LOG_LEVEL" =? "" then "info" else Getenv "LOG_LEVEL").
Local Abbreviation env_mode :=
  (if Getenv "GIN_MODE" =? "" then "release" else Getenv "GIN_MODE").

Lemma WithEnv_NewBuilder :
  WithEnv Getenv Atoi NewBuilder =
    mkBuilder (mkConfig env_port env_level env_mode)
      (if Getenv "PORT" =? "" then []
       else match Atoi (Getenv "PORT") with
            | Some _ => []
            | None => ["PORT must be a valid integer"]
            end).
Proof.
  unfold WithEnv, NewBuilder, fail.
  destruct (Getenv "PORT" =? ""), (Atoi (Getenv "PORT")),
    (Getenv "LOG_LEVEL" =? ""), (Getenv "GIN_MODE" =? ""); reflexivity.
Qed.

Lemma Validate_errors (b : Builder) :
  config (Validate b) = config b /\
  errors (Validate b) =
    (errors b ++
     (if (Port (config b) <=? 0)%Z || (65535 <? Port (config b))%Z
      then ["PORT must be between 1 and 65535"] else []) ++
     (if negb (index validLogLevels (LogLevel (config b)))
      then ["LOG_LEVEL must be one of: debug, info, warn, error"] else []) ++
     (if negb (index validGinModes (GinMode (config b)))
      then ["GIN_MODE must be one of: debug, release, test"] else []))%list.
Proof.
  unfold Validate. cbv zeta.
  destruct ((Port (config b) <=? 0)%Z || (65535 <? Port (config b))%Z);
    cbn [fail config errors];
    destruct (negb (index validLogLevels (LogLevel (config b))));
    cbn [fail config errors];
    destruct (negb (index validGinModes (GinMode (config b))));
    cbn [fail config errors];
    (split; [reflexivity|]); rewrite <- ?app_assoc; simpl;
    rewrite ?app_nil_r; reflexivity.
Qed.

Lemma Build_spec (b : Builder) :
  (errors b = [] /\ Build b = (Some (config b), None)) \/
  (errors b <> [] /\ Build b = (None, Some (errors b))).
Proof. unfold Build. destruct (errors b); [by left | by right]. Qed.


Lemma pipeline (b := Validate (WithEnv Getenv Atoi NewBuilder)) :
  config b = mkConfig env_port env_level env_mode /\
  errors b =
    ((if Getenv "PORT" =? "" then []
      else match Atoi (Getenv "PORT") with
           | Some _ => []
           | None => ["PORT must be a valid integer"]
           end) ++
     (if (env_port <=? 0)%Z || (65535 <? env_port)%Z
      then ["PORT must be between 1 and 65535"] else []) ++
     (if negb (index validLogLevels env_level)
      then ["LOG_LEVEL must be one of: debug, info, warn, error"] else []) ++
     (if negb (index validGinModes env_mode)
      then ["GIN_MODE must be one of: debug, release, test"] else []))%list.
Proof.
  subst b. destruct (Validate_errors (WithEnv Getenv Atoi NewBuilder))
    as [-> ->].
  by rewrite WithEnv_NewBuilder.
Qed.

Lemma env_level_valid :
  index validLogLevels env_level = true <->
  Getenv "LOG_LEVEL" = "" \/ Getenv "LOG_LEVEL" = "debug" \/
  Getenv "LOG_LEVEL" = "info" \/ Getenv "LOG_LEVEL" = "warn" \/
  Getenv "LOG_LEVEL" = "error".
Proof.
  destruct (String.eqb_spec (Getenv "LOG_LEVEL") "") as [Hempty | Hset].
  - split; [by left | reflexivity].
  - rewrite validLogLevels_spec. tauto.
Qed.

Lemma env_mode_valid :
  index validGinModes env_mode = true <->
  Getenv "GIN_MODE" = "" \/ Getenv "GIN_MODE" = "debug" \/
  Getenv "GIN_MODE" = "release" \/ Getenv "GIN_MODE" = "test".
Proof.
  destruct (String.eqb_spec (Getenv "GIN_MODE") "") as [Hempty | Hset].
  - split; [by left | reflexivity].
  - rewrite validGinModes_spec. tauto.
Qed.


(** X12. The configuration read from the environment and validated is
    built exactly when PORT is unset or an integer in [1, 65535],
    LOG_LEVEL is unset or one of debug, info, warn, error, and GIN_MODE is
    unset or one of debug, release, test; it then holds the values set,
    with 8080, "info" and "release" for the ones that are not; otherwise
    no configuration is returned. *)
Theorem config_build_succeeds :
  let result := Build (Validate (WithEnv Getenv Atoi NewBuilder)) in
  (result.2 = None <->
   (Getenv "PORT" = "" \/
    exists p, Atoi (Getenv "PORT") = Some p /\ (1 <= p <= 65535)%Z) /\
   (Getenv "LOG_LEVEL" = "" \/ Getenv "LOG_LEVEL" = "debug" \/
    Getenv "LOG_LEVEL" = "info" \/ Getenv "LOG_LEVEL" = "warn" \/
    Getenv "LOG_LEVEL" = "error") /\
   (Getenv "GIN_MODE" = "" \/ Getenv "GIN_MODE" = "debug" \/
    Getenv "GIN_MODE" = "release" \/ Getenv "GIN_MODE" = "test")) /\
  (result.2 = None ->
   result.1 = Some (mkConfig env_port env_level env_mode)) /\
  (result.2 <> None -> result.1 = None).
Proof.
  cbv zeta. destruct pipeline as [Hconfig Herrors].
  rewrite <- env_level_valid, <- env_mode_valid.
  destruct (Build_spec (Validate (WithEnv Getenv Atoi NewBuilder)))
    as [[Hnone ->] | [Hsome ->]]; cbn [fst snd]; rewrite Herrors in *.
  - split; [|by rewrite Hconfig]. split; [intros _|done].
    apply app_eq_nil in Hnone as [Hparse Hnone].
    apply app_eq_nil in Hnone as [Hrange Hnone].
    apply app_eq_nil in Hnone as [Hlevel Hmode].
    split; [|split].
    + destruct (String.eqb_spec (Getenv "PORT") ""); [by left|]. right.
      destruct (Atoi (Getenv "PORT")) as [p|]; [|discriminate Hparse].
      exists p. split; [done|].
      destruct ((p <=? 0)%Z || (65535 <? p)%Z) eqn:Hp;
        [discriminate Hrange|].
      apply orb_false_iff in Hp as [Hlo Hhi]. lia.
    + by destruct (index validLogLevels env_level).
    + by destruct (index validGinModes env_mode).
  - split; [|done]. split; [done|]. intros (Hport & Hlevel & Hmode).
    exfalso. apply Hsome. rewrite Hlevel, Hmode. simpl.
    destruct Hport as [-> | (p & Hp & Hrange)].
    + reflexivity.
    + rewrite Hp. destruct (Getenv "PORT" =? ""); [reflexivity|].
      assert ((p <=? 0)%Z || (65535 <? p)%Z = false) as ->
        by (apply orb_false_iff; lia).
      reflexivity.
Qed.

(** X13. Without the call to Validate, the configuration is built exactly
    when PORT is unset or parses as an integer: a port outside
    [1, 65535] and an unknown LOG_LEVEL or GIN_MODE are then returned
    as they are read. *)
Theorem config_build_unvalidated :
  let result := Build (WithEnv Getenv Atoi NewBuilder) in
  (result.2 = None <->
   Getenv "PORT" = "" \/ is_Some (Atoi (Getenv "PORT"))) /\
  (result.2 = None ->
   result.1 = Some (mkConfig env_port env_level env_mode)).
Proof.
  cbv zeta. rewrite WithEnv_NewBuilder. unfold Build. cbn [errors config].
  destruct (String.eqb_spec (Getenv "PORT") "") as [Hempty | Hset].
  - simpl. split; [|done]. split; [by left | done].
  - destruct (Atoi (Getenv "PORT")) as [p|]; simpl.
    + split; [|done]. split; [intros _; right; by eexists | done].
    + split; [|done]. split; [done|]. intros [? | [p Hp]]; done.
Qed.


Lemma elem_of_if_singleton (c : bool) (m x : string) :
  x ∈ (if c then [m] else []) <-> c = true /\ x = m.
Proof.
  destruct c.
  - rewrite list_elem_of_singleton. tauto.
  - rewrite elem_of_nil. split; [done | by intros [? _]].
Qed.

Lemma if_singleton_sublist (c : bool) (m : string) :
  (if c then [m] else []) `sublist_of` [m].
Proof. destruct c; [done | apply sublist_nil_l]. Qed.

Lemma if_singleton_length (c : bool) (m : string) :
  (length (if c then [m] else []) <= 1)%nat.
Proof. destruct c; simpl; lia. Qed.

Lemma parse_error_reported (x : string) :
  x ∈ (if Getenv "PORT" =? "" then []
       else match Atoi (Getenv "PORT") with
            | Some _ => []
            | None => ["PORT must be a valid integer"]
            end) <->
  x = "PORT must be a valid integer" /\
  Getenv "PORT" <> "" /\ Atoi (Getenv "PORT") = None.
Proof.
  destruct (String.eqb_spec (Getenv "PORT") "") as [Hempty | Hset].
  - rewrite elem_of_nil. tauto.
  - destruct (Atoi (Getenv "PORT")) as [p|].
    + rewrite elem_of_nil. split; [done | by intros (_ & _ & ?)].
    + rewrite list_elem_of_singleton. tauto.
Qed.

Lemma range_error_reported :
  (env_port <=? 0)%Z || (65535 <? env_port)%Z = true <->
  exists p, Getenv "PORT" <> "" /\ Atoi (Getenv "PORT") = Some p /\
    ~ (1 <= p <= 65535)%Z.
Proof.
  rewrite orb_true_iff, Z.leb_le, Z.ltb_lt.
  destruct (String.eqb_spec (Getenv "PORT") "") as [Hempty | Hset].
  - split; [lia | by intros (p & ? & _)].
  - destruct (Atoi (Getenv "PORT")) as [p|].
    + split.
      * intros Hp. exists p. repeat split; try done. lia.
      * intros (q & _ & Hq & Hrange). injection Hq as ->. lia.
    + split; [lia | by intros (p & _ & ? & _)].
Qed.

(** X14. Validation reports every failure together, in the order PORT,
    LOG_LEVEL, GIN_MODE, each one exactly when its check fails; a PORT
    that does not parse is reported as such and never also as out of
    range, so at most three errors are reported. *)
Theorem config_errors_aggregate :
  let errs := errors (Validate (WithEnv Getenv Atoi NewBuilder)) in
  ("PORT must be a valid integer" ∈ errs <->
   Getenv "PORT" <> "" /\ Atoi (Getenv "PORT") = None) /\
  ("PORT must be between 1 and 65535" ∈ errs <->
   exists p, Getenv "PORT" <> "" /\ Atoi (Getenv "PORT") = Some p /\
     ~ (1 <= p <= 65535)%Z) /\
  ("LOG_LEVEL must be one of: debug, info, warn, error" ∈ errs <->
   ~ (Getenv "LOG_LEVEL" = "" \/ Getenv "LOG_LEVEL" = "debug" \/
      Getenv "LOG_LEVEL" = "info" \/ Getenv "LOG_LEVEL" = "warn" \/
      Getenv "LOG_LEVEL" = "error")) /\
  ("GIN_MODE must be one of: debug, release, test" ∈ errs <->
   ~ (Getenv "GIN_MODE" = "" \/ Getenv "GIN_MODE" = "debug" \/
      Getenv "GIN_MODE" = "release" \/ Getenv "GIN_MODE" = "test")) /\
  errs `sublist_of`
    ["PORT must be a valid integer"; "PORT must be between 1 and 65535";
     "LOG_LEVEL must be one of: debug, info, warn, error";
     "GIN_MODE must be one of: debug, release, test"] /\
  (length errs <= 3)%nat.
Proof.
  cbv zeta. destruct pipeline as [_ ->].
  rewrite <- env_level_valid, <- env_mode_valid, <- range_error_reported.
  rewrite !not_true_iff_false.
  split; [|split; [|split; [|split; [|split]]]].
  - rewrite !elem_of_app, !elem_of_if_singleton, parse_error_reported.
    rewrite !negb_true_iff.
    split; [|tauto].
    intros [H | [[_ H] | [[_ H] | [_ H]]]]; [tauto | discriminate H..].
  - rewrite !elem_of_app, !elem_of_if_singleton, parse_error_reported.
    rewrite !negb_true_iff.
    split; [|tauto].
    intros [[H _] | [[H _] | [[_ H] | [_ H]]]];
      [discriminate H | done | discriminate H..].
  - rewrite !elem_of_app, !elem_of_if_singleton, parse_error_reported.
    rewrite !negb_true_iff.
    split; [|tauto].
    intros [[H _] | [[_ H] | [[H _] | [_ H]]]];
      [discriminate H | discriminate H | done | discriminate H].
  - rewrite !elem_of_app, !elem_of_if_singleton, parse_error_reported.
    rewrite !negb_true_iff.
    split; [|tauto].
    intros [[H _] | [[_ H] | [[_ H] | [H _]]]];
      [discriminate H | discriminate H | discriminate H | done].
  - change ["PORT must be a valid integer";
            "PORT must be between 1 and 65535";
            "LOG_LEVEL must be one of: debug, info, warn, error";
            "GIN_MODE must be one of: debug, release, test"]
      with (["PORT must be a valid integer"] ++
            ["PORT must be between 1 and 65535"] ++
            ["LOG_LEVEL must be one of: debug, info, warn, error"] ++
            ["GIN_MODE must be one of: debug, release, test"])%list.
    repeat apply sublist_app; try apply if_singleton_sublist.
    destruct (Getenv "PORT" =? ""); [apply sublist_nil_l|].
    destruct (Atoi (Getenv "PORT")); [apply sublist_nil_l | done].
  - rewrite !length_app.
    pose proof (if_singleton_length
                  (negb (index validLogLevels env_level))
                  "LOG_LEVEL must be one of: debug, info, warn, error").
    pose proof (if_singleton_length
                  (negb (index validGinModes env_mode))
                  "GIN_MODE must be one of: debug, release, test").
    destruct (Getenv "PORT" =? ""); [simpl; lia|].
    destruct (Atoi (Getenv "PORT")) as [p|].
    + pose proof (if_singleton_length ((p <=? 0)%Z || (65535 <? p)%Z)
                    "PORT must be between 1 and 65535").
      simpl. lia.
    + simpl. lia.
Qed.

End ConfigFacts.

(** ** The client: what a call can return, whatever the transport does *)

Section ClientOutcomes.
Import servicediscovery.

Variable NewRequest : string -> string -> option string -> option string.
Variable Do : nat -> string + Response.

Lemma failed_before (a k : nat) :
  (exists e, Do a = inl e) ->
  (forall j, (j < k)%nat -> exists e, Do (S a + j)%nat = inl e) ->
  forall j, (j < S k)%nat -> exists e, Do (a + j)%nat = inl e.
Proof.
  intros Hfirst Hrest [|j] Hj.
  - by rewrite Nat.add_0_r.
  - destruct (Hrest j ltac:(lia)) as [e He]. exists e.
    rewrite <- He. f_equal. lia.
Qed.

(** The loop over the values [i, i + 1, ..., retries] of its index. *)
Lemma loop_outcomes (c : Client) (method path : string)
    (body : option string) (len : nat) :
  forall (i : Z) (lastErr : option error) (n : Net),
    (i + Z.of_nat len = retries (options c) + 1)%Z ->
    let out := doRequest_loop NewRequest Do c method path body
                 (seqZ i (Z.of_nat len)) lastErr n in
    (len = 0%nat /\ out = ((None, lastErr), n)) \/
    (len <> 0%nat /\ exists e,
       NewRequest method (baseURL c ++ path) body = Some e /\
       out = ((None, Some (Foreign e)), n)) \/
    (NewRequest method (baseURL c ++ path) body = None /\
     exists k r, (k < len)%nat /\
       (forall j, (j < k)%nat ->
          exists e, Do (attempts n + j)%nat = inl e) /\
       Do (attempts n + k)%nat = inr r /\
       out = ((Some r, None),
              mkNet (attempts n + k + 1)
                (replicate k (retryDelay (options c)) ++ sleeps n))) \/
    (NewRequest method (baseURL c ++ path) body = None /\
     exists k e, len = S k /\
       (forall j, (j < k)%nat ->
          exists e, Do (attempts n + j)%nat = inl e) /\
       Do (attempts n + k)%nat = inl e /\
       out = ((None, Some (Wrapped ErrConnectionFailed e)),
              mkNet (attempts n + k + 1)
                (replicate k (retryDelay (options c)) ++ sleeps n))).
Proof.
  induction len as [|len IH]; intros i lastErr n Hlen out; subst out.
  - left. by rewrite seqZ_nil by lia.
  - right. rewrite seqZ_cons by lia. cbn [doRequest_loop].
    destruct (NewRequest method (baseURL c ++ path) body) as [e|] eqn:Hnew.
    { left. split; [done|]. by exists e. }
    right.
    destruct (Do (attempts n)) as [e | r] eqn:Hdo.
    + destruct (Z.ltb_spec i (retries (options c))) as [Hlt | Hge].
      * replace (Z.pred (Z.of_nat (S len))) with (Z.of_nat len) by lia.
        cbn [attempts sleeps].
        destruct (IH (Z.succ i) (Some (Foreign e))
                    (mkNet (S (attempts n))
                       (retryDelay (options c) :: sleeps n)))
          as [[Hzero _] | [(_ & e' & He' & _) |
              [(_ & k & r & Hk & Hf & Hr & ->) |
               (_ & k & e' & Hk & Hf & He' & ->)]]];
          cbn [attempts sleeps] in *.
        -- lia.
        -- lia.
        -- discriminate He'.
        -- left. split; [done|]. exists (S k), r.
           split; [lia|]. split; [apply failed_before; [by eexists | done]|]. split.
           ++ rewrite <- Hr. f_equal. lia.
           ++ rewrite replicate_snoc_cons. simpl. do 2 f_equal. lia.
        -- right. split; [done|]. exists (S k), e'.
           split; [lia|]. split; [apply failed_before; [by eexists | done]|]. split.
           ++ rewrite <- He'. f_equal. lia.
           ++ rewrite replicate_snoc_cons. simpl. do 2 f_equal. lia.
      * right. split; [done|]. exists 0%nat, e.
        split; [lia|]. split; [intros j Hj; lia|]. split.
        -- by rewrite Nat.add_0_r.
        -- simpl. do 2 f_equal. lia.
    + left. split; [done|]. exists 0%nat, r. split; [lia|].
      split; [intros j Hj; lia|]. split.
      * by rewrite Nat.add_0_r.
      * simpl. do 2 f_equal. lia.
Qed.

(** The ways [doRequest] can end, by cases on the retry count, on
    whether the request builds and on what the transport does. *)
Lemma doRequest_cases (c : Client) (method path : string)
    (body : option string) (n : Net) :
  let out := doRequest NewRequest Do c method path body n in
  ((retries (options c) < 0)%Z /\ out = ((None, None), n)) \/
  ((0 <= retries (options c))%Z /\ exists e,
     NewRequest method (baseURL c ++ path) body = Some e /\
     out = ((None, Some (Foreign e)), n)) \/
  (NewRequest method (baseURL c ++ path) body = None /\
   exists k r, (Z.of_nat k <= retries (options c))%Z /\
     (forall j, (j < k)%nat -> exists e, Do (attempts n + j)%nat = inl e) /\
     Do (attempts n + k)%nat = inr r /\
     out = ((Some r, None),
            mkNet (attempts n + k + 1)
              (replicate k (retryDelay (options c)) ++ sleeps n))) \/
  (NewRequest method (baseURL c ++ path) body = None /\
   exists k e, Z.of_nat k = retries (options c) /\
     (forall j, (j < k)%nat -> exists e, Do (attempts n + j)%nat = inl e) /\
     Do (attempts n + k)%nat = inl e /\
     out = ((None, Some (Wrapped ErrConnectionFailed e)),
            mkNet (attempts n + k + 1)
              (replicate k (retryDelay (options c)) ++ sleeps n))).
Proof.
  cbv zeta. unfold doRequest.
  destruct (Z.ltb_spec (retries (options c)) 0) as [Hneg | Hpos].
  - left. split; [done|]. by rewrite seqZ_nil by lia.
  - right.
    replace (retries (options c) + 1)%Z
      with (Z.of_nat (S (Z.to_nat (retries (options c))))) by lia.
    destruct (loop_outcomes c method path body
                (S (Z.to_nat (retries (options c)))) 0 None n)
      as [[Hzero _] | [(_ & e & He & ->) |
          [(Hnew & k & r & Hk & Hf & Hr & ->) |
           (Hnew & k & e & Hk & Hf & He & ->)]]].
    + lia.
    + lia.
    + left. split; [done|]. by exists e.
    + right. left. split; [done|]. exists k, r. repeat split; try done. lia.
    + right. right. split; [done|]. exists k, e.
      repeat split; try done. lia.
Qed.

(** X15. Whatever the transport does, [doRequest] ends in one of four
    ways.  With a negative retry count it does nothing and returns
    neither a response nor an error.  When the request cannot be built it
    returns that error as it is, without any attempt.  Otherwise it
    returns the response of the first attempt that gets one, after at
    most [retries] failed attempts, or, when all [retries + 1] attempts
    fail, the last error wrapped in ConnectionFailed; in both cases it
    has slept the retry delay once after each failed attempt but the
    last.  It never returns a response together with an error. *)
Theorem doRequest_outcomes (c : Client) (method path : string)
    (body : option string) (n : Net) :
  let out := doRequest NewRequest Do c method path body n in
  ((retries (options c) < 0)%Z /\ out = ((None, None), n)) \/
  ((0 <= retries (options c))%Z /\ exists e,
     NewRequest method (baseURL c ++ path) body = Some e /\
     out = ((None, Some (Foreign e)), n)) \/
  (NewRequest method (baseURL c ++ path) body = None /\
   exists k r, (Z.of_nat k <= retries (options c))%Z /\
     (forall j, (j < k)%nat -> exists e, Do (attempts n + j)%nat = inl e) /\
     Do (attempts n + k)%nat = inr r /\
     out = ((Some r, None),
            mkNet (attempts n + k + 1)
              (replicate k (retryDelay (options c)) ++ sleeps n))) \/
  (NewRequest method (baseURL c ++ path) body = None /\
   exists k e, Z.of_nat k = retries (options c) /\
     (forall j, (j < k)%nat -> exists e, Do (attempts n + j)%nat = inl e) /\
     Do (attempts n + k)%nat = inl e /\
     out = ((None, Some (Wrapped ErrConnectionFailed e)),
            mkNet (attempts n + k + 1)
              (replicate k (retryDelay (options c)) ++ sleeps n))).
Proof. exact (doRequest_cases c method path body n). Qed.

End ClientOutcomes.

Section CallOutcomes.
Import servicediscovery.

Variables Service RegisterRequest UpdateRequest : Type.
Variable Service_ID : Service -> string.
Variable Marshal_RegisterRequest : RegisterRequest -> string.
Variable Marshal_UpdateRequest : UpdateRequest -> string.
Variable Decode_Service : string -> string + Service.
Variable Decode_ListResponse : string -> string + option (list Service).
Variable Unmarshal_errResp : string -> option string.
Variable Encode : list (string * string) -> string.
Variable NewRequest : string -> string -> option string -> option string.
Variable Do : nat -> string + Response.

Local Abbreviation run := (perform Service_ID Marshal_RegisterRequest
  Marshal_UpdateRequest Decode_Service Decode_ListResponse Unmarshal_errResp
  Encode NewRequest Do).

(** Every request method is [call] with an answer per response that never
    panics and is a value only for the status the method accepts. *)
Lemma perform_accepts (cl : Call RegisterRequest UpdateRequest)
    (c : Client) :
  exists (method path : string) (body : option string)
         (k : Response -> Result (Value Service)),
    (forall n, run cl c n = call NewRequest Do c method path body k n) /\
    (forall resp, k resp <> Panic) /\
    (forall resp v, k resp = Ok v -> StatusCode resp = client.accepted cl).
Proof.
  destruct cl as [req | id | | route name tag | id req | id | id];
    cbn [perform client.accepted].
  - exists "POST", "/api/v1/services/register",
      (Some (Marshal_RegisterRequest req)).
    exists (fun resp =>
      value VService
        (if negb (StatusCode resp =? StatusCreated)%Z
         then Err (parseError Unmarshal_errResp resp)
         else decode_Service Decode_Service resp)).
    split; [|split].
    + intros n. unfold Register, value. rewrite call_value.
      destruct (call _ _ _ _ _ _ _ n) as [[service | err |] n']; reflexivity.
    + intros resp. unfold decode_Service.
      destruct (StatusCode resp =? StatusCreated)%Z; [|done].
      by destruct (Decode_Service (Body resp)).
    + intros resp v.
      destruct (Z.eqb_spec (StatusCode resp) StatusCreated); done.
  - do 3 eexists.
    exists (fun resp =>
      value VService
        (if (StatusCode resp =? StatusNotFound)%Z
         then Err (Is_ ErrServiceNotFound)
         else if negb (StatusCode resp =? StatusOK)%Z
         then Err (parseError Unmarshal_errResp resp)
         else decode_Service Decode_Service resp)).
    split; [|split].
    + intros n. unfold Get, value. by rewrite call_value.
    + intros resp. unfold decode_Service.
      destruct (StatusCode resp =? StatusNotFound)%Z; [done|].
      destruct (StatusCode resp =? StatusOK)%Z; [|done].
      by destruct (Decode_Service (Body resp)).
    + intros resp v.
      destruct (StatusCode resp =? StatusNotFound)%Z; [done|].
      destruct (Z.eqb_spec (StatusCode resp) StatusOK); done.
  - do 3 eexists.
    exists (fun resp =>
      value VServices
        (if negb (StatusCode resp =? StatusOK)%Z
         then Err (parseError Unmarshal_errResp resp)
         else decode_Services Decode_ListResponse resp)).
    split; [|split].
    + intros n. unfold List, value. by rewrite call_value.
    + intros resp. unfold decode_Services.
      destruct (StatusCode resp =? StatusOK)%Z; [|done].
      by destruct (Decode_ListResponse (Body resp)).
    + intros resp v.
      destruct (Z.eqb_spec (StatusCode resp) StatusOK); done.
  - do 3 eexists.
    exists (fun resp =>
      value VServices
        (if negb (StatusCode resp =? StatusOK)%Z
         then Err (parseError Unmarshal_errResp resp)
         else decode_Services Decode_ListResponse resp)).
    split; [|split].
    + intros n. unfold Search, value. cbv zeta. by rewrite call_value.
    + intros resp. unfold decode_Services.
      destruct (StatusCode resp =? StatusOK)%Z; [|done].
      by destruct (Decode_ListResponse (Body resp)).
    + intros resp v.
      destruct (Z.eqb_spec (StatusCode resp) StatusOK); done.
  - do 3 eexists.
    exists (fun resp =>
      value VService
        (if (StatusCode resp =? StatusNotFound)%Z
         then Err (Is_ ErrServiceNotFound)
         else if negb (StatusCode resp =? StatusOK)%Z
         then Err (parseError Unmarshal_errResp resp)
         else decode_Service Decode_Service resp)).
    split; [|split].
    + intros n. unfold Update, value. by rewrite call_value.
    + intros resp. unfold decode_Service.
      destruct (StatusCode resp =? StatusNotFound)%Z; [done|].
      destruct (StatusCode resp =? StatusOK)%Z; [|done].
      by destruct (Decode_Service (Body resp)).
    + intros resp v.
      destruct (StatusCode resp =? StatusNotFound)%Z; [done|].
      destruct (Z.eqb_spec (StatusCode resp) StatusOK); done.
  - do 3 eexists.
    exists (fun resp =>
      value (fun _ : unit => @VNone Service)
        (if (StatusCode resp =? StatusNotFound)%Z
         then Err (Is_ ErrServiceNotFound)
         else if negb (StatusCode resp =? StatusOK)%Z
         then Err (parseError Unmarshal_errResp resp)
         else Ok tt)).
    split; [|split].
    + intros n. unfold Unregister, value. by rewrite call_value.
    + intros resp.
      destruct (StatusCode resp =? StatusNotFound)%Z; [done|].
      by destruct (StatusCode resp =? StatusOK)%Z.
    + intros resp v.
      destruct (StatusCode resp =? StatusNotFound)%Z; [done|].
      destruct (Z.eqb_spec (StatusCode resp) StatusOK); done.
  - do 3 eexists.
    exists (fun resp =>
      value (fun _ : unit => @VNone Service)
        (if (StatusCode resp =? StatusNotFound)%Z
         then Err (Is_ ErrServiceNotFound)
         else if negb (StatusCode resp =? StatusOK)%Z
         then Err (parseError Unmarshal_errResp resp)
         else Ok tt)).
    split; [|split].
    + intros n. unfold Heartbeat, value. by rewrite call_value.
    + intros resp.
      destruct (StatusCode resp =? StatusNotFound)%Z; [done|].
      by destruct (StatusCode resp =? StatusOK)%Z.
    + intros resp v.
      destruct (StatusCode resp =? StatusNotFound)%Z; [done|].
      destruct (Z.eqb_spec (StatusCode resp) StatusOK); done.
Qed.

(** X16. Whatever the transport does, a request method panics exactly
    when the retry count is negative; it returns a value only when an
    attempt within the retry count got a response with the one status the
    method accepts (201 for Register, 200 for the others), every attempt
    before it having failed; and it never makes more than [retries + 1]
    attempts. *)
Theorem perform_outcomes (cl : Call RegisterRequest UpdateRequest)
    (c : Client) (n : Net) :
  let out := run cl c n in
  (out.1 = Panic <-> (retries (options c) < 0)%Z) /\
  (forall v, out.1 = Ok v ->
     exists k resp, (Z.of_nat k <= retries (options c))%Z /\
       (forall j, (j < k)%nat ->
          exists e, Do (attempts n + j)%nat = inl e) /\
       Do (attempts n + k)%nat = inr resp /\
       StatusCode resp = client.accepted cl /\
       out.2 = mkNet (attempts n + k + 1)
                 (replicate k (retryDelay (options c)) ++ sleeps n)) /\
  (attempts n <= attempts out.2
     <= attempts n + Z.to_nat (retries (options c) + 1))%nat.
Proof.
  cbv zeta.
  destruct (perform_accepts cl c)
    as (method & path & body & k & Hrun & Hpanic & Hok).
  rewrite Hrun. unfold call.
  destruct (doRequest_cases NewRequest Do c method path body n)
    as [[Hneg ->] | [(Hpos & e & _ & ->) |
        [(_ & f & r & Hf & Hfail & Hr & ->) |
         (_ & f & e & Hf & Hfail & He & ->)]]]; cbn [fst snd attempts].
  - split; [done|]. split; [done | lia].
  - split; [split; [done | lia]|]. split; [done | lia].
  - split; [split; [intros H; by apply Hpanic in H | lia]|]. split.
    + intros v Hv. exists f, r. repeat split; try done. by apply (Hok r v).
    + lia.
  - split; [split; [done | lia]|]. split; [done | lia].
Qed.

End CallOutcomes.

(** ** The client: heartbeat signalling *)

Section SignalFacts.
Import client.

(** Either no loop is waiting and every channel is closed, or the loop
    waits on the channel made last and every other channel is closed. *)
Local Abbreviation tidy s :=
  ((stopCh s = None /\ Forall (fun c => c = true) (closed s)) \/
   (exists l, closed s = (l ++ [false])%list /\
      Forall (fun c => c = true) l /\ stopCh s = Some (length l))).

Lemma close_last (l : list bool) (stop : option nat) :
  close (length l) (mkSignals (l ++ [false]) stop) =
    Some (mkSignals (l ++ [true]) stop).
Proof.
  unfold close. cbn [closed stopCh].
  rewrite lookup_app_r, Nat.sub_diag by lia. cbn [lookup list_lookup].
  rewrite insert_app_r_alt, Nat.sub_diag by lia. reflexivity.
Qed.

Lemma StartHeartbeat_tidy (s : Signals) :
  tidy s -> exists s', StartHeartbeat s = Some s' /\ tidy s' /\
    is_Some (stopCh s').
Proof.
  intros [[Hstop Hall] | (l & Hclosed & Hall & Hstop)];
    destruct s as [cl st]; cbn [closed stopCh] in *; subst.
  - eexists. split; [reflexivity|]. cbn [closed stopCh].
    split; [|by eexists]. right. by exists cl.
  - unfold StartHeartbeat. cbn [stopCh]. rewrite close_last.
    eexists. split; [reflexivity|]. cbn [closed stopCh].
    split; [|by eexists]. right. exists (l ++ [true])%list.
    split; [done|]. split; [|done].
    apply Forall_app. split; [done|]. by apply Forall_singleton.
Qed.

Lemma StopHeartbeat_tidy (s : Signals) :
  tidy s -> exists s', StopHeartbeat s = Some s' /\ tidy s' /\
    stopCh s' = None.
Proof.
  intros [[Hstop Hall] | (l & Hclosed & Hall & Hstop)];
    destruct s as [cl st]; cbn [closed stopCh] in *; subst.
  - eexists. split; [reflexivity|]. split; [by left | done].
  - unfold StopHeartbeat. cbn [stopCh]. rewrite close_last.
    eexists. split; [reflexivity|]. cbn [closed stopCh].
    split; [|done]. left. split; [done|].
    apply Forall_app. split; [done|]. by apply Forall_singleton.
Qed.

Lemma signal_all_tidy (calls : list Signal) :
  forall s, tidy s -> exists s', signal_all calls s = Some s' /\ tidy s'.
Proof.
  induction calls as [|call calls IH]; intros s Htidy.
  - by exists s.
  - cbn [signal_all]. destruct call.
    + destruct (StartHeartbeat_tidy s Htidy) as (s1 & -> & Htidy1 & _).
      by apply IH.
    + destruct (StopHeartbeat_tidy s Htidy) as (s1 & -> & Htidy1 & _).
      by apply IH.
Qed.

Lemma running_tidy (s : Signals) :
  tidy s ->
  running s = match stopCh s with Some _ => 1%nat | None => 0%nat end.
Proof.
  assert (Hnone : forall l, Forall (fun c => c = true) l ->
            filter (fun c => c = false) l = []).
  { induction 1 as [|c l Hc _ IH]; [done|]. subst c.
    rewrite filter_cons_False by done. exact IH. }
  unfold running.
  intros [[-> Hall] | (l & -> & Hall & ->)].
  - by rewrite Hnone.
  - rewrite filter_app, Hnone by done. reflexivity.
Qed.

End SignalFacts.

(** X17. No sequence of StartHeartbeat and StopHeartbeat calls on a new
    client closes a channel twice: none of them panics.  After any such
    sequence at most one stop channel is open, the one the client holds;
    after a StopHeartbeat none is open, and calling StopHeartbeat again
    changes nothing. *)
Theorem heartbeat_signals (calls : list client.Signal) :
  exists s : client.Signals,
    client.signal_all calls client.no_signals = Some s /\
    client.running s =
      match client.stopCh s with Some _ => 1%nat | None => 0%nat end /\
    (forall ch, client.stopCh s = Some ch ->
       client.closed s !! ch = Some false) /\
    (exists s', client.StopHeartbeat s = Some s' /\
       client.running s' = 0%nat /\ client.stopCh s' = None /\
       client.StopHeartbeat s' = Some s') /\
    (exists s', client.StartHeartbeat s = Some s' /\
       client.running s' = 1%nat).
Proof.
  destruct (signal_all_tidy calls client.no_signals) as (s & Hrun & Htidy).
  { left. split; [done | apply Forall_nil_2]. }
  exists s. split; [done|]. split; [by apply running_tidy|]. split.
  - intros ch Hch.
    destruct Htidy as [[Hstop _] | (l & Hclosed & _ & Hstop)];
      [congruence|].
    rewrite Hclosed. assert (ch = length l) as -> by congruence.
    by rewrite lookup_app_r, Nat.sub_diag by lia.
  - split.
    + destruct (StopHeartbeat_tidy s Htidy) as (s' & Hstop & Htidy' & Hnil).
      exists s'. split; [done|]. rewrite (running_tidy s' Htidy'), Hnil.
      split; [done|]. split; [done|].
      unfold client.StopHeartbeat. by rewrite Hnil.
    + destruct (StartHeartbeat_tidy s Htidy)
        as (s' & Hstart & Htidy' & [ch Hch]).
      exists s'. split; [done|]. by rewrite (running_tidy s' Htidy'), Hch.
Qed.
